(** * Yandex Market Language: the Feed and Shop models

    A shallow embedding of [yandex_market_language/models/feed.py] and
    [yandex_market_language/models/shop.py], and the properties of the
    encoders and of the two decoders (tree and streaming) of a shop.

    Python objects are records, exceptions are the error side of [result],
    dictionaries used as maps are [gmap]s, and the iterator the streaming
    decoder shares between its loops is the list of the events that are
    still to come. *)

From Stdlib Require Import Ascii String.
From stdpp Require Import gmap strings list fin_maps.
From Equations Require Import Equations.

Set Warnings "-register-all".

Open Scope string_scope.
Open Scope nat_scope.

(** ** Exceptions and results *)

Inductive Exception :=
| ValidationError (msg : string)
| EnableAutoDiscountsValidationError (msg : string)
| ParseError (msg : string)
| ValueError (msg : string)
| TypeError (msg : string)
| AttributeError (msg : string)
| IndexError (msg : string).

Inductive result (A : Type) :=
| Ok (a : A)
| Raise (e : Exception).
Arguments Ok {A} a.
Arguments Raise {A} e.

#[global] Instance result_ret : MRet result := λ A a, Ok a.
#[global] Instance result_bind : MBind result := λ A B f r,
  match r with
  | Ok a => f a
  | Raise e => Raise e
  end.
#[global] Instance result_fmap : FMap result := λ A B f r,
  match r with
  | Ok a => Ok (f a)
  | Raise e => Raise e
  end.

(** [EnableAutoDiscountsValidationError] is a subclass of
    [ValidationError]: an [except ValidationError] clause catches both. *)
Definition is_ValidationError (e : Exception) : bool :=
  match e with
  | ValidationError _ | EnableAutoDiscountsValidationError _ => true
  | _ => false
  end.

Definition is_ValueError (e : Exception) : bool :=
  match e with
  | ValueError _ => true
  | _ => false
  end.

(** [try: body except <caught>: handler] *)
Definition try_except {A} (body : result A) (caught : Exception → bool)
    (handler : result A) : result A :=
  match body with
  | Ok a => Ok a
  | Raise e => if caught e then handler else Raise e
  end.

(** ** Strings *)

(** Python truthiness of [None] or a [str]: [if value:]. *)
Definition truthy (value : option string) : bool :=
  match value with
  | Some (String _ _) => true
  | _ => false
  end.

Definition lower_ascii (c : ascii) : ascii :=
  let n := nat_of_ascii c in
  if (65 <=? n) && (n <=? 90) then ascii_of_nat (n + 32) else c.

(** [str.lower] on ASCII text. *)
Fixpoint lower (s : string) : string :=
  match s with
  | EmptyString => EmptyString
  | String c s' => String (lower_ascii c) (lower s')
  end.

Fixpoint repeat_char (c : ascii) (n : nat) : string :=
  match n with
  | 0 => EmptyString
  | S n' => String c (repeat_char c n')
  end.

(** [", ".join(l)] *)
Fixpoint join (sep : string) (l : list string) : string :=
  match l with
  | [] => ""
  | [s] => s
  | s :: l' => s +:+ sep +:+ join sep l'
  end.

(** ** The [datetime] library: values, [strptime] and [strftime] *)

Open Scope Z_scope.

Record datetime := {
  year : Z;
  month : Z;
  day : Z;
  hour : Z;
  minute : Z;
  second : Z
}.

Definition is_leap (y : Z) : bool :=
  (y mod 4 =? 0) && (negb (y mod 100 =? 0) || (y mod 400 =? 0)).

Definition days_in_month (y m : Z) : Z :=
  match m with
  | 2 => if is_leap y then 29 else 28
  | 4 | 6 | 9 | 11 => 30
  | _ => 31
  end.

(** The arguments [datetime(...)] accepts; anything else is a
    [ValueError]. *)
Definition valid_datetime (d : datetime) : bool :=
  (1 <=? year d) && (year d <=? 9999) &&
  (1 <=? month d) && (month d <=? 12) &&
  (1 <=? day d) && (day d <=? days_in_month (year d) (month d)) &&
  (0 <=? hour d) && (hour d <=? 23) &&
  (0 <=? minute d) && (minute d <=? 59) &&
  (0 <=? second d) && (second d <=? 59).

Definition digit_val (c : ascii) : option Z :=
  let n := Z.of_nat (nat_of_ascii c) in
  if (48 <=? n) && (n <=? 57) then Some (n - 48) else None.

Definition digit_char (k : Z) : ascii := ascii_of_nat (Z.to_nat (48 + k)).

Definition is_space (c : ascii) : bool :=
  let n := Z.of_nat (nat_of_ascii c) in
  (n =? 32) || ((9 <=? n) && (n <=? 13)).

(** A format is a sequence of directives ([%Y], [%m], ...), literal
    characters and white space. *)
Inductive directive :=
| Dir (c : ascii)
| Lit (c : ascii)
| Space.

Fixpoint directives (fmt : list ascii) : list directive :=
  match fmt with
  | [] => []
  | "%"%char :: c :: fmt' => Dir c :: directives fmt'
  | c :: fmt' => (if is_space c then Space else Lit c) :: directives fmt'
  end.

(** The six numeric directives the two feed formats use. [strptime] turns
    each into a regular expression with alternatives, tried in order:
    - [%Y]: [\d\d\d\d];
    - [%m]: [1[0-2]|0[1-9]|[1-9]];
    - [%d]: [3[01]|[12]\d|0[1-9]|[1-9]| [1-9]];
    - [%H]: [2[0-3]|[0-1]\d|\d];
    - [%M]: [[0-5]\d|\d];
    - [%S]: [6[0-1]|[0-5]\d|\d].
    [two_ok] and [one_ok] say which two-digit and one-digit texts an
    alternative accepts. *)
Definition two_ok (c : ascii) (v : Z) : bool :=
  match c with
  | "m"%char => (1 <=? v) && (v <=? 12)
  | "d"%char => (1 <=? v) && (v <=? 31)
  | "H"%char => v <=? 23
  | "M"%char => v <=? 59
  | "S"%char => v <=? 61
  | _ => false
  end.

Definition one_ok (c : ascii) (v : Z) : bool :=
  match c with
  | "m"%char | "d"%char => 1 <=? v
  | "H"%char | "M"%char | "S"%char => true
  | _ => false
  end.

Definition four_digits (s : list ascii) : list (Z * list ascii) :=
  match s with
  | c3 :: c2 :: c1 :: c0 :: s' =>
      match digit_val c3, digit_val c2, digit_val c1, digit_val c0 with
      | Some d3, Some d2, Some d1, Some d0 =>
          [(1000 * d3 + 100 * d2 + 10 * d1 + d0, s')]
      | _, _, _, _ => []
      end
  | _ => []
  end.

Definition two_digits (c : ascii) (s : list ascii) : list (Z * list ascii) :=
  match s with
  | c1 :: c0 :: s' =>
      match digit_val c1, digit_val c0 with
      | Some d1, Some d0 =>
          if two_ok c (10 * d1 + d0) then [(10 * d1 + d0, s')] else []
      | _, _ => []
      end
  | _ => []
  end.

Definition one_digit (c : ascii) (s : list ascii) : list (Z * list ascii) :=
  match s with
  | c0 :: s' =>
      match digit_val c0 with
      | Some d0 => if one_ok c d0 then [(d0, s')] else []
      | None => []
      end
  | _ => []
  end.

Definition space_digit (c : ascii) (s : list ascii) : list (Z * list ascii) :=
  match c, s with
  | "d"%char, " "%char :: c0 :: s' =>
      match digit_val c0 with
      | Some d0 => if 1 <=? d0 then [(d0, s')] else []
      | None => []
      end
  | _, _ => []
  end.

(** The ways a directive can match a prefix of [s], in the order the
    regular expression tries them. *)
Definition alternatives (c : ascii) (s : list ascii) : list (Z * list ascii) :=
  match c with
  | "Y"%char => four_digits s
  | _ => two_digits c s ++ one_digit c s ++ space_digit c s
  end.

(** [\s+], greedy: the longest run of white space first. *)
Fixpoint spaces (s : list ascii) : list (list ascii) :=
  match s with
  | c :: s' => if is_space c then spaces s' ++ [s'] else []
  | [] => []
  end.

Fixpoint first_match {A B} (f : A → option B) (l : list A) : option B :=
  match l with
  | [] => None
  | a :: l' =>
      match f a with
      | Some b => Some b
      | None => first_match f l'
      end
  end.

(** The fields found so far, keyed by directive. *)
Fixpoint regex_match (ds : list directive) (s : list ascii)
    (found : gmap ascii Z) : option (gmap ascii Z * list ascii) :=
  match ds with
  | [] => Some (found, s)
  | Lit c :: ds' =>
      match s with
      | c' :: s' => if decide (c = c') then regex_match ds' s' found else None
      | [] => None
      end
  | Space :: ds' => first_match (λ s', regex_match ds' s' found) (spaces s)
  | Dir c :: ds' =>
      first_match (λ vs, regex_match ds' vs.2 (<[c := vs.1]> found))
        (alternatives c s)
  end.

(** [datetime.strptime(data_string, format)] *)
Definition strptime (data_string format : string) : result datetime :=
  match regex_match (directives (list_ascii_of_string format))
          (list_ascii_of_string data_string) ∅ with
  | None => Raise (ValueError "time data does not match format")
  | Some (found, rest) =>
      match rest with
      | _ :: _ => Raise (ValueError "unconverted data remains")
      | [] =>
          let dt := {| year := default 1900 (found !! "Y"%char);
                       month := default 1 (found !! "m"%char);
                       day := default 1 (found !! "d"%char);
                       hour := default 0 (found !! "H"%char);
                       minute := default 0 (found !! "M"%char);
                       second := default 0 (found !! "S"%char) |} in
          if valid_datetime dt then Ok dt
          else Raise (ValueError "value out of range")
      end
  end.

Definition pad2 (n : Z) : list ascii :=
  [digit_char (n / 10 mod 10); digit_char (n mod 10)].

Definition pad4 (n : Z) : list ascii :=
  [digit_char (n / 1000 mod 10); digit_char (n / 100 mod 10);
   digit_char (n / 10 mod 10); digit_char (n mod 10)].

Definition strftime_directive (dt : datetime) (d : directive) : list ascii :=
  match d with
  | Dir "Y"%char => pad4 (year dt)
  | Dir "m"%char => pad2 (month dt)
  | Dir "d"%char => pad2 (day dt)
  | Dir "H"%char => pad2 (hour dt)
  | Dir "M"%char => pad2 (minute dt)
  | Dir "S"%char => pad2 (second dt)
  | Dir c => ["%"%char; c]
  | Lit c => [c]
  | Space => [" "%char]
  end.

(** [dt.strftime(format)] *)
Definition strftime (dt : datetime) (format : string) : string :=
  string_of_list_ascii
    (concat (strftime_directive dt <$> directives (list_ascii_of_string format))).



Close Scope Z_scope.

(** ** Element trees ([xml.etree.ElementTree]) *)

Inductive XMLElement := Element {
  tag : string;
  attrib : gmap string string;
  text : option string;
  children : list XMLElement
}.

(** [XMLElement(tag)] and [XMLElement(tag, attrib)]: a fresh element with
    no text and no children. *)
Definition new_element (tag : string) (attrib : gmap string string) : XMLElement :=
  Element tag attrib None [].

(** [el.text = value] *)
Definition set_text (el : XMLElement) (value : option string) : XMLElement :=
  Element (tag el) (attrib el) value (children el).

(** [parent.append(child)] *)
Definition append (parent child : XMLElement) : XMLElement :=
  Element (tag parent) (attrib parent) (text parent) (children parent ++ [child]).

(** The events [iterparse(source, events=("start", "end"))] yields. *)
Inductive Event := start | end_.

#[global] Instance Event_eq_dec : EqDecision Event.
Proof. solve_decision. Defined.

(** At its [start] event an element has its tag and attributes; its text
    and children are only complete at its [end_] event. *)
Definition opened (el : XMLElement) : XMLElement :=
  new_element (tag el) (attrib el).

Fixpoint iterparse (el : XMLElement) : list (Event * XMLElement) :=
  match el with
  | Element _ _ _ cs =>
      (start, opened el) :: flat_map iterparse cs ++ [(end_, el)]
  end.

(** ** Python values of the dict representation *)

Inductive PyVal :=
| PyNone
| PyBool (b : bool)
| PyStr (s : string)
| PyDatetime (d : datetime)
| PyList (l : list PyVal)
| PyDict (d : list (string * PyVal)).

Definition py_text (value : option string) : PyVal :=
  match value with
  | Some s => PyStr s
  | None => PyNone
  end.

(** [d[key]] on a dict given by its items. *)
Fixpoint dict_get (key : string) (d : list (string * PyVal)) : option PyVal :=
  match d with
  | [] => None
  | (k, v) :: d' => if decide (k = key) then Some v else dict_get key d'
  end.

(** An argument that may be [None], a [bool] or a [str]. *)
Inductive PyArg :=
| ArgNone
| ArgBool (b : bool)
| ArgStr (s : string).

(** ** The model interface ([models/abstract.py]) *)

Module models.

(** What every leaf model implements: [create_dict], [create_xml] and
    the static [from_xml]. The leaf classes themselves ([Currency],
    [Category], [Option], [Gift], [Promo]) are parameters of the
    development. *)
Class AbstractModel (A : Type) := {
  create_dict : A → PyVal;
  create_xml : A → XMLElement;
  from_xml : XMLElement → result A
}.

Definition is_None (v : PyVal) : bool :=
  match v with
  | PyNone => true
  | _ => false
  end.

(** Modelled from the spec: the clean mode of [AbstractModel.to_dict],
    which is not among the sources. It drops the entries whose value is
    the absence marker ([BaseModelTestCase.test_clean_dict]). *)
Definition clean_dict (d : PyVal) : PyVal :=
  match d with
  | PyDict items => PyDict (filter (λ kv, is_None kv.2 = false) items)
  | _ => d
  end.

(** Modelled from the spec: [AbstractModel.to_dict], which is not among
    the sources. Every entity supports [to_dict], which produces the
    mapping of field name to value that [create_dict] builds, cleaned in
    the clean mode. *)
Definition to_dict `{AbstractModel A} (self : A) (clean : bool) : PyVal :=
  let d := create_dict self in
  if clean then clean_dict d else d.

(** Modelled from the spec: [AbstractModel.to_xml], which is not among
    the sources. [to_xml] produces the element and appends it into the
    parent that is supplied
    ([BaseModelTestCase.test_to_xml_with_parent]). *)
Definition to_xml `{AbstractModel A} (self : A) (parent_el : XMLElement) : XMLElement :=
  append parent_el (create_xml self).

(** Modelled from the spec: [AbstractModel._is_valid_datetime], which is
    not among the sources. A check takes the raw value and the field's
    name and either returns the normalized value or fails with a
    validation error; the format the value is parsed with is the one the
    caller passes, and [None] is accepted when the caller allows it. A
    date is always stored normalized to the primary format, so the
    normalized value of a string that parses is the parsed date printed
    in the primary format. *)
Definition _is_valid_datetime (dt : option string) (dt_format attr : string)
    (allow_none : bool) : result (option string) :=
  match dt with
  | None =>
      if allow_none then Ok None
      else Raise (ValidationError (attr +:+ " must be a valid datetime"))
  | Some s =>
      match strptime s dt_format with
      | Ok parsed => Ok (Some (strftime parsed "%Y-%m-%d %H:%M:%S"))
      | Raise _ => Raise (ValidationError (attr +:+ " must be a valid datetime"))
      end
  end.

(** The eight offer classes. *)
Inductive OfferClass :=
| SimplifiedOffer
| ArbitraryOffer
| BookOffer
| AudioBookOffer
| MusicVideoOffer
| MedicineOffer
| EventTicketOffer
| AlcoholOffer.

(** What the offer classes implement ([models/offers.py] is not among
    the sources): the encoders of an offer, and for each class its two
    static decoders. [from_iterator] is handed the shared iterator (the
    events still to come) and the opened offer element; it returns the
    offer and the number of events it took from the iterator. *)
Class OfferModel (A : Type) := {
  offer_create_dict : A → PyVal;
  offer_create_xml : A → XMLElement;
  offer_from_xml : OfferClass → XMLElement → result A;
  offer_from_iterator :
    OfferClass → list (Event * XMLElement) → XMLElement → result (A * nat)
}.

Definition offer_to_dict `{OfferModel A} (self : A) : PyVal :=
  offer_create_dict self.

Definition offer_to_xml `{OfferModel A} (self : A) (parent_el : XMLElement) : XMLElement :=
  append parent_el (offer_create_xml self).

End models.

(** The classes of [models] the shop refers to. *)
Class Models := {
  Currency : Type;
  Category : Type;
  Option : Type;
  Gift : Type;
  Promo : Type;
  AbstractOffer : Type;
  Currency_model :: models.AbstractModel Currency;
  Category_model :: models.AbstractModel Category;
  Option_model :: models.AbstractModel Option;
  Gift_model :: models.AbstractModel Gift;
  Promo_model :: models.AbstractModel Promo;
  Offer_model :: models.OfferModel AbstractOffer
}.

(** ** The field mixins ([models/fields.py]) *)

Module fields.

Definition ENABLE_AUTO_DISCOUNTS_CHOICES : list string :=
  ["yes"; "true"; "1"; "no"; "false"; "0"].

Definition TRUE_CHOICES : list string := ["yes"; "true"; "1"].
Definition FALSE_CHOICES : list string := ["no"; "false"; "0"].

(** The message of [EnableAutoDiscountsValidationError]
    ([ShopModelTestCase.test_enable_auto_discounts_validation_error]). *)
Definition enable_auto_discounts_msg : string :=
  "enable_auto_discounts should be True, False or str from available values: "
  +:+ join ", " ENABLE_AUTO_DISCOUNTS_CHOICES.

(** Modelled from the spec: the setter of [EnableAutoDiscountField],
    which is not among the sources. The value is [None], a boolean or a
    token, compared without regard to case, of the truthy or of the
    falsy set; tokens map to a boolean, anything else fails with the
    enum-violation error that lists the allowed tokens. What is stored
    is the literal the encoder writes, ["true"] or ["false"]. *)
Definition set_enable_auto_discounts (value : PyArg) : result (option string) :=
  match value with
  | ArgNone => Ok None
  | ArgBool b => Ok (Some (if b then "true" else "false"))
  | ArgStr s =>
      if decide (lower s ∈ TRUE_CHOICES) then Ok (Some "true")
      else if decide (lower s ∈ FALSE_CHOICES) then Ok (Some "false")
      else Raise (EnableAutoDiscountsValidationError enable_auto_discounts_msg)
  end.

(** Modelled from the spec: the getter of [EnableAutoDiscountField]:
    the normalized boolean, or [None] when the field is absent. *)
Definition get_enable_auto_discounts (stored : option string) : PyVal :=
  match stored with
  | None => PyNone
  | Some s => PyBool (bool_decide (s = "true"))
  end.

(** Modelled from the spec: the properties of [DeliveryOptionsField]
    and [PickupOptionsField], which are not among the sources. The
    value is an ordered list of options; a group that was not supplied
    reads as the empty list. *)
Definition get_options {A} (stored : option (list A)) : list A :=
  default [] stored.

End fields.

(** [for x in l: body], with the state the body updates threaded through
    and the first exception ending the loop. *)
Fixpoint for_in {A S} (l : list A) (body : A → S → result S) (s : S) : result S :=
  match l with
  | [] => Ok s
  | x :: l' => s' ← body x s; for_in l' body s'
  end.

(** ** The shop ([models/shop.py]) *)

Module Shop.
Section shop.
Context `{M : Models}.

(** The attributes of a shop. A scalar is [None] or a string; an item
    of [currencies] is a currency or, as [create_xml] allows for, a
    plain string. *)
Record t := {
  _url : option string;
  name : option string;
  company : option string;
  currencies : list (Currency + string);
  categories : list Category;
  offers : list AbstractOffer;
  platform : option string;
  version : option string;
  agency : option string;
  email : option string;
  _delivery_options : option (list Option);
  _pickup_options : option (list Option);
  _enable_auto_discounts : option string;
  gifts : option (list Gift);
  promos : option (list Promo)
}.

Definition __init__
    (name company : option string)
    (currencies : list (Currency + string))
    (categories : list Category)
    (offers : list AbstractOffer)
    (url platform version agency email : option string)
    (delivery_options pickup_options : option (list Option))
    (enable_auto_discounts : PyArg)
    (gifts : option (list Gift))
    (promos : option (list Promo)) : result t :=
  enable_auto_discounts ← fields.set_enable_auto_discounts enable_auto_discounts;
  mret {| name := name;
          company := company;
          _url := url;
          platform := platform;
          version := version;
          agency := agency;
          email := email;
          currencies := currencies;
          categories := categories;
          _delivery_options := delivery_options;
          _pickup_options := pickup_options;
          _enable_auto_discounts := enable_auto_discounts;
          offers := offers;
          gifts := gifts;
          promos := promos |}.

(** The [url] property: the getter returns what the setter stored, and
    the setter stores its argument. *)
Definition url (self : t) : option string := _url self.

Definition set_url (self : t) (value : option string) : t :=
  {| _url := value;
     name := name self;
     company := company self;
     currencies := currencies self;
     categories := categories self;
     offers := offers self;
     platform := platform self;
     version := version self;
     agency := agency self;
     email := email self;
     _delivery_options := _delivery_options self;
     _pickup_options := _pickup_options self;
     _enable_auto_discounts := _enable_auto_discounts self;
     gifts := gifts self;
     promos := promos self |}.

(** [s.enable_auto_discounts = value] *)
Definition set_enable_auto_discounts (self : t) (value : PyArg) : result t :=
  stored ← fields.set_enable_auto_discounts value;
  mret {| _url := _url self;
          name := name self;
          company := company self;
          currencies := currencies self;
          categories := categories self;
          offers := offers self;
          platform := platform self;
          version := version self;
          agency := agency self;
          email := email self;
          _delivery_options := _delivery_options self;
          _pickup_options := _pickup_options self;
          _enable_auto_discounts := stored;
          gifts := gifts self;
          promos := promos self |}.

Definition delivery_options (self : t) : list Option :=
  fields.get_options (_delivery_options self).

Definition pickup_options (self : t) : list Option :=
  fields.get_options (_pickup_options self).

Definition enable_auto_discounts (self : t) : PyVal :=
  fields.get_enable_auto_discounts (_enable_auto_discounts self).

(** [[c.to_dict() for c in self.currencies]]: a string among the
    currencies has no [to_dict]. *)
Definition currency_to_dict (c : Currency + string) : result PyVal :=
  match c with
  | inl c => Ok (models.to_dict c false)
  | inr _ => Raise (AttributeError "'str' object has no attribute 'to_dict'")
  end.

Definition create_dict (self : t) : result PyVal :=
  currencies ← mapM currency_to_dict (currencies self);
  mret (PyDict [
    ("name", py_text (name self));
    ("company", py_text (company self));
    ("url", py_text (url self));
    ("platform", py_text (platform self));
    ("version", py_text (version self));
    ("agency", py_text (agency self));
    ("email", py_text (email self));
    ("currencies", PyList currencies);
    ("categories", PyList ((λ c, models.to_dict c false) <$> categories self));
    ("delivery_options",
       PyList ((λ o, models.to_dict o false) <$> delivery_options self));
    ("pickup_options",
       PyList ((λ o, models.to_dict o false) <$> pickup_options self));
    ("enable_auto_discounts", enable_auto_discounts self);
    ("offers", PyList (models.offer_to_dict <$> offers self));
    ("gifts",
       PyList ((λ g, models.to_dict g false) <$> default [] (gifts self)));
    ("promos",
       PyList ((λ p, models.to_dict p false) <$> default [] (promos self)))
  ]).

Definition to_dict (self : t) (clean : bool) : result PyVal :=
  d ← create_dict self;
  mret (if clean then models.clean_dict d else d).

Definition getattr (self : t) (tag : string) : option string :=
  if decide (tag = "name") then name self
  else if decide (tag = "company") then company self
  else if decide (tag = "url") then url self
  else if decide (tag = "platform") then platform self
  else if decide (tag = "version") then version self
  else if decide (tag = "agency") then agency self
  else if decide (tag = "email") then email self
  else None.

Definition SIMPLE_TAGS : list string :=
  ["name"; "company"; "url"; "platform"; "version"; "agency"; "email"].

(** [bool(l)] of [None] or a list *)
Definition nonempty {A} (l : option (list A)) : bool :=
  match l with
  | Some (_ :: _) => true
  | _ => false
  end.

(** A sub-element is attached to its parent when it is created and
    filled in afterwards; the parent holds the same object, so it sees
    the finished child. Here the child is finished first and then
    attached. *)
Definition create_xml (self : t) : XMLElement :=
  let shop_el := new_element "shop" ∅ in
  (* Add simple elements *)
  let shop_el :=
    foldl (λ shop_el tag,
             let value := getattr self tag in
             if truthy value
             then append shop_el (set_text (new_element tag ∅) value)
             else shop_el)
          shop_el SIMPLE_TAGS in
  (* Add currencies *)
  let currencies_el :=
    foldl (λ currencies_el c,
             match c with
             | inl c => models.to_xml c currencies_el
             | inr _ => currencies_el
             end)
          (new_element "currencies" ∅) (currencies self) in
  let shop_el := append shop_el currencies_el in
  (* Add categories *)
  let categories_el :=
    foldl (λ el c, models.to_xml c el) (new_element "categories" ∅)
          (categories self) in
  let shop_el := append shop_el categories_el in
  (* Add delivery options *)
  let shop_el :=
    match delivery_options self with
    | [] => shop_el
    | _ :: _ =>
        append shop_el
          (foldl (λ el o, models.to_xml o el) (new_element "delivery-options" ∅)
                 (delivery_options self))
    end in
  (* Add pickup options *)
  let shop_el :=
    match pickup_options self with
    | [] => shop_el
    | _ :: _ =>
        append shop_el
          (foldl (λ el o, models.to_xml o el) (new_element "pickup-options" ∅)
                 (pickup_options self))
    end in
  (* Add enable_auto_discounts *)
  let shop_el :=
    if truthy (_enable_auto_discounts self)
    then append shop_el
           (set_text (new_element "enable_auto_discounts" ∅)
                     (_enable_auto_discounts self))
    else shop_el in
  (* Add offers *)
  let offers_el :=
    foldl (λ el o, models.offer_to_xml o el) (new_element "offers" ∅)
          (offers self) in
  let shop_el := append shop_el offers_el in
  (* Add gifts *)
  let shop_el :=
    if nonempty (gifts self)
    then append shop_el
           (foldl (λ el g, models.to_xml g el) (new_element "gifts" ∅)
                  (default [] (gifts self)))
    else shop_el in
  (* Add promos *)
  let shop_el :=
    if nonempty (promos self)
    then append shop_el
           (foldl (λ el p, models.to_xml p el) (new_element "promos" ∅)
                  (default [] (promos self)))
    else shop_el in
  shop_el.

Definition to_xml (self : t) (parent_el : XMLElement) : XMLElement :=
  append parent_el (create_xml self).

(** *** Keyword arguments *)

(** The values [from_xml] and [from_iterator] collect: the text of a
    scalar child, or the list decoded from a wrapper. *)
Inductive KwVal :=
| KwText (s : option string)
| KwCurrencies (l : list Currency)
| KwCategories (l : list Category)
| KwOptions (l : list Option)
| KwOffers (l : list AbstractOffer)
| KwGifts (l : list Gift)
| KwPromos (l : list Promo).

(** [inspect.getfullargspec(Shop.__init__).args[1:]] *)
Definition args : list string :=
  ["name"; "company"; "currencies"; "categories"; "offers"; "url";
   "platform"; "version"; "agency"; "email"; "delivery_options";
   "pickup_options"; "enable_auto_discounts"; "gifts"; "promos"].

Definition required : list string :=
  ["name"; "company"; "currencies"; "categories"; "offers"].

(** The parameters are annotated with their types. A keyword whose
    value lies outside the annotated type of its parameter (text under
    [delivery_options], say) is where the model stops: it is reported as
    a [TypeError]. *)
Definition ill_typed {A} (key : string) : result A :=
  Raise (TypeError ("unexpected type for argument " +:+ key)).

Definition text_arg (kwargs : gmap string KwVal) (key : string)
    : result (option string) :=
  match kwargs !! key with
  | None => Ok None
  | Some (KwText s) => Ok s
  | Some _ => ill_typed key
  end.

Definition currencies_arg (kwargs : gmap string KwVal)
    : result (list (Currency + string)) :=
  match kwargs !! "currencies" with
  | Some (KwCurrencies l) => Ok (inl <$> l)
  | _ => ill_typed "currencies"
  end.

Definition categories_arg (kwargs : gmap string KwVal) : result (list Category) :=
  match kwargs !! "categories" with
  | Some (KwCategories l) => Ok l
  | _ => ill_typed "categories"
  end.

Definition offers_arg (kwargs : gmap string KwVal) : result (list AbstractOffer) :=
  match kwargs !! "offers" with
  | Some (KwOffers l) => Ok l
  | _ => ill_typed "offers"
  end.

Definition options_arg (kwargs : gmap string KwVal) (key : string)
    : result (option (list Option)) :=
  match kwargs !! key with
  | None => Ok None
  | Some (KwOptions l) => Ok (Some l)
  | Some _ => ill_typed key
  end.

Definition gifts_arg (kwargs : gmap string KwVal) : result (option (list Gift)) :=
  match kwargs !! "gifts" with
  | None => Ok None
  | Some (KwGifts l) => Ok (Some l)
  | Some _ => ill_typed "gifts"
  end.

Definition promos_arg (kwargs : gmap string KwVal) : result (option (list Promo)) :=
  match kwargs !! "promos" with
  | None => Ok None
  | Some (KwPromos l) => Ok (Some l)
  | Some _ => ill_typed "promos"
  end.

Definition bool_arg (kwargs : gmap string KwVal) (key : string) : result PyArg :=
  match kwargs !! key with
  | None | Some (KwText None) => Ok ArgNone
  | Some (KwText (Some s)) => Ok (ArgStr s)
  | Some _ => ill_typed key
  end.

(** The call of [Shop] with the keywords [kwargs]: a keyword that is not a parameter and a required
    parameter without a keyword are [TypeError]s; a parameter with a
    default and no keyword is [None]. *)
Definition call (kwargs : gmap string KwVal) : result t :=
  if decide (¬ set_Forall (λ key, key ∈ args) (dom kwargs)) then
    Raise (TypeError "__init__() got an unexpected keyword argument")
  else if decide (¬ Forall (λ key, key ∈ dom kwargs) required) then
    Raise (TypeError "__init__() missing required positional arguments")
  else
    name ← text_arg kwargs "name";
    company ← text_arg kwargs "company";
    currencies ← currencies_arg kwargs;
    categories ← categories_arg kwargs;
    offers ← offers_arg kwargs;
    url ← text_arg kwargs "url";
    platform ← text_arg kwargs "platform";
    version ← text_arg kwargs "version";
    agency ← text_arg kwargs "agency";
    email ← text_arg kwargs "email";
    delivery_options ← options_arg kwargs "delivery_options";
    pickup_options ← options_arg kwargs "pickup_options";
    enable_auto_discounts ← bool_arg kwargs "enable_auto_discounts";
    gifts ← gifts_arg kwargs;
    promos ← promos_arg kwargs;
    __init__ name company currencies categories offers url platform version
      agency email delivery_options pickup_options enable_auto_discounts
      gifts promos.

(** The last lines of [from_xml] and of [from_iterator], which are the
    same: [currencies] defaults to the empty list, the keywords are
    filtered down to the names of the parameters of [__init__], and the
    shop is constructed. *)
Definition default_currencies (kwargs : gmap string KwVal) : gmap string KwVal :=
  if decide ("currencies" ∈ dom kwargs) then kwargs
  else <["currencies" := KwCurrencies []]> kwargs.

Definition filter_args (kwargs : gmap string KwVal) : gmap string KwVal :=
  filter (λ kv, kv.1 ∈ args) kwargs.

Definition construct (kwargs : gmap string KwVal) : result t :=
  call (filter_args (default_currencies kwargs)).

(** *** Decoding from an element tree *)

Definition from_xml_offer (offer_el : XMLElement) : result AbstractOffer :=
  let offer_type := attrib offer_el !! "type" in
  match offer_type with
  | None => models.offer_from_xml models.SimplifiedOffer offer_el
  | Some offer_type =>
      if decide (offer_type = "vendor.model") then
        models.offer_from_xml models.ArbitraryOffer offer_el
      else if decide (offer_type = "book") then
        models.offer_from_xml models.BookOffer offer_el
      else if decide (offer_type = "audiobook") then
        models.offer_from_xml models.AudioBookOffer offer_el
      else if decide (offer_type = "artist.title") then
        models.offer_from_xml models.MusicVideoOffer offer_el
      else if decide (offer_type = "medicine") then
        models.offer_from_xml models.MedicineOffer offer_el
      else if decide (offer_type = "event-ticket") then
        models.offer_from_xml models.EventTicketOffer offer_el
      else if decide (offer_type = "alco") then
        models.offer_from_xml models.AlcoholOffer offer_el
      else
        Raise (ParseError ("Got unexpected offer type: " +:+ offer_type))
  end.

(** The body of [for el in shop_el]. *)
Definition from_xml_body (el : XMLElement) (kwargs : gmap string KwVal)
    : result (gmap string KwVal) :=
  if decide (tag el = "currencies") then
    currencies ← mapM models.from_xml (children el);
    mret (<["currencies" := KwCurrencies currencies]> kwargs)
  else if decide (tag el = "categories") then
    categories ← mapM models.from_xml (children el);
    mret (<["categories" := KwCategories categories]> kwargs)
  else if decide (tag el = "delivery-options") then
    delivery_options ← mapM models.from_xml (children el);
    mret (<["delivery_options" := KwOptions delivery_options]> kwargs)
  else if decide (tag el = "pickup-options") then
    pickup_options ← mapM models.from_xml (children el);
    mret (<["pickup_options" := KwOptions pickup_options]> kwargs)
  else if decide (tag el = "offers") then
    offers ← mapM from_xml_offer (children el);
    mret (<["offers" := KwOffers offers]> kwargs)
  else if decide (tag el = "gifts") then
    gifts ← mapM models.from_xml (children el);
    mret (match gifts with
          | [] => kwargs
          | _ :: _ => <["gifts" := KwGifts gifts]> kwargs
          end)
  else if decide (tag el = "promos") then
    promos ← mapM models.from_xml (children el);
    mret (match promos with
          | [] => kwargs
          | _ :: _ => <["promos" := KwPromos promos]> kwargs
          end)
  else
    mret (<[tag el := KwText (text el)]> kwargs).

Definition from_xml (shop_el : XMLElement) : result t :=
  kwargs ← for_in (children shop_el) from_xml_body ∅;
  construct kwargs.

(** *** Decoding from a stream of events

    All the loops of [from_iterator] draw from one iterator. An inner
    loop is given the events still to come and returns, with what it
    collected, the number of events it took; the enclosing loop goes on
    with the events after those. *)

(** The loops for [currencies], [categories], [delivery-options] and
    [pickup-options], which differ in the tag of the wrapper and in the
    decoder: every closed element before the wrapper closes is decoded
    and appended. An iterator that runs out ends the loop. *)
Fixpoint collect {A} (wrapper : string) (decode : XMLElement → result A)
    (iterator : list (Event * XMLElement)) (acc : list A)
    : result (list A * nat) :=
  match iterator with
  | [] => Ok (acc, 0)
  | (event, el) :: iterator' =>
      if decide (event = end_ ∧ tag el = wrapper) then Ok (acc, 1)
      else if decide (event = end_) then
        x ← decode el;
        r ← collect wrapper decode iterator' (acc ++ [x]);
        mret (r.1, S r.2)
      else
        r ← collect wrapper decode iterator' acc;
        mret (r.1, S r.2)
  end.

(** The loops for [gifts] and [promos] bind the whole pair the iterator
    yields to the loop variable, so [event] stays the event of the
    enclosing loop. With [event] equal to [end_] the test reads the
    attribute [tag] of a pair; otherwise neither the test nor the
    decoder fires, and the loop runs until the iterator is exhausted. *)
Fixpoint collect_pairs {A} (event : Event)
    (iterator : list (Event * XMLElement)) (acc : list A)
    : result (list A * nat) :=
  match iterator with
  | [] => Ok (acc, 0)
  | _ :: iterator' =>
      if decide (event = end_) then
        Raise (AttributeError "'tuple' object has no attribute 'tag'")
      else
        r ← collect_pairs event iterator' acc;
        mret (r.1, S r.2)
  end.

Definition from_iterator_offer (iterator : list (Event * XMLElement))
    (offer_el : XMLElement) : result (AbstractOffer * nat) :=
  let offer_type := attrib offer_el !! "type" in
  match offer_type with
  | None => models.offer_from_iterator models.SimplifiedOffer iterator offer_el
  | Some offer_type =>
      if decide (offer_type = "vendor.model") then
        models.offer_from_iterator models.ArbitraryOffer iterator offer_el
      else if decide (offer_type = "book") then
        models.offer_from_iterator models.BookOffer iterator offer_el
      else if decide (offer_type = "audiobook") then
        models.offer_from_iterator models.AudioBookOffer iterator offer_el
      else if decide (offer_type = "artist.title") then
        models.offer_from_iterator models.MusicVideoOffer iterator offer_el
      else if decide (offer_type = "medicine") then
        models.offer_from_iterator models.MedicineOffer iterator offer_el
      else if decide (offer_type = "event-ticket") then
        models.offer_from_iterator models.EventTicketOffer iterator offer_el
      else if decide (offer_type = "alco") then
        models.offer_from_iterator models.AlcoholOffer iterator offer_el
      else
        Raise (ParseError ("Got unexpected offer type: " +:+ offer_type))
  end.

(** The loop for [offers]: an opened [offer] is handed, with the
    iterator, to the decoder of its class. *)
Equations? collect_offers (iterator : list (Event * XMLElement))
    (offers : list AbstractOffer) : result (list AbstractOffer * nat)
    by wf (length iterator) lt :=
collect_offers [] offers := Ok (offers, 0);
collect_offers ((event, offer_el) :: iterator') offers :=
  if decide (event = end_ ∧ tag offer_el = "offers") then Ok (offers, 1)
  else if decide (event = start ∧ tag offer_el = "offer") then
    match from_iterator_offer iterator' offer_el with
    | Raise e => Raise e
    | Ok (offer, n) =>
        r ← collect_offers (drop n iterator') (offers ++ [offer]);
        mret (r.1, S (n + r.2))
    end
  else
    r ← collect_offers iterator' offers;
    mret (r.1, S r.2).
Proof. all: rewrite ?length_drop; simpl; lia. Qed.

(** The body of [for event, el in iterator]: the keywords after this
    event, and the number of events the inner loop took. *)
Definition from_iterator_body (event : Event) (el : XMLElement)
    (iterator : list (Event * XMLElement)) (kwargs : gmap string KwVal)
    : result (gmap string KwVal * nat) :=
  if decide (tag el = "currencies" ∧ event = start) then
    r ← collect "currencies" models.from_xml iterator [];
    mret (<["currencies" := KwCurrencies r.1]> kwargs, r.2)
  else if decide (tag el = "categories" ∧ event = start) then
    r ← collect "categories" models.from_xml iterator [];
    mret (<["categories" := KwCategories r.1]> kwargs, r.2)
  else if decide (tag el = "delivery-options" ∧ event = start) then
    r ← collect "delivery-options" models.from_xml iterator [];
    mret (<["delivery_options" := KwOptions r.1]> kwargs, r.2)
  else if decide (tag el = "pickup-options") then
    r ← collect "pickup-options" models.from_xml iterator [];
    mret (<["pickup_options" := KwOptions r.1]> kwargs, r.2)
  else if decide (tag el = "offers" ∧ event = start) then
    r ← collect_offers iterator [];
    mret (<["offers" := KwOffers r.1]> kwargs, r.2)
  else if decide (tag el = "gifts" ∧ event = start) then
    r ← collect_pairs event iterator [];
    mret (match r.1 with
          | [] => kwargs
          | _ :: _ => <["gifts" := KwGifts r.1]> kwargs
          end, r.2)
  else if decide (tag el = "promos" ∧ event = start) then
    r ← collect_pairs event iterator [];
    mret (match r.1 with
          | [] => kwargs
          | _ :: _ => <["promos" := KwPromos r.1]> kwargs
          end, r.2)
  else if decide (event = end_) then
    mret (<[tag el := KwText (text el)]> kwargs, 0)
  else
    mret (kwargs, 0).

Equations? from_iterator_loop (iterator : list (Event * XMLElement))
    (kwargs : gmap string KwVal) : result (gmap string KwVal)
    by wf (length iterator) lt :=
from_iterator_loop [] kwargs := Ok kwargs;
from_iterator_loop ((event, el) :: iterator') kwargs :=
  match from_iterator_body event el iterator' kwargs with
  | Raise e => Raise e
  | Ok (kwargs', n) => from_iterator_loop (drop n iterator') kwargs'
  end.
Proof. rewrite length_drop; simpl; lia. Qed.

Definition from_iterator (iterator : list (Event * XMLElement)) : result t :=
  kwargs ← from_iterator_loop iterator ∅;
  construct kwargs.

End shop.
End Shop.

(** ** The feed ([models/feed.py]) *)

Module Feed.
Section feed.
Context `{M : Models}.

Definition DATE_FORMAT : string := "%Y-%m-%d %H:%M:%S".
Definition ALT_DATE_FORMAT : string := "%Y-%m-%d %H:%M".

Record t := {
  shop : Shop.t;
  _date : string
}.

(** [except (ValidationError, ValueError)] *)
Definition caught (e : Exception) : bool :=
  is_ValidationError e || is_ValueError e.

(** The getter of [date]. [strptime] returns a [datetime], never
    [None], so the branch for [None] is not taken. *)
Definition date (self : t) : result datetime :=
  try_except (strptime (_date self) DATE_FORMAT) caught
    (strptime (_date self) ALT_DATE_FORMAT).

(** The setter of [date]. The value assigned is [None] or a string, as
    [from_xml] passes it; [now] is what [datetime.now()] returns. *)
Definition set_date (now : datetime) (dt : option string) : result string :=
  dt ← try_except (models._is_valid_datetime dt DATE_FORMAT "date" true) caught
         (models._is_valid_datetime dt ALT_DATE_FORMAT "date" true);
  mret (match dt with
        | None => strftime now DATE_FORMAT
        | Some dt => dt
        end).

Definition __init__ (now : datetime) (shop : Shop.t) (date : option string)
    : result t :=
  _date ← set_date now date;
  mret {| shop := shop; _date := _date |}.

Definition create_dict (self : t) : result PyVal :=
  shop ← Shop.to_dict (shop self) false;
  date ← date self;
  mret (PyDict [("shop", shop); ("date", PyDatetime date)]).

Definition to_dict (self : t) (clean : bool) : result PyVal :=
  d ← create_dict self;
  mret (if clean then models.clean_dict d else d).

Definition create_xml (self : t) : XMLElement :=
  let feed_el := new_element "yml_catalog" {["date" := _date self]} in
  Shop.to_xml (shop self) feed_el.

Definition from_xml (now : datetime) (el : XMLElement) : result t :=
  match children el with
  | [] => Raise (IndexError "child index out of range")
  | shop_el :: _ =>
      shop ← Shop.from_xml shop_el;
      let date := attrib el !! "date" in
      __init__ now shop date
  end.

End feed.
End Feed.

(** ** An instance of the models

    The leaf and offer classes are not among the sources. To run the shop
    and the feed on documents, here is a small instance in the shape the
    specification gives them: a leaf is an attribute bag with an optional
    text, and an offer has its class, an [id] attribute and a [price]
    child. *)

Module example.

Record Leaf := {
  leaf_attrib : gmap string string;
  leaf_text : option string
}.

Definition leaf_model (leaf_tag : string) : models.AbstractModel Leaf := {|
  models.create_dict l :=
    PyDict (("text", py_text (leaf_text l))
            :: ((λ kv, (kv.1, PyStr kv.2)) <$> map_to_list (leaf_attrib l)));
  models.create_xml l := Element leaf_tag (leaf_attrib l) (leaf_text l) [];
  models.from_xml el := Ok {| leaf_attrib := attrib el; leaf_text := text el |}
|}.

Record Offer := {
  offer_class : models.OfferClass;
  offer_id : string;
  offer_price : option string
}.

(** The [type] attribute of each class; the simplified offer has none. *)
Definition offer_type (c : models.OfferClass) : option string :=
  match c with
  | models.SimplifiedOffer => None
  | models.ArbitraryOffer => Some "vendor.model"
  | models.BookOffer => Some "book"
  | models.AudioBookOffer => Some "audiobook"
  | models.MusicVideoOffer => Some "artist.title"
  | models.MedicineOffer => Some "medicine"
  | models.EventTicketOffer => Some "event-ticket"
  | models.AlcoholOffer => Some "alco"
  end.

Definition class_name (c : models.OfferClass) : string :=
  match c with
  | models.SimplifiedOffer => "SimplifiedOffer"
  | models.ArbitraryOffer => "ArbitraryOffer"
  | models.BookOffer => "BookOffer"
  | models.AudioBookOffer => "AudioBookOffer"
  | models.MusicVideoOffer => "MusicVideoOffer"
  | models.MedicineOffer => "MedicineOffer"
  | models.EventTicketOffer => "EventTicketOffer"
  | models.AlcoholOffer => "AlcoholOffer"
  end.

Definition offer_attrib (o : Offer) : gmap string string :=
  match offer_type (offer_class o) with
  | None => {["id" := offer_id o]}
  | Some ty => <["type" := ty]> {["id" := offer_id o]}
  end.

Definition offer_xml (o : Offer) : XMLElement :=
  Element "offer" (offer_attrib o) None
    [Element "price" ∅ (offer_price o) []].

Definition price_of (els : list XMLElement) : option string :=
  match filter (λ el, tag el = "price") els with
  | el :: _ => text el
  | [] => None
  end.

Definition offer_of_xml (c : models.OfferClass) (el : XMLElement) : result Offer :=
  match attrib el !! "id" with
  | None => Raise (ValidationError "id is required")
  | Some i =>
      Ok {| offer_class := c; offer_id := i; offer_price := price_of (children el) |}
  end.

(** Reads the events of the offer up to the one that closes it. *)
Fixpoint offer_of_events (c : models.OfferClass)
    (iterator : list (Event * XMLElement)) (offer_el : XMLElement)
    : result (Offer * nat) :=
  match iterator with
  | [] => o ← offer_of_xml c offer_el; mret (o, 0)
  | (event, el) :: iterator' =>
      if decide (event = end_ ∧ tag el = "offer") then
        o ← offer_of_xml c el; mret (o, 1)
      else
        r ← offer_of_events c iterator' offer_el; mret (r.1, S r.2)
  end.

Definition offer_model : models.OfferModel Offer := {|
  models.offer_create_dict o :=
    PyDict [("class", PyStr (class_name (offer_class o)));
            ("id", PyStr (offer_id o));
            ("price", py_text (offer_price o))];
  models.offer_create_xml := offer_xml;
  models.offer_from_xml := offer_of_xml;
  models.offer_from_iterator := offer_of_events
|}.

#[global] Instance M : Models := {|
  Currency := Leaf;
  Category := Leaf;
  Option := Leaf;
  Gift := Leaf;
  Promo := Leaf;
  AbstractOffer := Offer;
  Currency_model := leaf_model "currency";
  Category_model := leaf_model "category";
  Option_model := leaf_model "option";
  Gift_model := leaf_model "gift";
  Promo_model := leaf_model "promo";
  Offer_model := offer_model
|}.

Definition leaf (leaf_tag : string) (a : gmap string string) (t : option string)
    : XMLElement :=
  Element leaf_tag a t [].

Definition scalar (scalar_tag value : string) : XMLElement :=
  Element scalar_tag ∅ (Some value) [].

Definition wrapper (wrapper_tag : string) (els : list XMLElement) : XMLElement :=
  Element wrapper_tag ∅ None els.

(** A shop document with one gift. *)
Definition shop_with_gift : XMLElement :=
  Element "shop" ∅ None
    [scalar "name" "Shop"; scalar "company" "Company";
     wrapper "currencies" [leaf "currency" {["id" := "RUB"]} None];
     wrapper "categories" [leaf "category" {["id" := "1"]} (Some "Books")];
     wrapper "offers"
       [Element "offer" {["id" := "7"]} None [scalar "price" "10"]];
     wrapper "gifts" [leaf "gift" {["id" := "g1"]} None]].

(** A reading of the clock. *)
Definition now : datetime :=
  {| year := 2026; month := 11; day := 3;
     hour := 9; minute := 5; second := 0 |}.

(** A shop with the required fields only. *)
Definition plain_shop : Shop.t := {|
  Shop._url := None;
  Shop.name := Some "Shop";
  Shop.company := Some "Company";
  Shop.currencies := [];
  Shop.categories := [];
  Shop.offers := [];
  Shop.platform := None;
  Shop.version := None;
  Shop.agency := None;
  Shop.email := None;
  Shop._delivery_options := None;
  Shop._pickup_options := None;
  Shop._enable_auto_discounts := None;
  Shop.gifts := None;
  Shop.promos := None
|}.

(** Offers without a type, of a known type and of an unknown type. *)
Definition plain_offer : XMLElement :=
  Element "offer" {["id" := "7"]} None [scalar "price" "10"].

Definition book_offer : XMLElement :=
  Element "offer" (<["type" := "book"]> {["id" := "8"]}) None
    [scalar "price" "20"].

Definition bogus_offer : XMLElement :=
  Element "offer" (<["type" := "bogus"]> {["id" := "9"]}) None
    [scalar "price" "30"].

(** A shop document with a foreign child and no [currencies]. *)
Definition shop_with_foreign_tag : XMLElement :=
  Element "shop" ∅ None
    [scalar "name" "Shop"; scalar "company" "Company";
     scalar "foo" "bar"; wrapper "categories" []; wrapper "offers" []].

Definition foreign_kwargs : gmap string Shop.KwVal :=
  <["offers" := Shop.KwOffers []]>
    (<["categories" := Shop.KwCategories []]>
       (<["foo" := Shop.KwText (Some "bar")]>
          (<["company" := Shop.KwText (Some "Company")]>
             (<["name" := Shop.KwText (Some "Shop")]> ∅)))).

(** A shop document without gifts and promos, and one with an offer of
    an unknown type. *)
Definition shop_document : XMLElement :=
  Element "shop" ∅ None
    [scalar "name" "Shop"; scalar "company" "Company";
     scalar "url" "http://shop.example";
     wrapper "currencies" [leaf "currency" {["id" := "RUB"]} None];
     wrapper "categories" [leaf "category" {["id" := "1"]} (Some "Books")];
     wrapper "delivery-options" [leaf "option" {["cost" := "300"]} None];
     scalar "enable_auto_discounts" "true";
     wrapper "offers" [plain_offer; book_offer]].

Definition shop_with_bogus_offer : XMLElement :=
  Element "shop" ∅ None
    [scalar "name" "Shop"; scalar "company" "Company";
     wrapper "currencies" []; wrapper "categories" [];
     wrapper "offers" [plain_offer; bogus_offer]].

(** A shop with a plain string among its currencies. *)
Definition rub : Leaf := {| leaf_attrib := {["id" := "RUB"]}; leaf_text := None |}.

Definition shop_with_string_currency : Shop.t := {|
  Shop._url := None;
  Shop.name := Some "Shop";
  Shop.company := Some "Company";
  Shop.currencies := [inr "USD"; inl rub];
  Shop.categories := [];
  Shop.offers := [];
  Shop.platform := None;
  Shop.version := None;
  Shop.agency := None;
  Shop.email := None;
  Shop._delivery_options := None;
  Shop._pickup_options := None;
  Shop._enable_auto_discounts := None;
  Shop.gifts := None;
  Shop.promos := None
|}.

(** A url of 513 characters. *)
Definition long_url : string := repeat_char "u" 513.

(** A shop whose url is the empty string, its feed, and the feed that
    decoding the encoded feed gives: the url is [None]. *)
Definition empty_url_shop : Shop.t := Shop.set_url plain_shop (Some "").

Definition empty_url_feed : Feed.t :=
  {| Feed.shop := empty_url_shop; Feed._date := "2020-01-05 10:30:00" |}.

Definition empty_url_decoded : Feed.t :=
  {| Feed.shop := plain_shop; Feed._date := "2020-01-05 10:30:00" |}.

(** A date in the fallback format, the date it denotes, and the feed of
    [plain_shop] constructed with it. *)
Definition alt_date : string := "2020-01-05 10:30".

Definition alt_datetime : datetime :=
  {| year := 2020; month := 1; day := 5;
     hour := 10; minute := 30; second := 0 |}.

Definition alt_feed : Feed.t :=
  {| Feed.shop := plain_shop; Feed._date := "2020-01-05 10:30:00" |}.

End example.

(** ** More documents and shops of the instance *)

Module samples.

Definition books : example.Leaf :=
  {| example.leaf_attrib := {["id" := "1"]}; example.leaf_text := Some "Books" |}.

Definition courier : example.Leaf :=
  {| example.leaf_attrib := {["cost" := "300"]}; example.leaf_text := None |}.

Definition offer7 : example.Offer :=
  {| example.offer_class := models.SimplifiedOffer;
     example.offer_id := "7";
     example.offer_price := Some "10" |}.

Definition offer8 : example.Offer :=
  {| example.offer_class := models.BookOffer;
     example.offer_id := "8";
     example.offer_price := Some "20" |}.

(** The shop [example.shop_document] decodes to. *)
Definition document_shop : Shop.t := {|
  Shop._url := Some "http://shop.example";
  Shop.name := Some "Shop";
  Shop.company := Some "Company";
  Shop.currencies := [inl example.rub];
  Shop.categories := [books];
  Shop.offers := [offer7; offer8];
  Shop.platform := None;
  Shop.version := None;
  Shop.agency := None;
  Shop.email := None;
  Shop._delivery_options := Some [courier];
  Shop._pickup_options := None;
  Shop._enable_auto_discounts := Some "true";
  Shop.gifts := None;
  Shop.promos := None
|}.

(** A feed document around [example.shop_document], and one without a
    date. *)
Definition feed_document : XMLElement :=
  Element "yml_catalog" {["date" := "2020-01-05 10:30:00"]} None
    [example.shop_document].

Definition undated_feed_document : XMLElement :=
  Element "yml_catalog" ∅ None [example.shop_document].

(** The children of [example.shop_document] with the first two
    exchanged. *)
Definition reordered_document : XMLElement :=
  Element "shop" ∅ None
    [example.scalar "company" "Company"; example.scalar "name" "Shop";
     example.scalar "url" "http://shop.example";
     example.wrapper "currencies"
       [example.leaf "currency" {["id" := "RUB"]} None];
     example.wrapper "categories"
       [example.leaf "category" {["id" := "1"]} (Some "Books")];
     example.wrapper "delivery-options"
       [example.leaf "option" {["cost" := "300"]} None];
     example.scalar "enable_auto_discounts" "true";
     example.wrapper "offers" [example.plain_offer; example.book_offer]].

(** A [gifts] wrapper. *)
Definition gifts_el : XMLElement :=
  example.wrapper "gifts" [example.leaf "gift" {["id" := "g1"]} None].

(** The keywords the streaming decoder collects from
    [example.shop_with_gift]. *)
Definition gift_kwargs : gmap string Shop.KwVal :=
  <["offers" := Shop.KwOffers [offer7]]>
    (<["categories" := Shop.KwCategories [books]]>
       (<["currencies" := Shop.KwCurrencies [example.rub]]>
          (<["company" := Shop.KwText (Some "Company")]>
             (<["name" := Shop.KwText (Some "Shop")]> ∅)))).

(** An [offers] wrapper with a child that is no offer. *)
Definition mixed_offers : XMLElement :=
  example.wrapper "offers"
    [example.plain_offer; example.leaf "note" ∅ (Some "sale");
     example.book_offer].

(** A currency element with a child of its own. *)
Definition rate_note : XMLElement := example.leaf "note" ∅ (Some "fixed").

Definition nested_currency : XMLElement :=
  Element "currency" {["id" := "RUB"]} None [rate_note].

(** A shop document in which [name] and the [offers] wrapper occur
    twice, and the shop it decodes to. *)
Definition repeated_document : XMLElement :=
  Element "shop" ∅ None
    [example.scalar "name" "Old"; example.scalar "company" "Company";
     example.wrapper "offers" [example.plain_offer];
     example.scalar "name" "New"; example.wrapper "categories" [];
     example.wrapper "offers" [example.book_offer]].

Definition repeated_shop : Shop.t := {|
  Shop._url := None;
  Shop.name := Some "New";
  Shop.company := Some "Company";
  Shop.currencies := [];
  Shop.categories := [];
  Shop.offers := [offer8];
  Shop.platform := None;
  Shop.version := None;
  Shop.agency := None;
  Shop.email := None;
  Shop._delivery_options := None;
  Shop._pickup_options := None;
  Shop._enable_auto_discounts := None;
  Shop.gifts := None;
  Shop.promos := None
|}.

(** A shop whose name is the empty string. *)
Definition nameless_shop : Shop.t := {|
  Shop._url := None;
  Shop.name := Some "";
  Shop.company := Some "Company";
  Shop.currencies := [];
  Shop.categories := [];
  Shop.offers := [];
  Shop.platform := None;
  Shop.version := None;
  Shop.agency := None;
  Shop.email := None;
  Shop._delivery_options := None;
  Shop._pickup_options := None;
  Shop._enable_auto_discounts := None;
  Shop.gifts := None;
  Shop.promos := None
|}.

(** A [name] element one level down, inside an element the decoders do
    not know. *)
Definition deep_name : XMLElement :=
  Element "info" ∅ None [example.scalar "name" "Deep"].

(** A currency element. *)
Definition rub_el : XMLElement :=
  example.leaf "currency" {["id" := "RUB"]} None.

(** A shop with a member in every group and some of the optional
    scalars, and its feed constructed with [example.alt_date]. *)
Definition pickup : example.Leaf :=
  {| example.leaf_attrib := {["cost" := "0"]}; example.leaf_text := None |}.

Definition gift1 : example.Leaf :=
  {| example.leaf_attrib := {["id" := "g1"]}; example.leaf_text := Some "Mug" |}.

Definition promo1 : example.Leaf :=
  {| example.leaf_attrib := {["id" := "p1"]}; example.leaf_text := None |}.

Definition full_shop : Shop.t := {|
  Shop._url := Some "http://shop.example";
  Shop.name := Some "Shop";
  Shop.company := Some "Company";
  Shop.currencies := [inl example.rub];
  Shop.categories := [books];
  Shop.offers := [offer7; offer8];
  Shop.platform := Some "CMS";
  Shop.version := None;
  Shop.agency := None;
  Shop.email := Some "shop@shop.example";
  Shop._delivery_options := Some [courier];
  Shop._pickup_options := Some [pickup];
  Shop._enable_auto_discounts := Some "true";
  Shop.gifts := Some [gift1];
  Shop.promos := Some [promo1]
|}.

Definition full_feed : Feed.t :=
  {| Feed.shop := full_shop; Feed._date := "2020-01-05 10:30:00" |}.

(** The same shop with the empty string as its url. *)
Definition blank_url_shop : Shop.t := Shop.set_url full_shop (Some "").

(** The children of [example.shop_document] before its [offers]
    wrapper, the wrapper, and its offers, each with the class its [type]
    attribute selects. *)
Definition document_head : list XMLElement :=
  [example.scalar "name" "Shop"; example.scalar "company" "Company";
   example.scalar "url" "http://shop.example";
   example.wrapper "currencies"
     [example.leaf "currency" {["id" := "RUB"]} None];
   example.wrapper "categories"
     [example.leaf "category" {["id" := "1"]} (Some "Books")];
   example.wrapper "delivery-options"
     [example.leaf "option" {["cost" := "300"]} None];
   example.scalar "enable_auto_discounts" "true"].

Definition document_offers : XMLElement :=
  example.wrapper "offers" [example.plain_offer; example.book_offer].

Definition document_picks : list (models.OfferClass * example.Offer) :=
  [(models.SimplifiedOffer, offer7); (models.BookOffer, offer8)].

(** The same for [example.shop_with_bogus_offer], with the keywords its
    first children give. *)
Definition bogus_head : list XMLElement :=
  [example.scalar "name" "Shop"; example.scalar "company" "Company";
   example.wrapper "currencies" []; example.wrapper "categories" []].

Definition bogus_offers : XMLElement :=
  example.wrapper "offers" [example.plain_offer; example.bogus_offer].

Definition bogus_kwargs : gmap string Shop.KwVal :=
  <["categories" := Shop.KwCategories []]>
    (<["currencies" := Shop.KwCurrencies []]>
       (<["company" := Shop.KwText (Some "Company")]>
          (<["name" := Shop.KwText (Some "Shop")]> ∅))).

End samples.

(** ** What the specification says, in its own words *)

Module spec.

(** The seven known discriminants and the offer class each selects. *)
Definition discriminants : list (string * models.OfferClass) :=
  [("vendor.model", models.ArbitraryOffer);
   ("book", models.BookOffer);
   ("audiobook", models.AudioBookOffer);
   ("artist.title", models.MusicVideoOffer);
   ("medicine", models.MedicineOffer);
   ("event-ticket", models.EventTicketOffer);
   ("alco", models.AlcoholOffer)].

Definition known (ty : string) : Prop :=
  ∃ c, (ty, c) ∈ discriminants.

(** The offer class a [type] attribute selects: the simplified kind when
    the attribute is absent, and the class the table gives for a known
    discriminant. Nothing is selected by any other value. *)
Definition selects (type : option string) (c : models.OfferClass) : Prop :=
  match type with
  | None => c = models.SimplifiedOffer
  | Some ty => (ty, c) ∈ discriminants
  end.

End spec.

(** ** The vocabulary of the properties *)

Section vocabulary.
Context `{M : Models}.

(** The currency objects among the items of [currencies]. *)
Definition currency_object (c : Currency + string) : option Currency :=
  match c with
  | inl c => Some c
  | inr _ => None
  end.

Definition simple_element (self : Shop.t) (tg : string) : XMLElement :=
  Element tg ∅ (Shop.getattr self tg) [].

Definition wrapper_element (tg : string) (els : list XMLElement) : XMLElement :=
  Element tg ∅ None els.

(** The children of the shop element, group by group. *)
Definition encoded_children (self : Shop.t) : list XMLElement :=
  (simple_element self <$>
     filter (λ tg, truthy (Shop.getattr self tg)) Shop.SIMPLE_TAGS)
  ++ [wrapper_element "currencies"
        (models.create_xml <$> omap currency_object (Shop.currencies self))]
  ++ [wrapper_element "categories"
        (models.create_xml <$> Shop.categories self)]
  ++ match Shop.delivery_options self with
     | [] => []
     | _ :: _ =>
         [wrapper_element "delivery-options"
            (models.create_xml <$> Shop.delivery_options self)]
     end
  ++ match Shop.pickup_options self with
     | [] => []
     | _ :: _ =>
         [wrapper_element "pickup-options"
            (models.create_xml <$> Shop.pickup_options self)]
     end
  ++ (if truthy (Shop._enable_auto_discounts self)
      then [Element "enable_auto_discounts" ∅ (Shop._enable_auto_discounts self) []]
      else [])
  ++ [wrapper_element "offers"
        (models.offer_create_xml <$> Shop.offers self)]
  ++ (if Shop.nonempty (Shop.gifts self)
      then [wrapper_element "gifts"
              (models.create_xml <$> default [] (Shop.gifts self))]
      else [])
  ++ (if Shop.nonempty (Shop.promos self)
      then [wrapper_element "promos"
              (models.create_xml <$> default [] (Shop.promos self))]
      else []).

(** The shop element has a child with this tag. *)
Definition has_child (tg : string) (el : XMLElement) : Prop :=
  tg ∈ tag <$> children el.

Definition optional_tag (b : bool) (tg : string) : list string :=
  if b then [tg] else [].

Definition not_nil {A} (l : list A) : bool :=
  match l with
  | [] => false
  | _ :: _ => true
  end.

(** What [construct] hands to [Shop.call]. *)
Definition passed (kwargs : gmap string Shop.KwVal) : gmap string Shop.KwVal :=
  Shop.filter_args (Shop.default_currencies kwargs).

Definition unexpected : Exception :=
  TypeError "__init__() got an unexpected keyword argument".

Definition not_wrapper (tg : string) : Prop :=
  tg ≠ "currencies" ∧ tg ≠ "categories" ∧ tg ≠ "delivery-options" ∧
  tg ≠ "pickup-options" ∧ tg ≠ "offers" ∧ tg ≠ "gifts" ∧ tg ≠ "promos".

Definition insert_if {V} (b : bool) (key : string) (v : V)
    (m : gmap string V) : gmap string V :=
  if b then <[key := v]> m else m.

(** What [from_xml] collects from the element [create_xml] built, given
    what the decoders return for the members of each group. *)
Definition collected (self : Shop.t) (currencies : list Currency)
    (categories : list Category) (delivery_options pickup_options : list Option)
    (offers : list AbstractOffer) (gifts : list Gift) (promos : list Promo)
    : gmap string Shop.KwVal :=
  insert_if (Shop.nonempty (Shop.promos self)) "promos" (Shop.KwPromos promos)
    (insert_if (Shop.nonempty (Shop.gifts self)) "gifts" (Shop.KwGifts gifts)
       (<["offers" := Shop.KwOffers offers]>
          (insert_if (truthy (Shop._enable_auto_discounts self))
             "enable_auto_discounts"
             (Shop.KwText (Shop._enable_auto_discounts self))
             (insert_if (not_nil (Shop.pickup_options self)) "pickup_options"
                (Shop.KwOptions pickup_options)
                (insert_if (not_nil (Shop.delivery_options self))
                   "delivery_options" (Shop.KwOptions delivery_options)
                   (<["categories" := Shop.KwCategories categories]>
                      (<["currencies" := Shop.KwCurrencies currencies]>
                         (foldl
                            (λ kw tg,
                               <[tg := Shop.KwText (Shop.getattr self tg)]> kw)
                            ∅
                            (filter (λ tg, truthy (Shop.getattr self tg))
                               Shop.SIMPLE_TAGS))))))))).

Definition scalar_ok (value : option string) : Prop :=
  value = None ∨ truthy value = true.

(** The argument the decoder passes for a stored flag. *)
Definition flag_arg (stored : option string) : PyArg :=
  match stored with
  | Some (String c s) => ArgStr (String c s)
  | _ => ArgNone
  end.

(** Decoding what was encoded succeeds and gives back the same dict. *)
Definition round_trips {A B} (decode : XMLElement → result A)
    (encode : A → XMLElement) (dict : A → B) : Prop :=
  ∀ x, ∃ y, decode (encode x) = Ok y ∧ dict y = dict x.

(** The laws the round trip of a shop needs from the leaf and offer
    classes: decoding what a leaf class encoded gives back the same dict;
    the element an offer is encoded to carries the [type] attribute of
    one of the offer classes, and the decoder of that class gives back
    the same dict. *)
Class Lawful := {
  currency_law :
    round_trips (A := Currency) models.from_xml models.create_xml
      models.create_dict;
  category_law :
    round_trips (A := Category) models.from_xml models.create_xml
      models.create_dict;
  option_law :
    round_trips (A := Option) models.from_xml models.create_xml
      models.create_dict;
  gift_law :
    round_trips (A := Gift) models.from_xml models.create_xml
      models.create_dict;
  promo_law :
    round_trips (A := Promo) models.from_xml models.create_xml
      models.create_dict;
  offer_law :
    ∀ o : AbstractOffer, ∃ c y,
      spec.selects (attrib (models.offer_create_xml o) !! "type") c ∧
      models.offer_from_xml c (models.offer_create_xml o) = Ok y ∧
      models.offer_create_dict y = models.offer_create_dict o
}.

(** What the setter of [enable_auto_discounts] can have stored. *)
Definition valid_flag (stored : option string) : Prop :=
  stored = None ∨ stored = Some "true" ∨ stored = Some "false".

(** The shops whose element decodes to a shop with the same dict: name
    and company are not empty, an optional scalar is [None] or not empty,
    and no currency is a plain string. *)
Definition encodable (self : Shop.t) : Prop :=
  truthy (Shop.name self) = true ∧
  truthy (Shop.company self) = true ∧
  (∀ key, key ∈ Shop.SIMPLE_TAGS → scalar_ok (Shop.getattr self key)) ∧
  (∀ s, inr s ∉ Shop.currencies self).

(** A shop the constructor returned. *)
Definition Shop_constructed (shop : Shop.t) : Prop :=
  ∃ name company currencies categories offers url platform version agency
    email delivery_options pickup_options enable_auto_discounts gifts promos,
    Shop.__init__ name company currencies categories offers url platform
      version agency email delivery_options pickup_options
      enable_auto_discounts gifts promos = Ok shop.

(** What [datetime.now()] can return, for [strftime] to print the year
    with four digits. *)
Definition clock (now : datetime) : Prop :=
  valid_datetime now = true ∧ (1000 ≤ year now)%Z.

(** The string is a date in this format. *)
Definition in_format (s fmt : string) : Prop :=
  ∃ dt, strptime s fmt = Ok dt.

(** The colons of a string, and the literal colons of a format. *)
Fixpoint colons (s : list ascii) : nat :=
  match s with
  | [] => 0
  | c :: s' => (if decide (c = ":"%char) then 1 else 0) + colons s'
  end.

Fixpoint literal_colons (ds : list directive) : nat :=
  match ds with
  | [] => 0
  | Lit c :: ds' => (if decide (c = ":"%char) then 1 else 0) + literal_colons ds'
  | _ :: ds' => literal_colons ds'
  end.

(** A feed the constructor returned, for a shop the constructor returned. *)
Definition validly_constructed (feed : Feed.t) : Prop :=
  Shop_constructed (Feed.shop feed) ∧
  ∃ now date, clock now ∧ Feed.__init__ now (Feed.shop feed) date = Ok feed.

(** The events inside the shop element, which [from_iterator] is
    handed. *)
Definition shop_events (shop_el : XMLElement) : list (Event * XMLElement) :=
  flat_map iterparse (children shop_el).

(** The entry of a dict representation under a key. *)
Definition entry (key : string) (d : result PyVal) : result (option PyVal) :=
  d ← d;
  mret (match d with
        | PyDict items => dict_get key items
        | _ => None
        end).

(** A member of a wrapper of leaves: no children of its own, and not
    tagged as the wrapper is. *)
Definition leaf_of (wrapper : string) (el : XMLElement) : Prop :=
  children el = [] ∧ tag el ≠ wrapper.

(** The events of an element after the one that opens it. *)
Definition closing (el : XMLElement) : list (Event * XMLElement) :=
  flat_map iterparse (children el) ++ [(end_, el)].

(** The streaming decoder of the offer classes takes exactly the events
    of the offer and decodes what the tree decoder decodes. *)
Definition offer_streams (offer_el : XMLElement) : Prop :=
  ∀ c rest,
    models.offer_from_iterator c (closing offer_el ++ rest) (opened offer_el)
    = (λ o, (o, length (closing offer_el))) <$> models.offer_from_xml c offer_el.

(** The children a shop document is made of: a wrapper of leaves, the
    wrapper of offers, or a scalar. *)
Inductive valid_child (el : XMLElement) : Prop :=
| leaf_wrapper :
    tag el ∈ ["currencies"; "categories"; "delivery-options"; "pickup-options"] →
    Forall (leaf_of (tag el)) (children el) →
    valid_child el
| offers_wrapper :
    tag el = "offers" →
    Forall (λ o, tag o = "offer" ∧ offer_streams o) (children el) →
    valid_child el
| scalar_child :
    not_wrapper (tag el) →
    children el = [] →
    valid_child el.

End vocabulary.

(** ** The vocabulary of the properties of the decoders and encoders *)

Section decoder_vocabulary.
Context `{M : Models}.

(** The tag of an element that encloses the children of a shop and is
    not read itself, as [shop] and [yml_catalog] are: it is no wrapper
    and names no parameter of the constructor. *)
Definition enclosing (tg : string) : Prop :=
  not_wrapper tg ∧ tg ∉ Shop.args.

(** What the streaming decoder can make of a child of [offers]: an offer
    whose class decoder reads it from the stream as from the tree, or an
    element without children that is tagged neither [offer] nor
    [offers]. *)
Definition offers_member (el : XMLElement) : Prop :=
  (tag el = "offer" ∧ offer_streams el) ∨
  (children el = [] ∧ tag el ≠ "offer" ∧ tag el ≠ "offers").

(** No list of gifts and no list of promos among the keywords. *)
Definition no_gift_lists (kwargs : gmap string Shop.KwVal) : Prop :=
  (∀ l, kwargs !! "gifts" ≠ Some (Shop.KwGifts l)) ∧
  (∀ l, kwargs !! "promos" ≠ Some (Shop.KwPromos l)).

(** The elements the events close, in the order they close. *)
Definition closed (events : list (Event * XMLElement)) : list XMLElement :=
  snd <$> filter (λ ev, ev.1 = end_) events.

(** What the streaming decoder needs of the encoders of the leaf and
    offer classes to read the element of a shop as the tree decoder
    does: a leaf encodes to an element without children that is not
    tagged as its wrapper is, and an offer to an element tagged [offer]
    that its class decoder reads from the stream as from the tree. *)
Class Flat := {
  currency_flat : ∀ c : Currency, leaf_of "currencies" (models.create_xml c);
  category_flat : ∀ c : Category, leaf_of "categories" (models.create_xml c);
  option_flat :
    ∀ o : Option,
      leaf_of "delivery-options" (models.create_xml o) ∧
      leaf_of "pickup-options" (models.create_xml o);
  offer_flat :
    ∀ o : AbstractOffer,
      tag (models.offer_create_xml o) = "offer" ∧
      offer_streams (models.offer_create_xml o)
}.

(** A child of the shop element that is read without the offer classes:
    a scalar or a wrapper of leaves. *)
Definition plain_child (el : XMLElement) : Prop :=
  valid_child el ∧ tag el ≠ "offers".

(** The class the [type] attribute of the offer element selects decodes
    the element to this offer. *)
Definition decoded_by (offer_el : XMLElement)
    (pick : models.OfferClass * AbstractOffer) : Prop :=
  spec.selects (attrib offer_el !! "type") pick.1 ∧
  models.offer_from_xml pick.1 offer_el = Ok pick.2.

(** The element is tagged [offer], and the streaming decoder of the
    class its [type] attribute selects, handed the events that follow
    the opening of the offer, takes exactly the events of the offer and
    returns this offer. *)
Definition streamed_by (offer_el : XMLElement)
    (pick : models.OfferClass * AbstractOffer) : Prop :=
  tag offer_el = "offer" ∧
  spec.selects (attrib offer_el !! "type") pick.1 ∧
  ∀ rest,
    models.offer_from_iterator pick.1 (closing offer_el ++ rest)
      (opened offer_el)
    = Ok (pick.2, length (closing offer_el)).

(** The keyword [from_xml] stores a child of the shop element under: the
    two hyphenated wrappers go under the names of their parameters, every
    other child under its own tag. *)
Definition keyword_of (tg : string) : string :=
  if decide (tg = "delivery-options") then "delivery_options"
  else if decide (tg = "pickup-options") then "pickup_options"
  else tg.

(** The last child of an element with a given tag. *)
Definition last_child (tg : string) (el : XMLElement) : option XMLElement :=
  last (filter (λ c, tag c = tg) (children el)).

(** Storing a value under a keyword, or storing nothing. *)
Definition assign (key : string) (v : option Shop.KwVal)
    (kwargs : gmap string Shop.KwVal) : gmap string Shop.KwVal :=
  match v with
  | Some v => <[key := v]> kwargs
  | None => kwargs
  end.

(** The parameters of the constructor the decoders have no default for:
    those without a default value, [currencies] apart. *)
Definition needed : list string := ["name"; "company"; "categories"; "offers"].

(** The call of the constructor was refused with a [TypeError]. *)
Definition missing_argument {A} (r : result A) : Prop :=
  ∃ msg, r = Raise (TypeError msg).

(** What decoding makes of a scalar that was encoded: the empty string
    leaves no element, and reads back as [None]. *)
Definition blank_to_None (value : option string) : option string :=
  if truthy value then value else None.

Definition normalized (self : Shop.t) : Shop.t := {|
  Shop._url := blank_to_None (Shop._url self);
  Shop.name := blank_to_None (Shop.name self);
  Shop.company := blank_to_None (Shop.company self);
  Shop.currencies := Shop.currencies self;
  Shop.categories := Shop.categories self;
  Shop.offers := Shop.offers self;
  Shop.platform := blank_to_None (Shop.platform self);
  Shop.version := blank_to_None (Shop.version self);
  Shop.agency := blank_to_None (Shop.agency self);
  Shop.email := blank_to_None (Shop.email self);
  Shop._delivery_options := Shop._delivery_options self;
  Shop._pickup_options := Shop._pickup_options self;
  Shop._enable_auto_discounts := Shop._enable_auto_discounts self;
  Shop.gifts := Shop.gifts self;
  Shop.promos := Shop.promos self
|}.

(** Every tag a child of the shop element can have, in the order
    [create_xml] goes through them. *)
Definition CHILD_TAGS : list string :=
  Shop.SIMPLE_TAGS
  ++ ["currencies"; "categories"; "delivery-options"; "pickup-options";
      "enable_auto_discounts"; "offers"; "gifts"; "promos"].

(** The children of an element with a given tag. *)
Definition children_tagged (tg : string) (el : XMLElement) : list XMLElement :=
  filter (λ c, tag c = tg) (children el).

(** The keywords after the text of each element was stored under its
    tag. *)
Definition store_texts (kwargs : gmap string Shop.KwVal) (els : list XMLElement)
    : gmap string Shop.KwVal :=
  foldl (λ kw el, <[tag el := Shop.KwText (text el)]> kw) kwargs els.

End decoder_vocabulary.

(** * Properties *)

(** ** The result monad *)

Lemma bind_Ok {A B} (a : A) (f : A → result B) : Ok a ≫= f = f a.
Proof. reflexivity. Qed.

Lemma bind_Raise {A B} (e : Exception) (f : A → result B) :
  @Raise A e ≫= f = Raise e.
Proof. reflexivity. Qed.

Lemma bind_Ok_inv {A B} (m : result A) (f : A → result B) (b : B) :
  m ≫= f = Ok b → ∃ a, m = Ok a ∧ f a = Ok b.
Proof. destruct m as [a|e]; [eauto | discriminate]. Qed.

Ltac inv_bind H :=
  let a := fresh "a" in
  let Ha := fresh "H" a in
  apply bind_Ok_inv in H as (a & Ha & H).

(** ** Offer dispatch *)

Section dispatch.
Context `{M : Models}.

Lemma discriminants_inv (ty : string) (c : models.OfferClass) :
  (ty, c) ∈ spec.discriminants →
  (ty = "vendor.model" ∧ c = models.ArbitraryOffer) ∨
  (ty = "book" ∧ c = models.BookOffer) ∨
  (ty = "audiobook" ∧ c = models.AudioBookOffer) ∨
  (ty = "artist.title" ∧ c = models.MusicVideoOffer) ∨
  (ty = "medicine" ∧ c = models.MedicineOffer) ∨
  (ty = "event-ticket" ∧ c = models.EventTicketOffer) ∨
  (ty = "alco" ∧ c = models.AlcoholOffer).
Proof.
  unfold spec.discriminants. rewrite !elem_of_cons, elem_of_nil.
  intros H. repeat destruct H as [H|H]; try done;
    injection H as -> ->; tauto.
Qed.

Lemma from_xml_offer_known (offer_el : XMLElement) ty c :
  (ty, c) ∈ spec.discriminants →
  attrib offer_el !! "type" = Some ty →
  Shop.from_xml_offer offer_el = models.offer_from_xml c offer_el.
Proof.
  intros Hin Hty. unfold Shop.from_xml_offer. rewrite Hty.
  apply discriminants_inv in Hin.
  repeat destruct Hin as [Hin|Hin]; destruct Hin as [-> ->]; reflexivity.
Qed.

Lemma from_iterator_offer_known iterator (offer_el : XMLElement) ty c :
  (ty, c) ∈ spec.discriminants →
  attrib offer_el !! "type" = Some ty →
  Shop.from_iterator_offer iterator offer_el
  = models.offer_from_iterator c iterator offer_el.
Proof.
  intros Hin Hty. unfold Shop.from_iterator_offer. rewrite Hty.
  apply discriminants_inv in Hin.
  repeat destruct Hin as [Hin|Hin]; destruct Hin as [-> ->]; reflexivity.
Qed.

Lemma unknown_ne (ty : string) :
  ¬ spec.known ty →
  ty ≠ "vendor.model" ∧ ty ≠ "book" ∧ ty ≠ "audiobook" ∧
  ty ≠ "artist.title" ∧ ty ≠ "medicine" ∧ ty ≠ "event-ticket" ∧ ty ≠ "alco".
Proof.
  intros Hun. repeat split; intros ->; apply Hun; eexists;
    unfold spec.discriminants; rewrite !elem_of_cons; eauto 10.
Qed.

Lemma from_xml_offer_unknown (offer_el : XMLElement) ty :
  attrib offer_el !! "type" = Some ty →
  ¬ spec.known ty →
  Shop.from_xml_offer offer_el
  = Raise (ParseError ("Got unexpected offer type: " +:+ ty)).
Proof.
  intros Hty Hun. unfold Shop.from_xml_offer. rewrite Hty.
  destruct (unknown_ne ty Hun) as (? & ? & ? & ? & ? & ? & ?).
  repeat (case_decide; [done|]). reflexivity.
Qed.

Lemma from_iterator_offer_unknown iterator (offer_el : XMLElement) ty :
  attrib offer_el !! "type" = Some ty →
  ¬ spec.known ty →
  Shop.from_iterator_offer iterator offer_el
  = Raise (ParseError ("Got unexpected offer type: " +:+ ty)).
Proof.
  intros Hty Hun. unfold Shop.from_iterator_offer. rewrite Hty.
  destruct (unknown_ne ty Hun) as (? & ? & ? & ? & ? & ? & ?).
  repeat (case_decide; [done|]). reflexivity.
Qed.

(** The class the [type] attribute selects is the one whose decoder is
    called. *)
Lemma from_xml_offer_selected (offer_el : XMLElement) (c : models.OfferClass) :
  spec.selects (attrib offer_el !! "type") c →
  Shop.from_xml_offer offer_el = models.offer_from_xml c offer_el.
Proof.
  destruct (attrib offer_el !! "type") as [ty|] eqn:Hty; cbn [spec.selects].
  - intros Hin. by apply from_xml_offer_known with ty.
  - intros ->. unfold Shop.from_xml_offer. by rewrite Hty.
Qed.

Lemma from_iterator_offer_selected iterator (offer_el : XMLElement)
    (c : models.OfferClass) :
  spec.selects (attrib offer_el !! "type") c →
  Shop.from_iterator_offer iterator offer_el
  = models.offer_from_iterator c iterator offer_el.
Proof.
  destruct (attrib offer_el !! "type") as [ty|] eqn:Hty; cbn [spec.selects].
  - intros Hin. by apply from_iterator_offer_known with ty.
  - intros ->. unfold Shop.from_iterator_offer. by rewrite Hty.
Qed.

End dispatch.

(** ** The element [Shop.create_xml] builds *)

Section encoding.
Context `{M : Models}.

Lemma foldl_to_xml `{models.AbstractModel A} (l : list A) (el : XMLElement) :
  foldl (λ el c, models.to_xml c el) el l
  = Element (tag el) (attrib el) (text el)
      (children el ++ (models.create_xml <$> l)).
Proof.
  revert el. induction l as [|c l IH]; intros el.
  - destruct el; simpl. by rewrite app_nil_r.
  - simpl. rewrite IH. unfold models.to_xml. simpl.
    by rewrite <- app_assoc.
Qed.

Lemma foldl_offer_to_xml (l : list AbstractOffer) (el : XMLElement) :
  foldl (λ el o, models.offer_to_xml o el) el l
  = Element (tag el) (attrib el) (text el)
      (children el ++ (models.offer_create_xml <$> l)).
Proof.
  revert el. induction l as [|c l IH]; intros el.
  - destruct el; simpl. by rewrite app_nil_r.
  - simpl. rewrite IH. unfold models.offer_to_xml. simpl.
    by rewrite <- app_assoc.
Qed.

Lemma foldl_currencies_to_xml (l : list (Currency + string)) (el : XMLElement) :
  foldl (λ currencies_el c,
           match c with
           | inl c => models.to_xml c currencies_el
           | inr _ => currencies_el
           end) el l
  = Element (tag el) (attrib el) (text el)
      (children el ++ (models.create_xml <$> omap currency_object l)).
Proof.
  revert el. induction l as [|[c|s] l IH]; intros el.
  - destruct el; simpl. by rewrite app_nil_r.
  - simpl. rewrite IH. unfold models.to_xml. simpl.
    by rewrite <- app_assoc.
  - simpl. by rewrite IH.
Qed.

Lemma foldl_simple (self : Shop.t) (tags : list string) (el : XMLElement) :
  foldl (λ shop_el tg,
           let value := Shop.getattr self tg in
           if truthy value
           then append shop_el (set_text (new_element tg ∅) value)
           else shop_el) el tags
  = Element (tag el) (attrib el) (text el)
      (children el
       ++ (simple_element self <$>
             filter (λ tg, truthy (Shop.getattr self tg)) tags)).
Proof.
  revert el. induction tags as [|tg tags IH]; intros el.
  - destruct el; simpl. by rewrite app_nil_r.
  - simpl. rewrite IH. rewrite filter_cons.
    destruct (truthy (Shop.getattr self tg)) eqn:Htg.
    + rewrite decide_True by done. simpl. by rewrite <- app_assoc.
    + rewrite decide_False by (intros []). reflexivity.
Qed.

Lemma nonempty_default {A} (l : option (list A)) :
  Shop.nonempty l = true ↔ default [] l ≠ [].
Proof. by destruct l as [[|]|]. Qed.

Lemma append_if (b : bool) tg a x cs (child : XMLElement) :
  (if b then append (Element tg a x cs) child else Element tg a x cs)
  = Element tg a x (cs ++ if b then [child] else []).
Proof. destruct b; cbn; by rewrite ?app_nil_r. Qed.

Lemma append_match {A} (l : list A) tg a x cs (child : XMLElement) :
  match l with
  | [] => Element tg a x cs
  | _ :: _ => append (Element tg a x cs) child
  end
  = Element tg a x (cs ++ match l with [] => [] | _ :: _ => [child] end).
Proof. destruct l; cbn; by rewrite ?app_nil_r. Qed.

Lemma append_Element tg a x cs (child : XMLElement) :
  append (Element tg a x cs) child = Element tg a x (cs ++ [child]).
Proof. reflexivity. Qed.

Lemma create_xml_shape (self : Shop.t) :
  Shop.create_xml self = Element "shop" ∅ None (encoded_children self).
Proof.
  unfold Shop.create_xml, encoded_children.
  rewrite foldl_simple, foldl_currencies_to_xml, !foldl_offer_to_xml,
    !foldl_to_xml.
  cbn [tag attrib text children new_element set_text app].
  repeat first [ rewrite append_match | rewrite append_if
               | rewrite append_Element ].
  rewrite <- !app_assoc. reflexivity.
Qed.

End encoding.

Section wrappers.
Context `{M : Models}.

Lemma encoded_tags (self : Shop.t) :
  tag <$> encoded_children self
  = (filter (λ tg, truthy (Shop.getattr self tg)) Shop.SIMPLE_TAGS
     ++ ["currencies"; "categories"]
     ++ optional_tag (not_nil (Shop.delivery_options self)) "delivery-options"
     ++ optional_tag (not_nil (Shop.pickup_options self)) "pickup-options"
     ++ optional_tag (truthy (Shop._enable_auto_discounts self))
          "enable_auto_discounts"
     ++ ["offers"]
     ++ optional_tag (Shop.nonempty (Shop.gifts self)) "gifts"
     ++ optional_tag (Shop.nonempty (Shop.promos self)) "promos")%list.
Proof.
  unfold encoded_children. rewrite !fmap_app, <- list_fmap_compose.
  rewrite (list_fmap_ext (tag ∘ simple_element self) id) by done.
  rewrite list_fmap_id.
  destruct (Shop.delivery_options self), (Shop.pickup_options self),
    (truthy (Shop._enable_auto_discounts self)),
    (Shop.nonempty (Shop.gifts self)), (Shop.nonempty (Shop.promos self));
    reflexivity.
Qed.

Lemma optional_tag_elem (b : bool) (tg tg' : string) :
  tg ∈ optional_tag b tg' ↔ tg = tg' ∧ b = true.
Proof.
  destruct b; simpl.
  - rewrite list_elem_of_singleton. split; [intros -> | intros [-> _]]; done.
  - rewrite elem_of_nil. split; [intros [] | intros [_ Hb]; done].
Qed.

Lemma not_nil_true {A} (l : list A) : not_nil l = true ↔ l ≠ [].
Proof. by destruct l. Qed.

(** The tags of the children of the shop element. *)
Lemma has_child_iff (self : Shop.t) (tg : string) :
  has_child tg (Shop.create_xml self) ↔
    (truthy (Shop.getattr self tg) ∧ tg ∈ Shop.SIMPLE_TAGS) ∨
    tg = "currencies" ∨ tg = "categories" ∨
    (tg = "delivery-options" ∧ Shop.delivery_options self ≠ []) ∨
    (tg = "pickup-options" ∧ Shop.pickup_options self ≠ []) ∨
    (tg = "enable_auto_discounts"
     ∧ truthy (Shop._enable_auto_discounts self) = true) ∨
    tg = "offers" ∨
    (tg = "gifts" ∧ default [] (Shop.gifts self) ≠ []) ∨
    (tg = "promos" ∧ default [] (Shop.promos self) ≠ []).
Proof.
  unfold has_child. rewrite create_xml_shape. cbn [children].
  rewrite encoded_tags.
  rewrite !elem_of_app, !optional_tag_elem, list_elem_of_filter,
    !elem_of_cons, elem_of_nil, !not_nil_true, !nonempty_default.
  tauto.
Qed.

Lemma simple_tags_inv (tg : string) :
  tg ∈ Shop.SIMPLE_TAGS →
  tg = "name" ∨ tg = "company" ∨ tg = "url" ∨ tg = "platform" ∨
  tg = "version" ∨ tg = "agency" ∨ tg = "email".
Proof.
  unfold Shop.SIMPLE_TAGS. rewrite !elem_of_cons, elem_of_nil. tauto.
Qed.

Ltac not_simple H :=
  apply simple_tags_inv in H;
  repeat destruct H as [H|H]; discriminate H.

Ltac wrapper_iff :=
  rewrite has_child_iff; split;
  [ intros [[_ H]|[H|[H|[[H ?]|[[H ?]|[[H ?]|[H|[[H ?]|[H ?]]]]]]]]];
    first [ assumption | not_simple H | discriminate H ]
  | intros H; tauto ].

(** C4. The element [Shop.create_xml] produces always has the wrapper
    children [currencies], [categories] and [offers], also for empty
    lists; the wrappers [delivery-options], [pickup-options], [gifts]
    and [promos] are present exactly when their collection is not
    empty. *)
Theorem C4_wrappers (self : Shop.t) :
  has_child "currencies" (Shop.create_xml self) ∧
  has_child "categories" (Shop.create_xml self) ∧
  has_child "offers" (Shop.create_xml self) ∧
  (has_child "delivery-options" (Shop.create_xml self)
     ↔ Shop.delivery_options self ≠ []) ∧
  (has_child "pickup-options" (Shop.create_xml self)
     ↔ Shop.pickup_options self ≠ []) ∧
  (has_child "gifts" (Shop.create_xml self)
     ↔ default [] (Shop.gifts self) ≠ []) ∧
  (has_child "promos" (Shop.create_xml self)
     ↔ default [] (Shop.promos self) ≠ []).
Proof.
  split; [apply has_child_iff; tauto|].
  split; [apply has_child_iff; tauto|].
  split; [apply has_child_iff; tauto|].
  split; [wrapper_iff|].
  split; [wrapper_iff|].
  split; wrapper_iff.
Qed.

End wrappers.

Section currencies.
Context `{M : Models}.

Lemma filter_none {A} (P : A → Prop) `{∀ x, Decision (P x)} (l : list A) :
  (∀ x, x ∈ l → ¬ P x) → filter P l = [].
Proof.
  induction l as [|x l IH]; intros Hl; [reflexivity|].
  rewrite filter_cons_False by (apply Hl; left).
  apply IH. intros y Hy. apply Hl. by right.
Qed.

Lemma filter_simple_elements (self : Shop.t) (tg : string) :
  tg ∉ Shop.SIMPLE_TAGS →
  filter (λ el, tag el = tg)
    (simple_element self <$>
       filter (λ tg, truthy (Shop.getattr self tg)) Shop.SIMPLE_TAGS) = [].
Proof.
  intros Htg. apply filter_none. intros el Hel Htag.
  apply list_elem_of_fmap in Hel as (tg' & -> & Hin).
  apply list_elem_of_filter in Hin as [_ Hin]. simpl in Htag. by subst.
Qed.

(** C9. Whatever plain strings the list of currencies holds,
    [Shop.create_xml] produces its element, and the one [currencies]
    wrapper in it holds the encodings of exactly the members that are
    not strings, in their order; a string member leaves no trace. *)
Theorem C9_string_currencies (self : Shop.t) :
  ∃ currencies_el,
    filter (λ el, tag el = "currencies") (children (Shop.create_xml self))
    = [currencies_el] ∧
    children currencies_el
    = models.create_xml <$> omap currency_object (Shop.currencies self).
Proof.
  eexists. rewrite create_xml_shape. simpl children.
  unfold encoded_children. rewrite !filter_app.
  rewrite filter_simple_elements
    by (unfold Shop.SIMPLE_TAGS; rewrite !elem_of_cons, elem_of_nil;
        intros H; repeat destruct H as [H|H]; done).
  split.
  - destruct (Shop.delivery_options self), (Shop.pickup_options self),
      (truthy (Shop._enable_auto_discounts self)),
      (Shop.nonempty (Shop.gifts self)), (Shop.nonempty (Shop.promos self));
      reflexivity.
  - reflexivity.
Qed.

(** The dict representation, in contrast, does not exist for such a
    shop: [to_dict] is called on every member. *)
Lemma create_dict_string_currency (self : Shop.t) (s : string) :
  inr s ∈ Shop.currencies self →
  Shop.create_dict self
  = Raise (AttributeError "'str' object has no attribute 'to_dict'").
Proof.
  intros Hin. unfold Shop.create_dict.
  assert (mapM Shop.currency_to_dict (Shop.currencies self)
          = Raise (AttributeError "'str' object has no attribute 'to_dict'"))
    as ->; [|reflexivity].
  induction (Shop.currencies self) as [|c l IH];
    [by apply elem_of_nil in Hin|].
  apply elem_of_cons in Hin as [<-|Hin]; [reflexivity|].
  cbn [mapM]. destruct c as [c|s']; [|reflexivity].
  cbn [Shop.currency_to_dict]. rewrite bind_Ok, IH by done. reflexivity.
Qed.

End currencies.

(** ** The setters of the shop *)

Section setters.
Context `{M : Models}.

(** C5 (the behaviour of the code). A url of 513 characters is accepted
    by the constructor and by the setter, and stored as it is: no
    length check is made. *)
Theorem C5_url_513_stored
    (name company : option string) (currencies : list (Currency + string))
    (categories : list Category) (offers : list AbstractOffer)
    (value : string) :
  String.length value = 513 →
  ∃ shop,
    Shop.__init__ name company currencies categories offers (Some value)
      None None None None None None ArgNone None None = Ok shop ∧
    Shop.url shop = Some value ∧
    Shop.url (Shop.set_url shop (Some value)) = Some value.
Proof. intros _. eexists. split; [reflexivity|]. split; reflexivity. Qed.

Lemma url_stored (self : Shop.t) (value : option string) :
  Shop.url (Shop.set_url self value) = value.
Proof. reflexivity. Qed.

(** C7. Assigning ["yes"], ["true"] or ["1"] to [enable_auto_discounts]
    stores the boolean true, assigning ["no"], ["false"] or ["0"] stores
    false, assigning [None] leaves [None], and a token outside the
    allowed ones raises the enum-violation error, whose message lists
    the allowed tokens. *)
Theorem C7_enable_auto_discounts (self : Shop.t) :
  (∀ v, v ∈ ["yes"; "true"; "1"] →
     ∃ s, Shop.set_enable_auto_discounts self (ArgStr v) = Ok s ∧
          Shop.enable_auto_discounts s = PyBool true) ∧
  (∀ v, v ∈ ["no"; "false"; "0"] →
     ∃ s, Shop.set_enable_auto_discounts self (ArgStr v) = Ok s ∧
          Shop.enable_auto_discounts s = PyBool false) ∧
  (∃ s, Shop.set_enable_auto_discounts self ArgNone = Ok s ∧
        Shop.enable_auto_discounts s = PyNone) ∧
  (∀ v, lower v ∉ fields.ENABLE_AUTO_DISCOUNTS_CHOICES →
     Shop.set_enable_auto_discounts self (ArgStr v)
     = Raise (EnableAutoDiscountsValidationError
                ("enable_auto_discounts should be True, False or str from "
                 +:+ "available values: yes, true, 1, no, false, 0"))).
Proof.
  split; [|split; [|split]].
  - intros v Hv. rewrite !elem_of_cons, elem_of_nil in Hv.
    destruct Hv as [->|[->|[->|[]]]]; eexists; split; reflexivity.
  - intros v Hv. rewrite !elem_of_cons, elem_of_nil in Hv.
    destruct Hv as [->|[->|[->|[]]]]; eexists; split; reflexivity.
  - eexists; split; reflexivity.
  - intros v Hv. unfold Shop.set_enable_auto_discounts,
      fields.set_enable_auto_discounts.
    assert ((lower v ∉ fields.TRUE_CHOICES) ∧ (lower v ∉ fields.FALSE_CHOICES))
      as [Ht Hf].
    { revert Hv. unfold fields.ENABLE_AUTO_DISCOUNTS_CHOICES,
        fields.TRUE_CHOICES, fields.FALSE_CHOICES.
      rewrite !elem_of_cons, !elem_of_nil. tauto. }
    rewrite (decide_False _ _ Ht), (decide_False _ _ Hf). reflexivity.
Qed.

End setters.

(** ** The keywords the decoders pass to the constructor *)

Section keywords.
Context `{M : Models}.

Lemma filter_args_lookup_in (kwargs : gmap string Shop.KwVal) (key : string) :
  key ∈ Shop.args → Shop.filter_args kwargs !! key = kwargs !! key.
Proof.
  intros Hkey. unfold Shop.filter_args.
  destruct (kwargs !! key) as [v|] eqn:Hv.
  - by apply map_lookup_filter_Some_2.
  - apply map_lookup_filter_None_2. by left.
Qed.

Lemma filter_args_lookup_out (kwargs : gmap string Shop.KwVal) (key : string) :
  key ∉ Shop.args → Shop.filter_args kwargs !! key = None.
Proof.
  intros Hkey. unfold Shop.filter_args.
  apply map_lookup_filter_None_2. right. intros v _. exact Hkey.
Qed.

Lemma filter_args_dom (kwargs : gmap string Shop.KwVal) (key : string) :
  is_Some (Shop.filter_args kwargs !! key) → key ∈ Shop.args.
Proof.
  intros [v Hv]. unfold Shop.filter_args in Hv.
  by apply map_lookup_filter_Some_1_2 in Hv.
Qed.

Lemma default_currencies_absent (kwargs : gmap string Shop.KwVal) :
  kwargs !! "currencies" = None →
  Shop.default_currencies kwargs !! "currencies" = Some (Shop.KwCurrencies []).
Proof.
  intros Hc. unfold Shop.default_currencies.
  rewrite decide_False by (by apply not_elem_of_dom).
  apply lookup_insert_eq.
Qed.

Lemma default_currencies_other (kwargs : gmap string Shop.KwVal) (key : string) :
  key ≠ "currencies" →
  Shop.default_currencies kwargs !! key = kwargs !! key.
Proof.
  intros Hkey. unfold Shop.default_currencies.
  case_decide; [reflexivity|]. by rewrite lookup_insert_ne.
Qed.

Lemma default_currencies_present (kwargs : gmap string Shop.KwVal) :
  is_Some (kwargs !! "currencies") →
  Shop.default_currencies kwargs = kwargs.
Proof.
  intros Hc. unfold Shop.default_currencies.
  by rewrite decide_True by (by apply elem_of_dom).
Qed.

(** An element that is not the [currencies] wrapper leaves the keyword
    [currencies] as it was. *)
Lemma from_xml_body_currencies (el : XMLElement)
    (kwargs kwargs' : gmap string Shop.KwVal) :
  tag el ≠ "currencies" →
  Shop.from_xml_body el kwargs = Ok kwargs' →
  kwargs' !! "currencies" = kwargs !! "currencies".
Proof.
  intros Htag. unfold Shop.from_xml_body.
  repeat case_decide; try done; intros Hb;
    try (inv_bind Hb; injection Hb as <-);
    try (injection Hb as <-);
    try (by rewrite lookup_insert_ne).
  - destruct a; [done | by rewrite lookup_insert_ne].
  - destruct a; [done | by rewrite lookup_insert_ne].
Qed.

Lemma for_in_currencies (els : list XMLElement)
    (kwargs kwargs' : gmap string Shop.KwVal) :
  "currencies" ∉ tag <$> els →
  for_in els Shop.from_xml_body kwargs = Ok kwargs' →
  kwargs' !! "currencies" = kwargs !! "currencies".
Proof.
  revert kwargs. induction els as [|el els IH]; intros kwargs Hno Hfor.
  - by injection Hfor as <-.
  - cbn [for_in] in Hfor. inv_bind Hfor.
    rewrite fmap_cons, not_elem_of_cons in Hno. destruct Hno as [Hel Hels].
    rewrite (IH _ Hels Hfor).
    by apply from_xml_body_currencies with el.
Qed.

Lemma from_iterator_body_currencies (event : Event) (el : XMLElement)
    (iterator : list (Event * XMLElement))
    (kwargs kwargs' : gmap string Shop.KwVal) (n : nat) :
  tag el ≠ "currencies" →
  Shop.from_iterator_body event el iterator kwargs = Ok (kwargs', n) →
  kwargs' !! "currencies" = kwargs !! "currencies".
Proof.
  intros Htag. unfold Shop.from_iterator_body.
  repeat case_decide; try (by intuition); intros Hb;
    try (inv_bind Hb; injection Hb as <- <-);
    try (injection Hb as <- <-);
    try (by rewrite lookup_insert_ne); try done.
  - destruct (a.1); [done | by rewrite lookup_insert_ne].
  - destruct (a.1); [done | by rewrite lookup_insert_ne].
Qed.

Lemma from_iterator_loop_currencies (iterator : list (Event * XMLElement))
    (kwargs kwargs' : gmap string Shop.KwVal) :
  "currencies" ∉ (tag ∘ snd) <$> iterator →
  Shop.from_iterator_loop iterator kwargs = Ok kwargs' →
  kwargs' !! "currencies" = kwargs !! "currencies".
Proof.
  funelim (Shop.from_iterator_loop iterator kwargs); intros Hno Hloop.
  - by injection Hloop as <-.
  - rewrite fmap_cons, not_elem_of_cons in Hno. destruct Hno as [Hel Hit].
    simpl in Hel.
    destruct (Shop.from_iterator_body event el iterator' kwargs)
      as [[kwargs1 n]|e] eqn:Hbody; [|done].
    rewrite <- (from_iterator_body_currencies _ _ _ _ _ _ (not_eq_sym Hel) Hbody).
    eapply (H (kwargs1, n)); [|exact Hloop].
    intros Hin. apply Hit.
    apply list_elem_of_fmap in Hin as (x & -> & Hx).
    apply list_elem_of_fmap. exists x. split; [done|].
    eapply subseteq_drop, Hx.
Qed.

Lemma passed_dom (kwargs : gmap string Shop.KwVal) (key : string) :
  is_Some (passed kwargs !! key) → key ∈ Shop.args.
Proof. apply filter_args_dom. Qed.

Lemma passed_kept (kwargs : gmap string Shop.KwVal) (key : string) :
  key ∈ Shop.args → key ≠ "currencies" →
  passed kwargs !! key = kwargs !! key.
Proof.
  intros Hkey Hne. unfold passed.
  by rewrite filter_args_lookup_in, default_currencies_other.
Qed.

Lemma passed_default (kwargs : gmap string Shop.KwVal) :
  kwargs !! "currencies" = None →
  passed kwargs !! "currencies" = Some (Shop.KwCurrencies []).
Proof.
  intros Hc. unfold passed. rewrite filter_args_lookup_in.
  - by apply default_currencies_absent.
  - unfold Shop.args. rewrite !elem_of_cons. tauto.
Qed.

Lemma bind_ne {A B} (m : result A) (f : A → result B) (e : Exception) :
  m ≠ Raise e → (∀ a, f a ≠ Raise e) → m ≫= f ≠ Raise e.
Proof.
  destruct m as [a|e0]; intros Hm Hf.
  - apply Hf.
  - rewrite bind_Raise. intros [= ->]. by apply Hm.
Qed.

Ltac arg_ne :=
  intros kwargs; intros;
  unfold Shop.text_arg, Shop.currencies_arg, Shop.categories_arg,
    Shop.offers_arg, Shop.options_arg, Shop.gifts_arg, Shop.promos_arg,
    Shop.bool_arg;
  repeat match goal with
    | |- context [match ?x with _ => _ end] => destruct x
    end;
  unfold Shop.ill_typed; discriminate.

Lemma text_arg_ne kwargs key : Shop.text_arg kwargs key ≠ Raise unexpected.
Proof. revert kwargs key. arg_ne. Qed.
Lemma currencies_arg_ne kwargs : Shop.currencies_arg kwargs ≠ Raise unexpected.
Proof. revert kwargs. arg_ne. Qed.
Lemma categories_arg_ne kwargs : Shop.categories_arg kwargs ≠ Raise unexpected.
Proof. revert kwargs. arg_ne. Qed.
Lemma offers_arg_ne kwargs : Shop.offers_arg kwargs ≠ Raise unexpected.
Proof. revert kwargs. arg_ne. Qed.
Lemma options_arg_ne kwargs key : Shop.options_arg kwargs key ≠ Raise unexpected.
Proof. revert kwargs key. arg_ne. Qed.
Lemma gifts_arg_ne kwargs : Shop.gifts_arg kwargs ≠ Raise unexpected.
Proof. revert kwargs. arg_ne. Qed.
Lemma promos_arg_ne kwargs : Shop.promos_arg kwargs ≠ Raise unexpected.
Proof. revert kwargs. arg_ne. Qed.
Lemma bool_arg_ne kwargs key : Shop.bool_arg kwargs key ≠ Raise unexpected.
Proof. revert kwargs key. arg_ne. Qed.

Lemma init_ne name company currencies categories offers url platform
    version agency email delivery_options pickup_options
    enable_auto_discounts gifts promos :
  Shop.__init__ name company currencies categories offers url platform
    version agency email delivery_options pickup_options
    enable_auto_discounts gifts promos ≠ Raise unexpected.
Proof.
  unfold Shop.__init__, fields.set_enable_auto_discounts.
  destruct enable_auto_discounts; repeat case_decide; discriminate.
Qed.

Lemma call_expected (kwargs : gmap string Shop.KwVal) :
  Shop.call (passed kwargs) ≠ Raise unexpected.
Proof.
  unfold Shop.call. rewrite decide_False.
  - case_decide; [discriminate|].
    repeat (apply bind_ne;
            [first [apply text_arg_ne | apply currencies_arg_ne
                   | apply categories_arg_ne | apply offers_arg_ne
                   | apply options_arg_ne | apply gifts_arg_ne
                   | apply promos_arg_ne | apply bool_arg_ne]
            | intros ?]).
    apply init_ne.
  - intros Hun. apply Hun. intros key Hkey.
    apply elem_of_dom in Hkey. by apply passed_dom in Hkey.
Qed.

(** C8. [Shop.from_xml] and [Shop.from_iterator] call the constructor
    with the keywords they collected cut down to the names of its
    parameters: a key that came from a foreign child tag is dropped,
    and not reported; a key that names a parameter is passed on as
    collected; [currencies] is the empty list when no [currencies]
    wrapper was seen. *)
Theorem C8_constructor_keywords (shop_el : XMLElement)
    (iterator : list (Event * XMLElement)) :
  (∀ kwargs, for_in (children shop_el) Shop.from_xml_body ∅ = Ok kwargs →
     Shop.from_xml shop_el = Shop.call (passed kwargs) ∧
     Shop.call (passed kwargs) ≠ Raise unexpected ∧
     (∀ key, is_Some (passed kwargs !! key) → key ∈ Shop.args) ∧
     (∀ key, key ∈ Shop.args → key ≠ "currencies" →
        passed kwargs !! key = kwargs !! key) ∧
     ("currencies" ∉ tag <$> children shop_el →
        passed kwargs !! "currencies" = Some (Shop.KwCurrencies []))) ∧
  (∀ kwargs, Shop.from_iterator_loop iterator ∅ = Ok kwargs →
     Shop.from_iterator iterator = Shop.call (passed kwargs) ∧
     Shop.call (passed kwargs) ≠ Raise unexpected ∧
     (∀ key, is_Some (passed kwargs !! key) → key ∈ Shop.args) ∧
     (∀ key, key ∈ Shop.args → key ≠ "currencies" →
        passed kwargs !! key = kwargs !! key) ∧
     ("currencies" ∉ (tag ∘ snd) <$> iterator →
        passed kwargs !! "currencies" = Some (Shop.KwCurrencies []))).
Proof.
  split; intros kwargs Hkw.
  - split; [by unfold Shop.from_xml; rewrite Hkw|].
    split; [apply call_expected|].
    split; [apply passed_dom|].
    split; [apply passed_kept|].
    intros Hno. apply passed_default.
    by rewrite (for_in_currencies _ _ _ Hno Hkw).
  - split; [by unfold Shop.from_iterator; rewrite Hkw|].
    split; [apply call_expected|].
    split; [apply passed_dom|].
    split; [apply passed_kept|].
    intros Hno. apply passed_default.
    by rewrite (from_iterator_loop_currencies _ _ _ Hno Hkw).
Qed.

End keywords.

(** ** Dates *)

Section dates.
Open Scope Z_scope.

Lemma digit_val_char (k : Z) :
  0 ≤ k < 10 → digit_val (digit_char k) = Some k.
Proof.
  intros Hk.
  assert (k = 0 ∨ k = 1 ∨ k = 2 ∨ k = 3 ∨ k = 4 ∨ k = 5 ∨ k = 6 ∨ k = 7
          ∨ k = 8 ∨ k = 9) as Hcases by lia.
  repeat destruct Hcases as [->|Hcases]; try reflexivity.
  subst. reflexivity.
Qed.

Lemma is_space_digit (k : Z) :
  0 ≤ k < 10 → is_space (digit_char k) = false.
Proof.
  intros Hk.
  assert (k = 0 ∨ k = 1 ∨ k = 2 ∨ k = 3 ∨ k = 4 ∨ k = 5 ∨ k = 6 ∨ k = 7
          ∨ k = 8 ∨ k = 9) as Hcases by lia.
  repeat destruct Hcases as [->|Hcases]; try reflexivity.
  subst. reflexivity.
Qed.

Lemma two_digit_value (n : Z) :
  0 ≤ n < 100 → 10 * (n / 10 mod 10) + n mod 10 = n.
Proof. intros Hn. Z.div_mod_to_equations. lia. Qed.

Lemma four_digit_value (n : Z) :
  0 ≤ n < 10000 →
  1000 * (n / 1000 mod 10) + 100 * (n / 100 mod 10)
  + 10 * (n / 10 mod 10) + n mod 10 = n.
Proof. intros Hn. Z.div_mod_to_equations. lia. Qed.

Lemma digit_bounds (n k : Z) : 0 ≤ n / k mod 10 < 10.
Proof. apply Z.mod_pos_bound. lia. Qed.

Lemma last_digit_bounds (n : Z) : 0 ≤ n mod 10 < 10.
Proof. apply Z.mod_pos_bound. lia. Qed.

Lemma match_two (c : ascii) (n : Z) ds rest found r :
  c ∈ ["m"; "d"; "H"; "M"; "S"]%char →
  0 ≤ n < 100 →
  two_ok c n = true →
  regex_match ds rest (<[c := n]> found) = Some r →
  regex_match (Dir c :: ds) (pad2 n ++ rest) found = Some r.
Proof.
  intros Hc Hn Hok Hrest. cbn [regex_match].
  assert (alternatives c (pad2 n ++ rest)
          = (n, rest) :: (one_digit c (pad2 n ++ rest)
                          ++ space_digit c (pad2 n ++ rest))%list) as ->.
  { rewrite !elem_of_cons, elem_of_nil in Hc.
    repeat destruct Hc as [->|Hc]; try done;
      unfold alternatives, two_digits, pad2; cbn [app];
      rewrite !digit_val_char by (apply digit_bounds || apply last_digit_bounds);
      rewrite two_digit_value by done; rewrite Hok; reflexivity. }
  cbn [first_match fst snd]. by rewrite Hrest.
Qed.

Lemma match_four (n : Z) ds rest found r :
  0 ≤ n < 10000 →
  regex_match ds rest (<["Y"%char := n]> found) = Some r →
  regex_match (Dir "Y" :: ds) (pad4 n ++ rest) found = Some r.
Proof.
  intros Hn Hrest. cbn [regex_match].
  unfold alternatives, four_digits, pad4. cbn [app].
  rewrite !digit_val_char by (apply digit_bounds || apply last_digit_bounds).
  rewrite four_digit_value by done.
  cbn [first_match fst snd]. by rewrite Hrest.
Qed.

Lemma match_lit (c : ascii) ds rest found :
  regex_match (Lit c :: ds) (c :: rest) found = regex_match ds rest found.
Proof. cbn [regex_match]. by rewrite decide_True. Qed.

Lemma match_space (n : Z) ds rest found r :
  regex_match ds (pad2 n ++ rest) found = Some r →
  regex_match (Space :: ds) (" "%char :: (pad2 n ++ rest)%list) found = Some r.
Proof.
  intros Hrest. cbn [regex_match].
  assert (spaces (" "%char :: (pad2 n ++ rest)%list) = [(pad2 n ++ rest)%list])
    as ->.
  { unfold pad2. cbn [spaces app].
    rewrite is_space_digit by apply digit_bounds. reflexivity. }
  cbn [first_match]. by rewrite Hrest.
Qed.

Lemma valid_datetime_bounds (d : datetime) :
  valid_datetime d = true →
  1 ≤ year d ≤ 9999 ∧ 1 ≤ month d ≤ 12 ∧ 1 ≤ day d ≤ 31 ∧
  0 ≤ hour d ≤ 23 ∧ 0 ≤ minute d ≤ 59 ∧ 0 ≤ second d ≤ 59.
Proof.
  unfold valid_datetime. rewrite !andb_true_iff, !Z.leb_le.
  intros (((((((((((Hy1 & Hy2) & Hm1) & Hm2) & Hd1) & Hd2) & HH0) & HH)
            & HM0) & HM) & HS0) & HS).
  assert (days_in_month (year d) (month d) ≤ 31).
  { unfold days_in_month. repeat case_match; lia. }
  lia.
Qed.

Lemma two_ok_range (c : ascii) (n lo hi : Z) :
  lo ≤ n ≤ hi →
  (c, lo, hi) ∈ [("m", 1, 12); ("d", 1, 31); ("H", 0, 23); ("M", 0, 59);
                 ("S", 0, 59)]%char →
  two_ok c n = true.
Proof.
  intros Hn Hc. rewrite !elem_of_cons, elem_of_nil in Hc.
  repeat destruct Hc as [Hc|Hc]; try done; injection Hc as -> -> ->;
    unfold two_ok; rewrite ?andb_true_iff, !Z.leb_le; lia.
Qed.

(** Parsing what [strftime] printed in the primary format gives the
    [datetime] back. *)
Lemma strptime_strftime_valid (d : datetime) :
  valid_datetime d = true →
  strptime (strftime d Feed.DATE_FORMAT) Feed.DATE_FORMAT = Ok d.
Proof.
  intros Hvalid.
  pose proof (valid_datetime_bounds d Hvalid) as (Hy & Hm & Hd & HH & HM & HS).
  unfold strptime, strftime. rewrite list_ascii_of_string_of_list_ascii.
  assert (directives (list_ascii_of_string Feed.DATE_FORMAT)
          = [Dir "Y"; Lit "-"; Dir "m"; Lit "-"; Dir "d"; Space;
             Dir "H"; Lit ":"; Dir "M"; Lit ":"; Dir "S"]%char)
    as -> by reflexivity.
  cbn [fmap list_fmap concat strftime_directive app].
  erewrite match_four; [| lia |].
  2:{ rewrite match_lit.
      eapply match_two;
        [ rewrite !elem_of_cons; tauto | lia
        | eapply two_ok_range; [exact Hm | rewrite !elem_of_cons; tauto] |].
      rewrite match_lit.
      eapply match_two;
        [ rewrite !elem_of_cons; tauto | lia
        | eapply two_ok_range; [exact Hd | rewrite !elem_of_cons; tauto] |].
      eapply match_space.
      eapply match_two;
        [ rewrite !elem_of_cons; tauto | lia
        | eapply two_ok_range; [exact HH | rewrite !elem_of_cons; tauto] |].
      rewrite match_lit.
      eapply match_two;
        [ rewrite !elem_of_cons; tauto | lia
        | eapply two_ok_range; [exact HM | rewrite !elem_of_cons; tauto] |].
      rewrite match_lit.
      eapply match_two;
        [ rewrite !elem_of_cons; tauto | lia
        | eapply two_ok_range; [exact HS | rewrite !elem_of_cons; tauto] |].
      reflexivity. }
  cbn beta iota.
  repeat (rewrite lookup_insert_eq || rewrite lookup_insert_ne by done).
  cbn [default id]. destruct d. cbn [year month day hour minute second] in *.
  by rewrite Hvalid.
Qed.

Lemma strptime_strftime (now : datetime) :
  clock now →
  strptime (strftime now Feed.DATE_FORMAT) Feed.DATE_FORMAT = Ok now.
Proof. intros [Hvalid _]. by apply strptime_strftime_valid. Qed.

(** What [strftime] printed in the primary format is not in the
    fallback format: the seconds are left over. *)
Lemma strftime_not_fallback (d : datetime) :
  valid_datetime d = true →
  strptime (strftime d Feed.DATE_FORMAT) Feed.ALT_DATE_FORMAT
  = Raise (ValueError "unconverted data remains").
Proof.
  intros Hvalid.
  pose proof (valid_datetime_bounds d Hvalid) as (Hy & Hm & Hd & HH & HM & HS).
  unfold strptime, strftime. rewrite list_ascii_of_string_of_list_ascii.
  assert (directives (list_ascii_of_string Feed.ALT_DATE_FORMAT)
          = [Dir "Y"; Lit "-"; Dir "m"; Lit "-"; Dir "d"; Space;
             Dir "H"; Lit ":"; Dir "M"]%char)
    as -> by reflexivity.
  assert (directives (list_ascii_of_string Feed.DATE_FORMAT)
          = [Dir "Y"; Lit "-"; Dir "m"; Lit "-"; Dir "d"; Space;
             Dir "H"; Lit ":"; Dir "M"; Lit ":"; Dir "S"]%char)
    as -> by reflexivity.
  cbn [fmap list_fmap concat strftime_directive app].
  erewrite match_four; [| lia |].
  2:{ rewrite match_lit.
      eapply match_two;
        [ rewrite !elem_of_cons; tauto | lia
        | eapply two_ok_range; [exact Hm | rewrite !elem_of_cons; tauto] |].
      rewrite match_lit.
      eapply match_two;
        [ rewrite !elem_of_cons; tauto | lia
        | eapply two_ok_range; [exact Hd | rewrite !elem_of_cons; tauto] |].
      eapply match_space.
      eapply match_two;
        [ rewrite !elem_of_cons; tauto | lia
        | eapply two_ok_range; [exact HH | rewrite !elem_of_cons; tauto] |].
      rewrite match_lit.
      eapply match_two;
        [ rewrite !elem_of_cons; tauto | lia
        | eapply two_ok_range; [exact HM | rewrite !elem_of_cons; tauto] |].
      reflexivity. }
  reflexivity.
Qed.

(** What [strptime] returns is a [datetime] the constructor accepts. *)
Lemma strptime_valid (s fmt : string) (d : datetime) :
  strptime s fmt = Ok d → valid_datetime d = true.
Proof.
  unfold strptime. destruct (regex_match _ _ _) as [[found [|c rest]]|]; try done.
  destruct (valid_datetime _) eqn:Hvalid; [|done]. by intros [= <-].
Qed.

Lemma strptime_matched (s fmt : string) (d : datetime) :
  strptime s fmt = Ok d →
  ∃ found,
    regex_match (directives (list_ascii_of_string fmt))
      (list_ascii_of_string s) ∅ = Some (found, []).
Proof.
  unfold strptime. destruct (regex_match _ _ _) as [[found [|c rest]]|]; try done.
  eauto.
Qed.

(** *** The two formats have no string in common

    A match consumes as many colons as the format has: one for the
    fallback format, two for the primary format. *)

Lemma first_match_Some {A B} (f : A → option B) (l : list A) (b : B) :
  first_match f l = Some b → ∃ a, a ∈ l ∧ f a = Some b.
Proof.
  induction l as [|a l IH]; [done|]. cbn [first_match].
  destruct (f a) as [b'|] eqn:Ha.
  - intros [= ->]. exists a. split; [left | done].
  - intros (a' & Hin & Ha')%IH. exists a'. split; [by right | done].
Qed.

Lemma digit_not_colon (c : ascii) (k : Z) :
  digit_val c = Some k → c ≠ ":"%char.
Proof. intros Hc ->. vm_compute in Hc. discriminate Hc. Qed.

Lemma space_not_colon (c : ascii) : is_space c = true → c ≠ ":"%char.
Proof. intros Hc ->. vm_compute in Hc. discriminate Hc. Qed.

Lemma colons_cons (c : ascii) (s : list ascii) :
  c ≠ ":"%char → colons (c :: s) = colons s.
Proof. intros Hc. cbn [colons]. by rewrite decide_False. Qed.

Lemma four_digits_colons (s : list ascii) v s' :
  (v, s') ∈ four_digits s → colons s = colons s'.
Proof.
  unfold four_digits. destruct s as [|c3 [|c2 [|c1 [|c0 s0]]]];
    try (by intros ?%elem_of_nil).
  destruct (digit_val c3) eqn:H3, (digit_val c2) eqn:H2,
    (digit_val c1) eqn:H1, (digit_val c0) eqn:H0;
    try (by intros ?%elem_of_nil).
  intros [= _ <-]%list_elem_of_singleton.
  rewrite !colons_cons; eauto using digit_not_colon.
Qed.

Lemma two_digits_colons (c : ascii) (s : list ascii) v s' :
  (v, s') ∈ two_digits c s → colons s = colons s'.
Proof.
  unfold two_digits. destruct s as [|c1 [|c0 s0]];
    try (by intros ?%elem_of_nil).
  destruct (digit_val c1) eqn:H1, (digit_val c0) eqn:H0;
    try (by intros ?%elem_of_nil).
  destruct (two_ok _ _); [|by intros ?%elem_of_nil].
  intros [= _ <-]%list_elem_of_singleton.
  rewrite !colons_cons; eauto using digit_not_colon.
Qed.

Lemma one_digit_colons (c : ascii) (s : list ascii) v s' :
  (v, s') ∈ one_digit c s → colons s = colons s'.
Proof.
  unfold one_digit. destruct s as [|c0 s0]; [by intros ?%elem_of_nil|].
  destruct (digit_val c0) eqn:H0; [|by intros ?%elem_of_nil].
  destruct (one_ok _ _); [|by intros ?%elem_of_nil].
  intros [= _ <-]%list_elem_of_singleton.
  rewrite !colons_cons; eauto using digit_not_colon.
Qed.

Lemma space_digit_colons (c : ascii) (s : list ascii) v s' :
  (v, s') ∈ space_digit c s → colons s = colons s'.
Proof.
  destruct s as [|c1 [|c0 s0]];
    try (unfold space_digit; repeat case_match; by intros ?%elem_of_nil).
  destruct (decide (c1 = " "%char)) as [->|Hc1].
  - destruct (digit_val c0) eqn:H0.
    + intros Hin.
      assert ((v, s') ∈ [(z, s0)]) as [= _ <-]%list_elem_of_singleton.
      { unfold space_digit in Hin. rewrite H0 in Hin.
        repeat case_match; solve [ by apply elem_of_nil in Hin | exact Hin ]. }
      rewrite !colons_cons; eauto using digit_not_colon.
    + unfold space_digit. rewrite H0.
      repeat case_match; by intros ?%elem_of_nil.
  - unfold space_digit. repeat case_match; subst; try done;
      by intros ?%elem_of_nil.
Qed.

Lemma alternatives_colons (c : ascii) (s : list ascii) v s' :
  (v, s') ∈ alternatives c s → colons s = colons s'.
Proof.
  intros Hin.
  assert ((v, s') ∈ four_digits s
          ∨ (v, s') ∈ (two_digits c s ++ one_digit c s ++ space_digit c s)%list)
    as [H|H].
  { unfold alternatives in Hin. repeat case_match; auto. }
  - by apply four_digits_colons in H.
  - rewrite !elem_of_app in H. destruct H as [H|[H|H]].
    + by apply two_digits_colons in H.
    + by apply one_digit_colons in H.
    + by apply space_digit_colons in H.
Qed.

Lemma spaces_colons (s s' : list ascii) :
  s' ∈ spaces s → colons s = colons s'.
Proof.
  induction s as [|c s IH]; cbn [spaces]; [by intros ?%elem_of_nil|].
  destruct (is_space c) eqn:Hc; [|by intros ?%elem_of_nil].
  rewrite colons_cons by by apply space_not_colon.
  rewrite elem_of_app, list_elem_of_singleton. intros [H| ->]; auto.
Qed.

Lemma regex_match_colons (ds : list directive) (s : list ascii)
    (found found' : gmap ascii Z) (rest : list ascii) :
  regex_match ds s found = Some (found', rest) →
  colons s = (literal_colons ds + colons rest)%nat.
Proof.
  revert s found. induction ds as [|[c|c|] ds IH]; intros s found;
    cbn [regex_match literal_colons].
  - by intros [= _ ->].
  - intros ([v s'] & Hin & Hm)%first_match_Some.
    apply alternatives_colons in Hin. apply IH in Hm. by rewrite Hin.
  - destruct s as [|c' s']; [done|]. case_decide as Hc; [subst c'|done].
    intros Hm%IH. cbn [colons]. rewrite Hm. lia.
  - intros (s' & Hin & Hm)%first_match_Some.
    apply spaces_colons in Hin. apply IH in Hm. by rewrite Hin.
Qed.

Lemma formats_disjoint (s : string) :
  in_format s Feed.ALT_DATE_FORMAT → ¬ in_format s Feed.DATE_FORMAT.
Proof.
  intros [d (found & Hm)%strptime_matched] [d' (found' & Hm')%strptime_matched].
  apply regex_match_colons in Hm, Hm'.
  rewrite Hm in Hm'. vm_compute in Hm'. discriminate Hm'.
Qed.

End dates.

(** ** The date of a feed *)

Section feed_date.
Context `{M : Models}.

(** The check hands back a string that parses as the date it denotes,
    printed in the primary format. *)
Lemma is_valid_datetime_Some (s fmt attr : string) (allow_none : bool)
    (d : datetime) :
  strptime s fmt = Ok d →
  models._is_valid_datetime (Some s) fmt attr allow_none
  = Ok (Some (strftime d Feed.DATE_FORMAT)).
Proof. intros Hd. unfold models._is_valid_datetime. by rewrite Hd. Qed.

Lemma is_valid_datetime_inv (dt : option string) (fmt attr : string)
    (allow_none : bool) (r : option string) :
  models._is_valid_datetime dt fmt attr allow_none = Ok r →
  match dt with
  | Some s =>
      ∃ d, strptime s fmt = Ok d ∧ r = Some (strftime d Feed.DATE_FORMAT)
  | None => r = None
  end.
Proof.
  unfold models._is_valid_datetime. destruct dt as [s|].
  - destruct (strptime s fmt) as [d|e] eqn:Hs; [|done].
    intros [= <-]. eauto.
  - destruct allow_none; [|done]. by intros [= <-].
Qed.

Lemma is_valid_datetime_caught (dt : option string) (fmt attr : string)
    (allow_none : bool) (e : Exception) :
  models._is_valid_datetime dt fmt attr allow_none = Raise e →
  Feed.caught e = true.
Proof.
  unfold models._is_valid_datetime. destruct dt as [s|].
  - destruct (strptime s fmt); [done|]. by intros [= <-].
  - destruct allow_none; [done|]. by intros [= <-].
Qed.

(** A string in the primary format is stored as the date it denotes,
    printed in the primary format. *)
Lemma set_date_primary (now : datetime) (s : string) (d : datetime) :
  strptime s Feed.DATE_FORMAT = Ok d →
  Feed.set_date now (Some s) = Ok (strftime d Feed.DATE_FORMAT).
Proof.
  intros Hd. unfold Feed.set_date.
  by rewrite (is_valid_datetime_Some s _ "date" true d Hd).
Qed.

(** So is a string in the fallback format, after the check with the
    primary format has failed. *)
Lemma set_date_fallback (now : datetime) (s : string) (d : datetime) :
  strptime s Feed.ALT_DATE_FORMAT = Ok d →
  Feed.set_date now (Some s) = Ok (strftime d Feed.DATE_FORMAT).
Proof.
  intros Hd. unfold Feed.set_date.
  destruct (models._is_valid_datetime (Some s) Feed.DATE_FORMAT "date" true)
    as [r|e] eqn:Hprimary.
  - apply is_valid_datetime_inv in Hprimary as (d' & Hd' & _).
    destruct (formats_disjoint s); by eexists.
  - cbn [try_except].
    rewrite (is_valid_datetime_caught _ _ _ _ _ Hprimary).
    by rewrite (is_valid_datetime_Some s _ "date" true d Hd).
Qed.

Lemma set_date_None (now : datetime) :
  Feed.set_date now None = Ok (strftime now Feed.DATE_FORMAT).
Proof. reflexivity. Qed.

(** What the setter stores: the date the string it was given denotes in
    one of the two formats, or the current time, printed in the primary
    format. *)
Lemma set_date_inv (now : datetime) (date : option string) (stored : string) :
  Feed.set_date now date = Ok stored →
  (∃ s d, date = Some s ∧
     (strptime s Feed.DATE_FORMAT = Ok d
      ∨ strptime s Feed.ALT_DATE_FORMAT = Ok d) ∧
     stored = strftime d Feed.DATE_FORMAT)
  ∨ (date = None ∧ stored = strftime now Feed.DATE_FORMAT).
Proof.
  unfold Feed.set_date. intros Hset. inv_bind Hset.
  destruct (models._is_valid_datetime date Feed.DATE_FORMAT "date" true)
    as [r|e] eqn:Hprimary; cbn [try_except] in Ha.
  - injection Ha as ->.
    apply is_valid_datetime_inv in Hprimary.
    destruct date as [s|].
    + destruct Hprimary as (d & Hd & ->). injection Hset as <-.
      left. exists s, d. eauto.
    + subst a. injection Hset as <-. by right.
  - rewrite (is_valid_datetime_caught _ _ _ _ _ Hprimary) in Ha.
    apply is_valid_datetime_inv in Ha.
    destruct date as [s|].
    + destruct Ha as (d & Hd & ->). injection Hset as <-.
      left. exists s, d. eauto.
    + subst a. injection Hset as <-. by right.
Qed.

(** The stored string is a date printed in the primary format. *)
Lemma set_date_printed (now : datetime) (date : option string)
    (stored : string) :
  clock now →
  Feed.set_date now date = Ok stored →
  ∃ d, valid_datetime d = true ∧ stored = strftime d Feed.DATE_FORMAT.
Proof.
  intros [Hnow _] [(s & d & _ & Hd & ->)|[_ ->]]%set_date_inv.
  - exists d. split; [|done].
    destruct Hd as [Hd|Hd]; by apply strptime_valid in Hd.
  - by exists now.
Qed.

Lemma strptime_caught (s fmt : string) (e : Exception) :
  strptime s fmt = Raise e → Feed.caught e = true.
Proof.
  unfold strptime.
  repeat case_match; try done; by intros [= <-].
Qed.

(** The getter: the stored string parsed with the primary format, and
    with the fallback format when that fails. *)
Lemma date_getter (self : Feed.t) :
  Feed.date self
  = match strptime (Feed._date self) Feed.DATE_FORMAT with
    | Ok dt => Ok dt
    | Raise _ => strptime (Feed._date self) Feed.ALT_DATE_FORMAT
    end.
Proof.
  unfold Feed.date, try_except.
  destruct (strptime (Feed._date self) Feed.DATE_FORMAT) as [dt|e] eqn:Hp;
    [reflexivity|].
  by rewrite (strptime_caught _ _ _ Hp).
Qed.

(** The date of a constructed feed is a date printed in the primary
    format. *)
Lemma stored_date_printed (now : datetime) (shop : Shop.t)
    (date : option string) (self : Feed.t) :
  clock now →
  Feed.__init__ now shop date = Ok self →
  ∃ d, valid_datetime d = true ∧ Feed._date self = strftime d Feed.DATE_FORMAT.
Proof.
  intros Hnow Hinit. unfold Feed.__init__ in Hinit. inv_bind Hinit.
  injection Hinit as <-. cbn [Feed._date].
  by apply set_date_printed with now date.
Qed.

(** The getter of a constructed feed returns a [datetime]. *)
Lemma date_total (now : datetime) (shop : Shop.t) (date : option string)
    (self : Feed.t) :
  clock now →
  Feed.__init__ now shop date = Ok self →
  ∃ dt, Feed.date self = Ok dt.
Proof.
  intros Hnow Hinit.
  destruct (stored_date_printed now shop date self Hnow Hinit)
    as (d & Hvalid & Hstored).
  rewrite date_getter, Hstored, strptime_strftime_valid by done. eauto.
Qed.

Lemma create_xml_date (self : Feed.t) :
  attrib (Feed.create_xml self) !! "date" = Some (Feed._date self).
Proof.
  unfold Feed.create_xml, Shop.to_xml, append, new_element.
  cbn [attrib]. apply lookup_singleton_eq.
Qed.

End feed_date.

Section feed_claims.
Context `{M : Models}.

(** C6. A date supplied as a string in the fallback format is stored,
    and emitted by [Feed.create_xml] as the [date] attribute, normalized
    to the primary format: what is stored is the date the string denotes
    printed in the primary format. It parses back to that date with the
    primary format, and it is not in the fallback format, so it is not
    the string that was supplied. *)
Theorem C6_fallback_date_normalized (now : datetime) (shop : Shop.t)
    (s : string) (d : datetime) :
  strptime s Feed.ALT_DATE_FORMAT = Ok d →
  ∃ self,
    Feed.__init__ now shop (Some s) = Ok self ∧
    Feed._date self = strftime d Feed.DATE_FORMAT ∧
    attrib (Feed.create_xml self) !! "date"
    = Some (strftime d Feed.DATE_FORMAT) ∧
    strptime (Feed._date self) Feed.DATE_FORMAT = Ok d ∧
    ¬ in_format (Feed._date self) Feed.ALT_DATE_FORMAT ∧
    Feed._date self ≠ s.
Proof.
  intros Hs. pose proof (strptime_valid _ _ _ Hs) as Hvalid.
  eexists. unfold Feed.__init__.
  rewrite (set_date_fallback now s d Hs), bind_Ok.
  split; [reflexivity|]. cbn [Feed._date]. split; [reflexivity|].
  split; [apply create_xml_date|].
  split; [by apply strptime_strftime_valid|].
  assert (¬ in_format (strftime d Feed.DATE_FORMAT) Feed.ALT_DATE_FORMAT)
    as Hnot.
  { intros [d' Hd']. by rewrite strftime_not_fallback in Hd'. }
  split; [exact Hnot|].
  intros Heq. apply Hnot. rewrite Heq. by exists d.
Qed.

(** C10. For a constructed feed the [date] entry of the dict that
    [Feed.create_dict] produces is the [datetime] the getter obtains by
    parsing the stored string, with the primary format or else with the
    fallback format, while [Feed.create_xml] emits the stored string
    itself as the [date] attribute: the two representations carry the
    date in different forms. *)
Theorem C10_date_forms (now : datetime) (shop : Shop.t)
    (date : option string) (self : Feed.t) :
  clock now →
  Feed.__init__ now shop date = Ok self →
  ∃ dt,
    Feed.date self = Ok dt ∧
    (strptime (Feed._date self) Feed.DATE_FORMAT = Ok dt ∨
     (¬ in_format (Feed._date self) Feed.DATE_FORMAT ∧
      strptime (Feed._date self) Feed.ALT_DATE_FORMAT = Ok dt)) ∧
    (∀ d, Shop.to_dict (Feed.shop self) false = Ok d →
       Feed.create_dict self = Ok (PyDict [("shop", d); ("date", PyDatetime dt)])) ∧
    (∀ d, Feed.create_dict self = Ok (PyDict d) →
       dict_get "date" d = Some (PyDatetime dt)) ∧
    attrib (Feed.create_xml self) !! "date" = Some (Feed._date self) ∧
    PyDatetime dt ≠ PyStr (Feed._date self).
Proof.
  intros Hnow Hinit.
  destruct (date_total now shop date self Hnow Hinit) as [dt Hdt].
  exists dt. split; [exact Hdt|].
  split.
  { rewrite date_getter in Hdt.
    destruct (strptime (Feed._date self) Feed.DATE_FORMAT) as [dt'|e] eqn:Hp.
    - left. exact Hdt.
    - right. split; [|exact Hdt]. intros [dt' Hdt']. congruence. }
  split.
  { intros d Hd. unfold Feed.create_dict. by rewrite Hd, bind_Ok, Hdt. }
  split.
  { intros d. unfold Feed.create_dict. intros Hd.
    inv_bind Hd. rewrite Hdt, bind_Ok in Hd. injection Hd as <-.
    reflexivity. }
  split; [apply create_xml_date | discriminate].
Qed.

End feed_claims.

Lemma alt_date_parsed :
  strptime example.alt_date Feed.ALT_DATE_FORMAT = Ok example.alt_datetime.
Proof. vm_compute. reflexivity. Qed.

Lemma alt_date_printed :
  strftime example.alt_datetime Feed.DATE_FORMAT = "2020-01-05 10:30:00".
Proof. vm_compute. reflexivity. Qed.

Lemma alt_init (shop : Shop.t) :
  Feed.__init__ example.now shop (Some example.alt_date)
  = Ok {| Feed.shop := shop; Feed._date := "2020-01-05 10:30:00" |}.
Proof.
  unfold Feed.__init__.
  by rewrite (set_date_fallback _ _ _ alt_date_parsed), alt_date_printed.
Qed.

Lemma alt_feed_init :
  Feed.__init__ example.now example.plain_shop (Some example.alt_date)
  = Ok example.alt_feed.
Proof. apply alt_init. Qed.

Lemma clock_now : clock example.now.
Proof. split; [reflexivity | vm_compute; discriminate]. Qed.

Lemma C6_fallback_date_normalized_witness :
  strptime "2020-01-05 10:30" Feed.ALT_DATE_FORMAT = Ok example.alt_datetime ∧
  strftime example.alt_datetime Feed.DATE_FORMAT = "2020-01-05 10:30:00" ∧
  ∃ self,
    Feed.__init__ example.now example.plain_shop (Some "2020-01-05 10:30")
    = Ok self ∧
    Feed._date self = strftime example.alt_datetime Feed.DATE_FORMAT ∧
    attrib (Feed.create_xml self) !! "date"
    = Some (strftime example.alt_datetime Feed.DATE_FORMAT) ∧
    strptime (Feed._date self) Feed.DATE_FORMAT = Ok example.alt_datetime ∧
    ¬ in_format (Feed._date self) Feed.ALT_DATE_FORMAT ∧
    Feed._date self ≠ "2020-01-05 10:30".
Proof.
  split; [apply alt_date_parsed|]. split; [apply alt_date_printed|].
  exact (C6_fallback_date_normalized example.now example.plain_shop
           "2020-01-05 10:30" example.alt_datetime alt_date_parsed).
Defined.

Lemma C10_date_forms_witness :
  clock example.now ∧
  Feed.__init__ example.now example.plain_shop (Some example.alt_date)
  = Ok example.alt_feed ∧
  ∃ dt,
    Feed.date example.alt_feed = Ok dt ∧
    attrib (Feed.create_xml example.alt_feed) !! "date"
    = Some (Feed._date example.alt_feed).
Proof.
  split; [apply clock_now|]. split; [apply alt_feed_init|].
  destruct (C10_date_forms example.now example.plain_shop
              (Some example.alt_date) example.alt_feed clock_now alt_feed_init)
    as (dt & Hdt & _ & _ & _ & Hattr & _).
  exists dt. split; [exact Hdt | exact Hattr].
Defined.

Lemma bogus_unknown : ¬ spec.known "bogus".
Proof.
  intros [c Hc]. apply discriminants_inv in Hc.
  repeat destruct Hc as [Hc|Hc]; destruct Hc as [Hc _]; discriminate Hc.
Qed.

Lemma book_known : ("book", models.BookOffer) ∈ spec.discriminants.
Proof. unfold spec.discriminants. rewrite !elem_of_cons. tauto. Qed.

Lemma long_url_length : String.length example.long_url = 513.
Proof. vm_compute. reflexivity. Qed.

Lemma C5_url_513_stored_witness :
  String.length example.long_url = 513 ∧
  ∃ shop : Shop.t,
    Shop.__init__ (Some "Shop") (Some "Company") [] [] []
      (Some example.long_url) None None None None None None ArgNone None None
    = Ok shop ∧
    Shop.url shop = Some example.long_url ∧
    Shop.url (Shop.set_url shop (Some example.long_url)) = Some example.long_url.
Proof.
  split; [apply long_url_length|].
  exact (C5_url_513_stored (Some "Shop") (Some "Company") [] [] []
           example.long_url long_url_length).
Defined.

Lemma foreign_collected_xml :
  for_in (children example.shop_with_foreign_tag) Shop.from_xml_body ∅
  = Ok example.foreign_kwargs.
Proof. reflexivity. Qed.

Lemma foreign_collected_iterator :
  Shop.from_iterator_loop
    (flat_map iterparse (children example.shop_with_foreign_tag)) ∅
  = Ok example.foreign_kwargs.
Proof. reflexivity. Qed.

Lemma foreign_no_currencies_xml :
  "currencies" ∉ tag <$> children example.shop_with_foreign_tag.
Proof.
  cbn. rewrite !not_elem_of_cons. repeat split; try discriminate.
  apply not_elem_of_nil.
Qed.

Lemma foreign_no_currencies_iterator :
  "currencies"
  ∉ (tag ∘ snd) <$> flat_map iterparse (children example.shop_with_foreign_tag).
Proof.
  cbn. rewrite !not_elem_of_cons. repeat split; try discriminate.
  apply not_elem_of_nil.
Qed.

Lemma C8_constructor_keywords_witness :
  (Shop.from_xml example.shop_with_foreign_tag
   = Shop.call (passed example.foreign_kwargs) ∧
   passed example.foreign_kwargs !! "currencies" = Some (Shop.KwCurrencies [])) ∧
  (Shop.from_iterator
     (flat_map iterparse (children example.shop_with_foreign_tag))
   = Shop.call (passed example.foreign_kwargs) ∧
   passed example.foreign_kwargs !! "currencies" = Some (Shop.KwCurrencies [])).
Proof.
  pose proof (C8_constructor_keywords example.shop_with_foreign_tag
                (flat_map iterparse (children example.shop_with_foreign_tag)))
    as [Hxml Hit].
  destruct (Hxml _ foreign_collected_xml) as (H1 & _ & _ & _ & H2).
  destruct (Hit _ foreign_collected_iterator) as (H3 & _ & _ & _ & H4).
  split; split;
    [ exact H1 | exact (H2 foreign_no_currencies_xml)
    | exact H3 | exact (H4 foreign_no_currencies_iterator) ].
Defined.

(** The foreign key is dropped, and the shop is constructed. *)
Example foreign_key_dropped :
  passed example.foreign_kwargs !! "foo" = None ∧
  Shop.name <$> Shop.from_xml example.shop_with_foreign_tag = Ok (Some "Shop").
Proof. split; reflexivity. Qed.

Lemma maybe_not_allowed : lower "maybe" ∉ fields.ENABLE_AUTO_DISCOUNTS_CHOICES.
Proof.
  change (lower "maybe") with "maybe".
  unfold fields.ENABLE_AUTO_DISCOUNTS_CHOICES.
  rewrite !not_elem_of_cons. repeat split; try discriminate.
  apply not_elem_of_nil.
Qed.

Lemma yes_truthy : "yes" ∈ ["yes"; "true"; "1"].
Proof. rewrite !elem_of_cons. tauto. Qed.

Lemma no_falsy : "no" ∈ ["no"; "false"; "0"].
Proof. rewrite !elem_of_cons. tauto. Qed.

Lemma C7_enable_auto_discounts_witness :
  (∃ s, Shop.set_enable_auto_discounts example.plain_shop (ArgStr "yes") = Ok s ∧
        Shop.enable_auto_discounts s = PyBool true) ∧
  (∃ s, Shop.set_enable_auto_discounts example.plain_shop (ArgStr "no") = Ok s ∧
        Shop.enable_auto_discounts s = PyBool false) ∧
  Shop.set_enable_auto_discounts example.plain_shop (ArgStr "maybe")
  = Raise (EnableAutoDiscountsValidationError
             ("enable_auto_discounts should be True, False or str from "
              +:+ "available values: yes, true, 1, no, false, 0")).
Proof.
  destruct (C7_enable_auto_discounts example.plain_shop)
    as (Htrue & Hfalse & _ & Hother).
  split; [exact (Htrue "yes" yes_truthy)|].
  split; [exact (Hfalse "no" no_falsy)|].
  exact (Hother "maybe" maybe_not_allowed).
Defined.

(** ** The round trip of a shop and of a feed *)

Section roundtrip.
Context `{M : Models}.

Lemma for_in_app {A S} (l1 l2 : list A) (body : A → S → result S) (s : S) :
  for_in (l1 ++ l2) body s = for_in l1 body s ≫= for_in l2 body.
Proof.
  revert s. induction l1 as [|x l1 IH]; intros s; [reflexivity|].
  cbn [for_in app]. destruct (body x s) as [s'|e]; [|reflexivity].
  rewrite !bind_Ok. apply IH.
Qed.

Lemma mapM_roundtrip {A B} (decode : XMLElement → result A) (encode : A → XMLElement)
    (dict : A → B) (l : list A) :
  (∀ x, ∃ y, decode (encode x) = Ok y ∧ dict y = dict x) →
  ∃ l', mapM decode (encode <$> l) = Ok l' ∧ dict <$> l' = dict <$> l.
Proof.
  intros Hlaw. induction l as [|x l (l' & Hl' & Hd)].
  - exists []. done.
  - destruct (Hlaw x) as (y & Hy & Hdy).
    exists (y :: l'). cbn [fmap list_fmap mapM]. rewrite Hy, bind_Ok.
    fold (fmap (M:=list) encode l). rewrite Hl', bind_Ok.
    split; [reflexivity|]. cbn. by rewrite Hdy, Hd.
Qed.

Lemma from_xml_body_scalar (el : XMLElement) (kwargs : gmap string Shop.KwVal) :
  not_wrapper (tag el) →
  Shop.from_xml_body el kwargs = Ok (<[tag el := Shop.KwText (text el)]> kwargs).
Proof.
  intros (? & ? & ? & ? & ? & ? & ?). unfold Shop.from_xml_body.
  repeat (rewrite decide_False by done). reflexivity.
Qed.

Lemma simple_not_wrapper (tg : string) :
  tg ∈ Shop.SIMPLE_TAGS → not_wrapper tg.
Proof.
  intros Htg. apply simple_tags_inv in Htg.
  repeat destruct Htg as [->|Htg]; try subst tg; repeat split; discriminate.
Qed.

Lemma for_in_simple (self : Shop.t) (tags : list string)
    (kwargs : gmap string Shop.KwVal) :
  (∀ tg, tg ∈ tags → tg ∈ Shop.SIMPLE_TAGS) →
  for_in (simple_element self <$> tags) Shop.from_xml_body kwargs
  = Ok (foldl (λ kw tg, <[tg := Shop.KwText (Shop.getattr self tg)]> kw)
          kwargs tags).
Proof.
  revert kwargs. induction tags as [|tg tags IH]; intros kwargs Htags;
    [reflexivity|].
  cbn [fmap list_fmap for_in foldl].
  rewrite from_xml_body_scalar
    by (apply simple_not_wrapper, Htags; left).
  rewrite bind_Ok. apply IH. intros tg' Htg'. apply Htags. by right.
Qed.

Lemma foldl_insert_lookup {V} (f : string → V) (tags : list string)
    (kwargs : gmap string V) (key : string) :
  foldl (λ kw tg, <[tg := f tg]> kw) kwargs tags !! key
  = if decide (key ∈ tags) then Some (f key) else kwargs !! key.
Proof.
  revert kwargs. induction tags as [|tg tags IH]; intros kwargs.
  - cbn. rewrite decide_False by apply not_elem_of_nil. reflexivity.
  - cbn [foldl]. rewrite IH.
    destruct (decide (key ∈ tags)) as [Hin|Hnin].
    + rewrite decide_True by (by right). reflexivity.
    + destruct (decide (key = tg)) as [->|Hne].
      * rewrite decide_True by (by left). by rewrite lookup_insert_eq.
      * rewrite decide_False by (rewrite not_elem_of_cons; done).
        by rewrite lookup_insert_ne.
Qed.


Lemma lookup_insert_if_ne {V} (b : bool) (key key' : string) (v : V)
    (m : gmap string V) :
  key ≠ key' → insert_if b key v m !! key' = m !! key'.
Proof. intros Hne. destruct b; [by apply lookup_insert_ne | reflexivity]. Qed.

Lemma lookup_insert_if_eq {V} (b : bool) (key : string) (v : V)
    (m : gmap string V) :
  m !! key = None →
  insert_if b key v m !! key = if b then Some v else None.
Proof. intros Hm. destruct b; [by apply lookup_insert_eq | exact Hm]. Qed.

Lemma for_in_optional {S} (b : bool) (el : XMLElement)
    (body : XMLElement → S → result S) (s s' : S) :
  (b = true → body el s = Ok s') →
  for_in (if b then [el] else []) body s = Ok (if b then s' else s).
Proof.
  destruct b; [|reflexivity]. intros Hbody. cbn [for_in].
  by rewrite Hbody.
Qed.

Lemma match_not_nil {A B} (l : list A) (x : B) :
  match l with [] => [] | _ :: _ => [x] end = if not_nil l then [x] else [].
Proof. by destruct l. Qed.

Lemma mapM_length {A B} (f : A → result B) (l : list A) (l' : list B) :
  mapM f l = Ok l' → length l' = length l.
Proof.
  revert l'. induction l as [|x l IH]; intros l' Hl.
  - by injection Hl as <-.
  - cbn [mapM] in Hl. inv_bind Hl. inv_bind Hl. injection Hl as <-.
    cbn. f_equal. by apply IH.
Qed.

Lemma for_in_one {S} (el : XMLElement) (body : XMLElement → S → result S)
    (s s' : S) :
  body el s = Ok s' → for_in [el] body s = Ok s'.
Proof. intros Hbody. cbn [for_in]. by rewrite Hbody. Qed.

Ltac wrapper_body H :=
  unfold Shop.from_xml_body, wrapper_element; cbn [tag children];
  repeat (rewrite decide_False by done); rewrite decide_True by done;
  rewrite H, bind_Ok.

Lemma from_xml_encoded (self : Shop.t) currencies categories delivery_options
    pickup_options offers gifts promos :
  mapM models.from_xml
    (models.create_xml <$> omap currency_object (Shop.currencies self))
  = Ok currencies →
  mapM models.from_xml (models.create_xml <$> Shop.categories self)
  = Ok categories →
  mapM models.from_xml (models.create_xml <$> Shop.delivery_options self)
  = Ok delivery_options →
  mapM models.from_xml (models.create_xml <$> Shop.pickup_options self)
  = Ok pickup_options →
  mapM Shop.from_xml_offer (models.offer_create_xml <$> Shop.offers self)
  = Ok offers →
  mapM models.from_xml (models.create_xml <$> default [] (Shop.gifts self))
  = Ok gifts →
  mapM models.from_xml (models.create_xml <$> default [] (Shop.promos self))
  = Ok promos →
  for_in (encoded_children self) Shop.from_xml_body ∅
  = Ok (collected self currencies categories delivery_options pickup_options
          offers gifts promos).
Proof.
  intros Hcur Hcat Hdel Hpick Hoff Hgift Hpromo.
  unfold encoded_children, collected. rewrite !match_not_nil.
  rewrite for_in_app, for_in_simple
    by (intros tg Htg; by apply list_elem_of_filter in Htg as [_ Htg]).
  rewrite bind_Ok, for_in_app.
  erewrite for_in_one by (wrapper_body Hcur; reflexivity).
  rewrite bind_Ok, for_in_app.
  erewrite for_in_one by (wrapper_body Hcat; reflexivity).
  rewrite bind_Ok, for_in_app.
  erewrite for_in_optional by (intros _; wrapper_body Hdel; reflexivity).
  rewrite bind_Ok, for_in_app.
  erewrite for_in_optional by (intros _; wrapper_body Hpick; reflexivity).
  rewrite bind_Ok, for_in_app.
  erewrite for_in_optional
    by (intros _; apply from_xml_body_scalar; repeat split; discriminate).
  rewrite bind_Ok, for_in_app.
  erewrite for_in_one by (wrapper_body Hoff; reflexivity).
  rewrite bind_Ok, for_in_app.
  erewrite for_in_optional.
  2:{ intros Hne. wrapper_body Hgift.
      apply mapM_length in Hgift. rewrite length_fmap in Hgift.
      apply nonempty_default in Hne.
      destruct gifts; [|reflexivity].
      destruct (default [] (Shop.gifts self)); [done | discriminate Hgift]. }
  rewrite bind_Ok.
  erewrite for_in_optional.
  2:{ intros Hne. wrapper_body Hpromo.
      apply mapM_length in Hpromo. rewrite length_fmap in Hpromo.
      apply nonempty_default in Hne.
      destruct promos; [|reflexivity].
      destruct (default [] (Shop.promos self)); [done | discriminate Hpromo]. }
  reflexivity.
Qed.


Lemma simple_fold_lookup (self : Shop.t) (key : string) :
  foldl (λ kw tg, <[tg := Shop.KwText (Shop.getattr self tg)]> kw)
    (∅ : gmap string Shop.KwVal)
    (filter (λ tg, truthy (Shop.getattr self tg)) Shop.SIMPLE_TAGS) !! key
  = if decide (truthy (Shop.getattr self key) ∧ key ∈ Shop.SIMPLE_TAGS)
    then Some (Shop.KwText (Shop.getattr self key)) else None.
Proof.
  rewrite foldl_insert_lookup, lookup_empty.
  destruct (decide (key ∈ filter _ Shop.SIMPLE_TAGS)) as [Hin|Hnin].
  - apply list_elem_of_filter in Hin. by rewrite decide_True.
  - rewrite decide_False; [reflexivity|].
    intros Hin. apply Hnin. by apply list_elem_of_filter.
Qed.

Lemma simple_fold_other (self : Shop.t) (key : string) :
  key ∉ Shop.SIMPLE_TAGS →
  foldl (λ kw tg, <[tg := Shop.KwText (Shop.getattr self tg)]> kw)
    (∅ : gmap string Shop.KwVal)
    (filter (λ tg, truthy (Shop.getattr self tg)) Shop.SIMPLE_TAGS) !! key
  = None.
Proof.
  intros Hkey. rewrite simple_fold_lookup.
  rewrite decide_False; [reflexivity|]. by intros [_ Hin].
Qed.

Ltac not_simple_tag :=
  let H := fresh in
  intros H; apply simple_tags_inv in H;
  repeat destruct H as [H|H]; discriminate H.

Ltac peel :=
  repeat first [ rewrite lookup_insert_if_ne by done
               | rewrite lookup_insert_ne by done ].

Section collected.
Context (self : Shop.t) (currencies : list Currency)
  (categories : list Category) (delivery_options pickup_options : list Option)
  (offers : list AbstractOffer) (gifts : list Gift) (promos : list Promo).

Let kwargs : gmap string Shop.KwVal :=
  collected self currencies categories delivery_options pickup_options
    offers gifts promos.

Lemma collected_simple (key : string) :
  key ∈ Shop.SIMPLE_TAGS →
  kwargs !! key
  = if decide (truthy (Shop.getattr self key) ∧ key ∈ Shop.SIMPLE_TAGS)
    then Some (Shop.KwText (Shop.getattr self key)) else None.
Proof.
  intros Hkey. unfold kwargs, collected.
  apply simple_tags_inv in Hkey.
  repeat destruct Hkey as [->|Hkey]; try subst key; peel;
    apply simple_fold_lookup.
Qed.

Lemma collected_currencies :
  kwargs !! "currencies" = Some (Shop.KwCurrencies currencies).
Proof. unfold kwargs, collected. peel. apply lookup_insert_eq. Qed.

Lemma collected_categories :
  kwargs !! "categories" = Some (Shop.KwCategories categories).
Proof. unfold kwargs, collected. peel. apply lookup_insert_eq. Qed.

Lemma collected_offers : kwargs !! "offers" = Some (Shop.KwOffers offers).
Proof. unfold kwargs, collected. peel. apply lookup_insert_eq. Qed.

Lemma collected_delivery_options :
  kwargs !! "delivery_options"
  = if not_nil (Shop.delivery_options self)
    then Some (Shop.KwOptions delivery_options) else None.
Proof.
  unfold kwargs, collected. peel. apply lookup_insert_if_eq.
  peel. apply simple_fold_other. not_simple_tag.
Qed.

Lemma collected_pickup_options :
  kwargs !! "pickup_options"
  = if not_nil (Shop.pickup_options self)
    then Some (Shop.KwOptions pickup_options) else None.
Proof.
  unfold kwargs, collected. peel. apply lookup_insert_if_eq.
  peel. apply simple_fold_other. not_simple_tag.
Qed.

Lemma collected_enable_auto_discounts :
  kwargs !! "enable_auto_discounts"
  = if truthy (Shop._enable_auto_discounts self)
    then Some (Shop.KwText (Shop._enable_auto_discounts self)) else None.
Proof.
  unfold kwargs, collected. peel. apply lookup_insert_if_eq.
  peel. apply simple_fold_other. not_simple_tag.
Qed.

Lemma collected_gifts :
  kwargs !! "gifts"
  = if Shop.nonempty (Shop.gifts self) then Some (Shop.KwGifts gifts) else None.
Proof.
  unfold kwargs, collected. peel. apply lookup_insert_if_eq.
  peel. apply simple_fold_other. not_simple_tag.
Qed.

Lemma collected_promos :
  kwargs !! "promos"
  = if Shop.nonempty (Shop.promos self) then Some (Shop.KwPromos promos)
    else None.
Proof.
  unfold kwargs, collected. peel. apply lookup_insert_if_eq.
  peel. apply simple_fold_other. not_simple_tag.
Qed.

Lemma passed_collected (key : string) :
  key ∈ Shop.args → passed kwargs !! key = kwargs !! key.
Proof.
  intros Hkey. unfold passed.
  rewrite default_currencies_present by (by rewrite collected_currencies).
  by apply filter_args_lookup_in.
Qed.


Lemma simple_in_args (key : string) : key ∈ Shop.SIMPLE_TAGS → key ∈ Shop.args.
Proof.
  intros Hkey. apply simple_tags_inv in Hkey. unfold Shop.args.
  rewrite !elem_of_cons. tauto.
Qed.

Ltac in_args := unfold Shop.args; rewrite !elem_of_cons; tauto.
Ltac in_simple := unfold Shop.SIMPLE_TAGS; rewrite !elem_of_cons; tauto.

Lemma text_arg_collected (key : string) :
  key ∈ Shop.SIMPLE_TAGS →
  scalar_ok (Shop.getattr self key) →
  Shop.text_arg (passed kwargs) key = Ok (Shop.getattr self key).
Proof.
  intros Hkey Hok. unfold Shop.text_arg.
  rewrite passed_collected by (by apply simple_in_args).
  rewrite collected_simple by done.
  case_decide as Hdec; [reflexivity|].
  destruct Hok as [->|Htruthy]; [reflexivity|].
  exfalso. apply Hdec. split; [by rewrite Htruthy | done].
Qed.

Lemma call_collected :
  (∀ key, key ∈ Shop.SIMPLE_TAGS → scalar_ok (Shop.getattr self key)) →
  truthy (Shop.name self) = true →
  truthy (Shop.company self) = true →
  Shop.call (passed kwargs)
  = Shop.__init__ (Shop.name self) (Shop.company self) (inl <$> currencies)
      categories offers (Shop.url self) (Shop.platform self)
      (Shop.version self) (Shop.agency self) (Shop.email self)
      (if not_nil (Shop.delivery_options self) then Some delivery_options
       else None)
      (if not_nil (Shop.pickup_options self) then Some pickup_options
       else None)
      (flag_arg (Shop._enable_auto_discounts self))
      (if Shop.nonempty (Shop.gifts self) then Some gifts else None)
      (if Shop.nonempty (Shop.promos self) then Some promos else None).
Proof.
  intros Hscalars Hname Hcompany. unfold Shop.call.
  rewrite decide_False.
  2:{ intros Hun. apply Hun. intros key Hkey.
      apply elem_of_dom in Hkey. by apply passed_dom in Hkey. }
  rewrite decide_False.
  2:{ intros Hun. apply Hun. unfold Shop.required.
      repeat apply Forall_cons_2; try apply Forall_nil_2; apply elem_of_dom.
      - rewrite passed_collected, collected_simple by (in_args || in_simple).
        rewrite decide_True; [eauto|]. split; [|in_simple].
        change (Is_true (truthy (Shop.name self))). by rewrite Hname.
      - rewrite passed_collected, collected_simple by (in_args || in_simple).
        rewrite decide_True; [eauto|].
        split; [|in_simple].
        change (Is_true (truthy (Shop.company self))). by rewrite Hcompany.
      - rewrite passed_collected, collected_currencies by in_args. eauto.
      - rewrite passed_collected, collected_categories by in_args. eauto.
      - rewrite passed_collected, collected_offers by in_args. eauto. }
  rewrite !text_arg_collected by (try apply Hscalars; in_simple).
  rewrite !bind_Ok.
  unfold Shop.currencies_arg, Shop.categories_arg, Shop.offers_arg,
    Shop.options_arg, Shop.bool_arg, Shop.gifts_arg, Shop.promos_arg.
  rewrite !passed_collected by in_args.
  rewrite collected_currencies, collected_categories, collected_offers,
    collected_delivery_options, collected_pickup_options,
    collected_enable_auto_discounts, collected_gifts, collected_promos.
  rewrite !bind_Ok.
  destruct (not_nil (Shop.delivery_options self)); rewrite bind_Ok;
    destruct (not_nil (Shop.pickup_options self)); rewrite bind_Ok;
    (destruct (Shop._enable_auto_discounts self) as [[|c s]|];
       cbn [truthy flag_arg]; rewrite bind_Ok);
    destruct (Shop.nonempty (Shop.gifts self)); rewrite bind_Ok;
    destruct (Shop.nonempty (Shop.promos self)); rewrite bind_Ok;
    reflexivity.
Qed.

End collected.


Lemma set_flag_valid (value : PyArg) (stored : option string) :
  fields.set_enable_auto_discounts value = Ok stored → valid_flag stored.
Proof.
  unfold fields.set_enable_auto_discounts, valid_flag.
  destruct value as [|[]|s]; repeat case_decide; intros [= <-]; tauto.
Qed.

Lemma set_flag_arg (stored : option string) :
  valid_flag stored →
  fields.set_enable_auto_discounts (flag_arg stored) = Ok stored.
Proof. intros [-> | [-> | ->]]; reflexivity. Qed.

Lemma init_valid_flag name company currencies categories offers url platform
    version agency email delivery_options pickup_options
    enable_auto_discounts gifts promos (self : Shop.t) :
  Shop.__init__ name company currencies categories offers url platform
    version agency email delivery_options pickup_options
    enable_auto_discounts gifts promos = Ok self →
  valid_flag (Shop._enable_auto_discounts self).
Proof.
  unfold Shop.__init__. intros Hinit. inv_bind Hinit. injection Hinit as <-.
  by apply set_flag_valid in Ha.
Qed.

Lemma currencies_objects (l : list (Currency + string)) :
  (∀ s, inr s ∉ l) → l = inl <$> omap currency_object l.
Proof.
  induction l as [|[c|s] l IH]; intros Hl; [reflexivity| |].
  - cbn. f_equal. apply IH. intros s Hs. apply (Hl s). by right.
  - exfalso. apply (Hl s). by left.
Qed.

Lemma mapM_currency_to_dict (l : list Currency) :
  mapM Shop.currency_to_dict (inl <$> l)
  = Ok ((λ c, models.to_dict c false) <$> l).
Proof.
  induction l as [|c l IH]; [reflexivity|].
  cbn [fmap list_fmap mapM Shop.currency_to_dict]. rewrite bind_Ok.
  fold (fmap (M:=list) (@inl Currency string) l). rewrite IH. reflexivity.
Qed.

Lemma not_nil_nil {A} (l : list A) : not_nil l = false → l = [].
Proof. by destruct l. Qed.

Lemma nonempty_false {A} (l : option (list A)) :
  Shop.nonempty l = false → default [] l = [].
Proof. by destruct l as [[|]|]. Qed.

(** The dispatch of [Shop.from_xml] sends the element of an offer to the
    decoder of the class whose [type] attribute the element carries, so
    decoding an encoded offer gives back the same dict. *)
Lemma offer_round_trips `{!Lawful} :
  round_trips Shop.from_xml_offer models.offer_create_xml
    models.offer_create_dict.
Proof.
  intros o. destruct (offer_law o) as (c & y & Hsel & Hdec & Hdict).
  exists y. by rewrite (from_xml_offer_selected _ c Hsel).
Qed.

Lemma shop_roundtrip `{!Lawful} (self : Shop.t) :
  valid_flag (Shop._enable_auto_discounts self) →
  encodable self →
  ∃ shop,
    Shop.from_xml (Shop.create_xml self) = Ok shop ∧
    Shop.create_dict shop = Shop.create_dict self ∧
    ∃ d, Shop.create_dict self = Ok d.
Proof.
  intros Hflag (Hname & Hcompany & Hscalars & Hobjects).
  destruct (mapM_roundtrip models.from_xml models.create_xml
              (λ c, models.to_dict c false)
              (omap currency_object (Shop.currencies self)) currency_law)
    as (currencies & Hcur & Dcur).
  destruct (mapM_roundtrip models.from_xml models.create_xml
              (λ c, models.to_dict c false) (Shop.categories self)
              category_law) as (categories & Hcat & Dcat).
  destruct (mapM_roundtrip models.from_xml models.create_xml
              (λ c, models.to_dict c false) (Shop.delivery_options self)
              option_law) as (delivery_options & Hdel & Ddel).
  destruct (mapM_roundtrip models.from_xml models.create_xml
              (λ c, models.to_dict c false) (Shop.pickup_options self)
              option_law) as (pickup_options & Hpick & Dpick).
  destruct (mapM_roundtrip Shop.from_xml_offer models.offer_create_xml
              models.offer_to_dict (Shop.offers self) offer_round_trips)
    as (offers & Hoff & Doff).
  destruct (mapM_roundtrip models.from_xml models.create_xml
              (λ c, models.to_dict c false) (default [] (Shop.gifts self))
              gift_law) as (gifts & Hgift & Dgift).
  destruct (mapM_roundtrip models.from_xml models.create_xml
              (λ c, models.to_dict c false) (default [] (Shop.promos self))
              promo_law) as (promos & Hpromo & Dpromo).
  assert ((λ o, models.to_dict o false)
            <$> fields.get_options
                  (if not_nil (Shop.delivery_options self)
                   then Some delivery_options else None)
          = (λ o, models.to_dict o false) <$> Shop.delivery_options self)
    as Edel.
  { destruct (not_nil (Shop.delivery_options self)) eqn:Hnil; [exact Ddel|].
    by rewrite (not_nil_nil _ Hnil). }
  assert ((λ o, models.to_dict o false)
            <$> fields.get_options
                  (if not_nil (Shop.pickup_options self)
                   then Some pickup_options else None)
          = (λ o, models.to_dict o false) <$> Shop.pickup_options self)
    as Epick.
  { destruct (not_nil (Shop.pickup_options self)) eqn:Hnil; [exact Dpick|].
    by rewrite (not_nil_nil _ Hnil). }
  assert ((λ g, models.to_dict g false)
            <$> default []
                  (if Shop.nonempty (Shop.gifts self) then Some gifts else None)
          = (λ g, models.to_dict g false) <$> default [] (Shop.gifts self))
    as Egift.
  { destruct (Shop.nonempty (Shop.gifts self)) eqn:Hnil; [exact Dgift|].
    by rewrite (nonempty_false _ Hnil). }
  assert ((λ p, models.to_dict p false)
            <$> default []
                  (if Shop.nonempty (Shop.promos self) then Some promos
                   else None)
          = (λ p, models.to_dict p false) <$> default [] (Shop.promos self))
    as Epromo.
  { destruct (Shop.nonempty (Shop.promos self)) eqn:Hnil; [exact Dpromo|].
    by rewrite (nonempty_false _ Hnil). }
  assert (mapM Shop.currency_to_dict (Shop.currencies self)
          = Ok ((λ c, models.to_dict c false)
                  <$> omap currency_object (Shop.currencies self))) as Eself.
  { rewrite (currencies_objects _ Hobjects) at 1.
    apply mapM_currency_to_dict. }
  eexists. split; [|split].
  - unfold Shop.from_xml. rewrite create_xml_shape. cbn [children].
    rewrite (from_xml_encoded self _ _ _ _ _ _ _
               Hcur Hcat Hdel Hpick Hoff Hgift Hpromo).
    rewrite bind_Ok. unfold Shop.construct.
    fold (passed (collected self currencies categories delivery_options
                    pickup_options offers gifts promos)).
    rewrite call_collected by done.
    unfold Shop.__init__. rewrite set_flag_arg by done. rewrite bind_Ok.
    reflexivity.
  - unfold Shop.create_dict, Shop.delivery_options, Shop.pickup_options,
      Shop.enable_auto_discounts, Shop.url.
    cbn [Shop.currencies Shop.name Shop.company Shop._url Shop.platform
           Shop.version Shop.agency Shop.email Shop.categories Shop.offers
           Shop._delivery_options Shop._pickup_options
           Shop._enable_auto_discounts Shop.gifts Shop.promos].
    rewrite mapM_currency_to_dict, Eself, !bind_Ok.
    fold (Shop.delivery_options self). fold (Shop.pickup_options self).
    by rewrite Dcur, Dcat, Doff, Edel, Epick, Egift, Epromo.
  - unfold Shop.create_dict. rewrite Eself, bind_Ok. eauto.
Qed.


Lemma feed_create_xml (feed : Feed.t) :
  Feed.create_xml feed
  = Element "yml_catalog" {["date" := Feed._date feed]} None
      [Shop.create_xml (Feed.shop feed)].
Proof. reflexivity. Qed.

(** C1 (amended). Decoding the element a validly constructed feed encodes
    to gives a feed with the same dict, when the name and the company of
    its shop are not empty, every optional scalar is [None] or not empty,
    no currency is a plain string, the leaf classes round-trip, and every
    offer is encoded with the [type] attribute of a class whose own
    decoder reads it back to the same dict. The date of the decoded feed
    is the stored date of the original, which is in the primary
    format. *)
Theorem C1_round_trip `{!Lawful} (feed : Feed.t) (now' : datetime) :
  validly_constructed feed →
  encodable (Feed.shop feed) →
  ∃ feed',
    Feed.from_xml now' (Feed.create_xml feed) = Ok feed' ∧
    Feed._date feed' = Feed._date feed ∧
    in_format (Feed._date feed') Feed.DATE_FORMAT ∧
    Feed.to_dict feed' false = Feed.to_dict feed false ∧
    ∃ d, Feed.to_dict feed false = Ok d.
Proof.
  intros [Hshop (now & date & Hnow & Hinit)] Hencodable.
  destruct Hshop as (name & company & currencies & categories & offers & url
                     & platform & version & agency & email & delivery_options
                     & pickup_options & enable_auto_discounts & gifts & promos
                     & Hshop).
  apply init_valid_flag in Hshop.
  destruct (shop_roundtrip (Feed.shop feed) Hshop Hencodable)
    as (shop' & Hdecode & Hdict & d & Hd).
  destruct (stored_date_printed now _ date feed Hnow Hinit)
    as (printed & Hvalid & Hstored).
  pose proof (strptime_strftime_valid printed Hvalid) as Hparsed.
  destruct (date_total now _ date feed Hnow Hinit) as [dt Hdt].
  exists {| Feed.shop := shop'; Feed._date := Feed._date feed |}.
  split; [|split; [reflexivity|split; [|split]]].
  - rewrite feed_create_xml. unfold Feed.from_xml. cbn [children attrib].
    rewrite Hdecode, bind_Ok, lookup_singleton_eq.
    unfold Feed.__init__. rewrite Hstored.
    by rewrite (set_date_primary now' _ printed Hparsed).
  - cbn [Feed._date]. rewrite Hstored. by exists printed.
  - unfold Feed.to_dict, Feed.create_dict, Shop.to_dict, Feed.date.
    cbn [Feed.shop Feed._date]. by rewrite Hdict.
  - unfold Feed.to_dict, Feed.create_dict, Shop.to_dict.
    rewrite Hd, !bind_Ok, Hdt, !bind_Ok. eauto.
Qed.

End roundtrip.

#[global] Instance example_lawful : Lawful (M := example.M).
Proof.
  split; try (intros [a t]; eexists; split; reflexivity).
  intros [c i p].
  exists c, {| example.offer_class := c; example.offer_id := i;
               example.offer_price := p |}.
  split; [|split; [by destruct c | reflexivity]].
  destruct c; cbn;
    rewrite ?lookup_insert_eq, ?lookup_singleton_ne by done;
    cbn [spec.selects]; unfold spec.discriminants; rewrite ?elem_of_cons;
    tauto.
Qed.

(** C1, as the specification states it, fails: a shop constructed with the
    empty string as its url encodes without a [url] element, so the
    decoded feed has the url [None], and the two dicts differ. *)
Lemma C1_empty_url_not_round_tripped :
  Shop.__init__ (Some "Shop") (Some "Company") [] [] [] (Some "") None None
    None None None None ArgNone None None = Ok example.empty_url_shop ∧
  Feed.__init__ example.now example.empty_url_shop (Some "2020-01-05 10:30:00")
  = Ok example.empty_url_feed ∧
  Feed.from_xml example.now (Feed.create_xml example.empty_url_feed)
  = Ok example.empty_url_decoded ∧
  entry "url" (Shop.to_dict (Feed.shop example.empty_url_feed) false)
  = Ok (Some (PyStr "")) ∧
  entry "url" (Shop.to_dict (Feed.shop example.empty_url_decoded) false)
  = Ok (Some PyNone) ∧
  Feed.to_dict example.empty_url_decoded false
  ≠ Feed.to_dict example.empty_url_feed false.
Proof.
  split; [reflexivity|].
  split.
  { unfold Feed.__init__.
    rewrite (set_date_primary _ _ example.alt_datetime)
      by (vm_compute; reflexivity).
    by rewrite alt_date_printed. }
  split; [reflexivity|].
  split; [reflexivity|].
  split; [reflexivity|].
  intros Heq. vm_compute in Heq. discriminate Heq.
Qed.

Lemma plain_shop_constructed : Shop_constructed example.plain_shop.
Proof.
  exists (Some "Shop"), (Some "Company"), [], [], [], None, None, None, None,
    None, None, None, ArgNone, None, None.
  reflexivity.
Qed.

Lemma full_shop_constructed : Shop_constructed samples.full_shop.
Proof.
  exists (Some "Shop"), (Some "Company"), [inl example.rub], [samples.books],
    [samples.offer7; samples.offer8], (Some "http://shop.example"),
    (Some "CMS"), None, None, (Some "shop@shop.example"),
    (Some [samples.courier]), (Some [samples.pickup]), (ArgStr "yes"),
    (Some [samples.gift1]), (Some [samples.promo1]).
  reflexivity.
Qed.

Lemma full_feed_valid : validly_constructed samples.full_feed.
Proof.
  split; [apply full_shop_constructed|].
  exists example.now, (Some example.alt_date).
  split; [apply clock_now | apply alt_init].
Qed.

Lemma full_shop_encodable : encodable samples.full_shop.
Proof.
  split; [reflexivity|]. split; [reflexivity|]. split.
  - intros key Hkey. apply simple_tags_inv in Hkey.
    repeat destruct Hkey as [->|Hkey]; try subst key;
      first [ by left | by right ].
  - intros s [=]%list_elem_of_singleton.
Qed.

(** The feed of a shop with a member in every group, constructed with a
    date in the fallback format. *)
Lemma C1_round_trip_witness :
  validly_constructed samples.full_feed ∧
  encodable (Feed.shop samples.full_feed) ∧
  ∃ feed',
    Feed.from_xml example.now (Feed.create_xml samples.full_feed) = Ok feed' ∧
    Feed._date feed' = Feed._date samples.full_feed ∧
    in_format (Feed._date feed') Feed.DATE_FORMAT ∧
    Feed.to_dict feed' false = Feed.to_dict samples.full_feed false ∧
    ∃ d, Feed.to_dict samples.full_feed false = Ok d.
Proof.
  split; [apply full_feed_valid|]. split; [apply full_shop_encodable|].
  exact (C1_round_trip samples.full_feed example.now full_feed_valid
           full_shop_encodable).
Defined.

(** C2 (the behaviour of the code). For the shop document with one gift,
    the tree decoder gives a shop whose dict lists the gift, and the
    streaming decoder, on the events of the same document, gives a shop
    whose dict has no gift: the loop for [gifts] never decodes an element
    and drains the iterator. *)
Theorem C2_gift_lost_in_stream :
  entry "gifts"
    (shop ← Shop.from_xml example.shop_with_gift; Shop.to_dict shop false)
  = Ok (Some (PyList [PyDict [("text", PyNone); ("id", PyStr "g1")]])) ∧
  entry "gifts"
    (shop ← Shop.from_iterator (shop_events example.shop_with_gift);
     Shop.to_dict shop false)
  = Ok (Some (PyList [])) ∧
  (shop ← Shop.from_xml example.shop_with_gift; Shop.to_dict shop false)
  ≠ (shop ← Shop.from_iterator (shop_events example.shop_with_gift);
     Shop.to_dict shop false).
Proof.
  split; [vm_compute; reflexivity|].
  split; [vm_compute; reflexivity|].
  intros Heq. apply (f_equal (entry "gifts")) in Heq.
  vm_compute in Heq. discriminate Heq.
Qed.

(** ** Streaming and tree decoding *)

Section streaming.
Context `{M : Models}.


(** An element without children yields its two events. *)
Lemma iterparse_leaf (el : XMLElement) :
  children el = [] → iterparse el = [(start, opened el); (end_, el)].
Proof. destruct el as [tg a t cs]. cbn. by intros ->. Qed.

Lemma collect_leaves {A} (wrapper : string) (decode : XMLElement → result A)
    (els : list XMLElement) (close : XMLElement)
    (rest : list (Event * XMLElement)) (acc : list A) :
  Forall (leaf_of wrapper) els →
  tag close = wrapper →
  Shop.collect wrapper decode (flat_map iterparse els ++ (end_, close) :: rest) acc
  = l ← mapM decode els; mret ((acc ++ l)%list, S (length (flat_map iterparse els))).
Proof.
  intros Hels Hclose. revert acc.
  induction Hels as [|el els [Hleaf Htag] Hels IH]; intros acc.
  - cbn. rewrite decide_True by done. by rewrite app_nil_r.
  - cbn [flat_map]. rewrite (iterparse_leaf el Hleaf).
    cbn [app Shop.collect mapM].
    rewrite decide_False by (intros [[=] _]).
    rewrite decide_False by done.
    rewrite decide_False by (intros [_ ?]; done).
    rewrite decide_True by done.
    destruct (decode el) as [x|e]; [|reflexivity].
    rewrite !bind_Ok, IH.
    destruct (mapM decode els) as [l|e]; [|reflexivity].
    rewrite !bind_Ok. cbn. by rewrite <- app_assoc.
Qed.


Lemma iterparse_closing (el : XMLElement) :
  iterparse el = (start, opened el) :: closing el.
Proof. by destruct el. Qed.

Lemma from_iterator_offer_tree (offer_el : XMLElement)
    (rest : list (Event * XMLElement)) :
  offer_streams offer_el →
  Shop.from_iterator_offer (closing offer_el ++ rest) (opened offer_el)
  = (λ o, (o, length (closing offer_el))) <$> Shop.from_xml_offer offer_el.
Proof.
  intros Hstreams. unfold Shop.from_iterator_offer, Shop.from_xml_offer.
  cbn [opened new_element attrib].
  destruct (attrib offer_el !! "type") as [ty|]; [|apply Hstreams].
  repeat (case_decide; [apply Hstreams|]). reflexivity.
Qed.

Lemma collect_offers_tree (els : list XMLElement) (close : XMLElement)
    (rest : list (Event * XMLElement)) (acc : list AbstractOffer) :
  Forall (λ o, tag o = "offer" ∧ offer_streams o) els →
  tag close = "offers" →
  Shop.collect_offers (flat_map iterparse els ++ (end_, close) :: rest) acc
  = l ← mapM Shop.from_xml_offer els;
    mret ((acc ++ l)%list, S (length (flat_map iterparse els))).
Proof.
  intros Hels Hclose. revert acc.
  induction Hels as [|el els [Htag Hstreams] Hels IH]; intros acc.
  - cbn [flat_map app mapM]. rewrite Shop.collect_offers_equation_2.
    rewrite decide_True by done. rewrite bind_Ok. by rewrite app_nil_r.
  - cbn [flat_map mapM]. rewrite iterparse_closing.
    rewrite <- app_assoc, <- app_comm_cons.
    rewrite Shop.collect_offers_equation_2.
    rewrite decide_False by (intros [[=] _]).
    rewrite decide_True by done.
    rewrite from_iterator_offer_tree by done.
    destruct (Shop.from_xml_offer el) as [x|e]; [|reflexivity].
    cbn [fmap result_fmap]. rewrite drop_app_length, IH, !bind_Ok.
    destruct (mapM Shop.from_xml_offer els) as [l|e]; [|reflexivity].
    rewrite !bind_Ok. cbn [fst snd mret result_ret].
    rewrite <- app_assoc. cbn [app length]. rewrite length_app.
    do 2 f_equal. lia.
Qed.


Lemma drop_past {A} (l : list A) (x : A) (rest : list A) :
  drop (S (length l)) (l ++ x :: rest) = rest.
Proof. induction l as [|y l IH]; [reflexivity | exact IH]. Qed.

Ltac decide_tags :=
  repeat first [ rewrite decide_True by done
               | rewrite decide_False by (first [done | intros [? ?]; done]) ].

Ltac wrapper_stream Htag Hleaves :=
  rewrite Htag in Hleaves;
  rewrite iterparse_closing; unfold closing;
  rewrite <- app_comm_cons, <- app_assoc; cbn [app];
  rewrite Shop.from_iterator_loop_equation_2;
  unfold Shop.from_iterator_body, Shop.from_xml_body;
  cbn [opened new_element tag]; rewrite Htag;
  decide_tags;
  rewrite (collect_leaves _ _ _ _ _ _ Hleaves Htag);
  destruct (mapM models.from_xml _) as [l|e]; [|reflexivity];
  rewrite !bind_Ok; cbn [fst snd app mret result_ret];
  rewrite drop_past; reflexivity.

(** The events of one child do to the keywords what the tree decoder does
    with the child. *)
Lemma from_iterator_loop_child (el : XMLElement)
    (rest : list (Event * XMLElement)) (kwargs : gmap string Shop.KwVal) :
  valid_child el →
  Shop.from_iterator_loop (iterparse el ++ rest) kwargs
  = kwargs' ← Shop.from_xml_body el kwargs;
    Shop.from_iterator_loop rest kwargs'.
Proof.
  intros [Htag Hleaves|Htag Hoffers|Htag Hleaf].
  - rewrite !elem_of_cons, elem_of_nil in Htag.
    destruct Htag as [Htag|[Htag|[Htag|[Htag|[]]]]].
    + wrapper_stream Htag Hleaves.
    + wrapper_stream Htag Hleaves.
    + wrapper_stream Htag Hleaves.
    + wrapper_stream Htag Hleaves.
  - rewrite iterparse_closing. unfold closing.
    rewrite <- app_comm_cons, <- app_assoc. cbn [app].
    rewrite Shop.from_iterator_loop_equation_2.
    unfold Shop.from_iterator_body, Shop.from_xml_body.
    cbn [opened new_element tag]. rewrite Htag.
    decide_tags.
    rewrite (collect_offers_tree _ _ _ _ Hoffers Htag).
    destruct (mapM Shop.from_xml_offer _) as [l|e]; [|reflexivity].
    rewrite !bind_Ok. cbn [fst snd app mret result_ret].
    rewrite drop_past. reflexivity.
  - rewrite (iterparse_leaf el Hleaf). cbn [app].
    rewrite from_xml_body_scalar by done. rewrite bind_Ok.
    destruct Htag as (? & ? & ? & ? & ? & ? & ?).
    rewrite Shop.from_iterator_loop_equation_2.
    unfold Shop.from_iterator_body at 1. cbn [opened new_element tag].
    decide_tags. cbn [mret result_ret drop].
    rewrite Shop.from_iterator_loop_equation_2.
    unfold Shop.from_iterator_body at 1.
    decide_tags. reflexivity.
Qed.

Lemma from_iterator_loop_children (els : list XMLElement)
    (kwargs : gmap string Shop.KwVal) :
  Forall valid_child els →
  Shop.from_iterator_loop (flat_map iterparse els) kwargs
  = for_in els Shop.from_xml_body kwargs.
Proof.
  intros Hels. revert kwargs.
  induction Hels as [|el els Hel Hels IH]; intros kwargs.
  - by rewrite Shop.from_iterator_loop_equation_1.
  - cbn [flat_map for_in]. rewrite from_iterator_loop_child by done.
    destruct (Shop.from_xml_body el kwargs) as [kwargs'|e]; [|reflexivity].
    rewrite !bind_Ok. apply IH.
Qed.

(** On a shop document made of scalars, wrappers of leaves and the
    wrapper of offers (no [gifts], no [promos]), the streaming decoder
    returns what the tree decoder returns. *)
Lemma stream_tree_equivalent (shop_el : XMLElement) :
  Forall valid_child (children shop_el) →
  Shop.from_iterator (shop_events shop_el) = Shop.from_xml shop_el.
Proof.
  intros Hvalid. unfold Shop.from_iterator, Shop.from_xml, shop_events.
  by rewrite from_iterator_loop_children.
Qed.

End streaming.

(** ** The decoders on documents *)

(** The streaming decoder of the example offers reads up to the event
    that closes the offer, as the equivalence asks. *)
Lemma offer_of_events_closing (c : models.OfferClass)
    (events rest : list (Event * XMLElement)) (close offer_el : XMLElement) :
  Forall (λ ev, ¬ (ev.1 = end_ ∧ tag ev.2 = "offer")) events →
  tag close = "offer" →
  example.offer_of_events c (events ++ (end_, close) :: rest) offer_el
  = (λ o, (o, S (length events))) <$> example.offer_of_xml c close.
Proof.
  intros Hevents Hclose.
  induction Hevents as [|[event el] events Hev Hevents IH]; cbn.
  - rewrite decide_True by done.
    by destruct (example.offer_of_xml c close).
  - rewrite decide_False by done. rewrite IH.
    by destruct (example.offer_of_xml c close).
Qed.

Lemma example_offer_streams (offer_el : XMLElement) :
  tag offer_el = "offer" →
  Forall (leaf_of "offer") (children offer_el) →
  offer_streams (M := example.M) offer_el.
Proof.
  intros Htag Hleaves c rest. unfold closing.
  rewrite <- app_assoc. cbn [app models.offer_from_iterator example.M
                               Offer_model example.offer_model].
  rewrite offer_of_events_closing; [|clear rest|done].
  - rewrite length_app. cbn [length models.offer_from_xml].
    by rewrite Nat.add_1_r.
  - induction Hleaves as [|el els [Hleaf Hne] Hels IH]; [constructor|].
    cbn [flat_map]. rewrite (iterparse_leaf el Hleaf).
    repeat constructor; cbn; [intros [[=] _] | intros [_ ?]; done | exact IH].
Qed.

Lemma shop_document_valid : Forall valid_child (children example.shop_document).
Proof.
  cbn [children example.shop_document].
  repeat apply Forall_cons_2; try apply Forall_nil_2.
  - apply scalar_child; [repeat split; discriminate | reflexivity].
  - apply scalar_child; [repeat split; discriminate | reflexivity].
  - apply scalar_child; [repeat split; discriminate | reflexivity].
  - apply leaf_wrapper; [rewrite !elem_of_cons; tauto|].
    repeat constructor. discriminate.
  - apply leaf_wrapper; [rewrite !elem_of_cons; tauto|].
    repeat constructor. discriminate.
  - apply leaf_wrapper; [rewrite !elem_of_cons; tauto|].
    repeat constructor. discriminate.
  - apply scalar_child; [repeat split; discriminate | reflexivity].
  - apply offers_wrapper; [reflexivity|].
    repeat apply Forall_cons_2; try apply Forall_nil_2;
      (split; [reflexivity|]);
      (apply example_offer_streams; [reflexivity|]);
      repeat constructor; discriminate.
Qed.

(** The two decoders on a document without gifts and promos. *)
Example shop_document_decoders_agree :
  Shop.from_iterator (shop_events example.shop_document)
  = Shop.from_xml example.shop_document.
Proof. apply stream_tree_equivalent, shop_document_valid. Qed.

(** An offer of an unknown type fails both decoders of the shop. *)
Example bogus_offer_fails :
  Shop.from_xml example.shop_with_bogus_offer
  = Raise (ParseError "Got unexpected offer type: bogus") ∧
  Shop.from_iterator (shop_events example.shop_with_bogus_offer)
  = Raise (ParseError "Got unexpected offer type: bogus").
Proof. split; reflexivity. Qed.

(** A string among the currencies is left out of the element. *)
Example string_currency_omitted :
  filter (λ el, tag el = "currencies")
    (children (Shop.create_xml example.shop_with_string_currency))
  = [example.wrapper "currencies"
       [example.leaf "currency" {["id" := "RUB"]} None]].
Proof. reflexivity. Qed.

(** * Further properties of the decoders and encoders *)

(** ** The streaming decoder on whole documents *)

Section stream_documents.
Context `{M : Models}.

Ltac decide_branches :=
  repeat first [ rewrite decide_True by done
               | rewrite decide_False by (first [done | intros [? ?]; done]) ].

(** The events of valid children, followed by more events: the loop
    does with the children what the tree decoder does, and goes on. *)
Lemma from_iterator_loop_prefix (els : list XMLElement)
    (rest : list (Event * XMLElement)) (kwargs : gmap string Shop.KwVal) :
  Forall valid_child els →
  Shop.from_iterator_loop (flat_map iterparse els ++ rest) kwargs
  = kwargs' ← for_in els Shop.from_xml_body kwargs;
    Shop.from_iterator_loop rest kwargs'.
Proof.
  intros Hels. revert kwargs.
  induction Hels as [|el els Hel Hels IH]; intros kwargs; [reflexivity|].
  cbn [flat_map for_in]. rewrite <- app_assoc.
  rewrite from_iterator_loop_child by done.
  destruct (Shop.from_xml_body el kwargs) as [kwargs'|e]; [|reflexivity].
  rewrite !bind_Ok. apply IH.
Qed.

(** The event that opens an element that is no wrapper changes
    nothing. *)
Lemma from_iterator_loop_start (el : XMLElement)
    (rest : list (Event * XMLElement)) (kwargs : gmap string Shop.KwVal) :
  not_wrapper (tag el) →
  Shop.from_iterator_loop ((start, el) :: rest) kwargs
  = Shop.from_iterator_loop rest kwargs.
Proof.
  intros (? & ? & ? & ? & ? & ? & ?).
  rewrite Shop.from_iterator_loop_equation_2.
  unfold Shop.from_iterator_body. decide_branches. reflexivity.
Qed.

(** The event that closes an element stores its text under its tag. *)
Lemma from_iterator_loop_end (el : XMLElement)
    (rest : list (Event * XMLElement)) (kwargs : gmap string Shop.KwVal) :
  tag el ≠ "pickup-options" →
  Shop.from_iterator_loop ((end_, el) :: rest) kwargs
  = Shop.from_iterator_loop rest (<[tag el := Shop.KwText (text el)]> kwargs).
Proof.
  intros ?.
  rewrite Shop.from_iterator_loop_equation_2.
  unfold Shop.from_iterator_body. decide_branches. reflexivity.
Qed.

Lemma default_currencies_insert (kwargs : gmap string Shop.KwVal)
    (key : string) (v : Shop.KwVal) :
  key ≠ "currencies" →
  Shop.default_currencies (<[key := v]> kwargs)
  = <[key := v]> (Shop.default_currencies kwargs).
Proof.
  intros Hkey. unfold Shop.default_currencies.
  rewrite dom_insert_L.
  destruct (decide ("currencies" ∈ dom kwargs)) as [Hin|Hnin].
  - rewrite decide_True by (apply elem_of_union; by right). reflexivity.
  - rewrite decide_False
      by (rewrite elem_of_union, elem_of_singleton; intros [?|?]; done).
    by apply insert_insert_ne.
Qed.

(** A keyword that names no parameter does not reach the constructor. *)
Lemma passed_insert_foreign (kwargs : gmap string Shop.KwVal)
    (key : string) (v : Shop.KwVal) :
  key ∉ Shop.args → passed (<[key := v]> kwargs) = passed kwargs.
Proof.
  intros Hkey. unfold passed.
  rewrite default_currencies_insert.
  - unfold Shop.filter_args. rewrite map_filter_insert_False by done.
    rewrite map_filter_delete. apply delete_id.
    apply map_lookup_filter_None_2. right. intros w _. exact Hkey.
  - intros ->. apply Hkey. unfold Shop.args. rewrite !elem_of_cons. tauto.
Qed.

Lemma construct_insert_foreign (kwargs : gmap string Shop.KwVal)
    (key : string) (v : Shop.KwVal) :
  key ∉ Shop.args → Shop.construct (<[key := v]> kwargs) = Shop.construct kwargs.
Proof.
  intros Hkey. unfold Shop.construct. fold (passed (<[key := v]> kwargs)).
  fold (passed kwargs). by rewrite passed_insert_foreign.
Qed.

(** X1. Handed all the events of a feed document, those that open and
    close [yml_catalog] and [shop] included, [Shop.from_iterator]
    returns what [Shop.from_xml] returns for the shop element: the
    opening events are passed over, and the texts stored under [shop]
    and [yml_catalog] at the closing events are filtered out before the
    constructor is called. This holds when the tags of the root and of
    the shop are no wrapper tags and name no parameter of the
    constructor, and every child of the shop is a scalar without
    children, a wrapper [currencies], [categories], [delivery-options] or
    [pickup-options] of elements without children that are not tagged as
    the wrapper is, or an [offers] wrapper of elements tagged [offer]
    that the streaming decoder of every offer class reads as its tree
    decoder does, taking exactly the events of the offer. *)
Theorem X1_stream_of_whole_document (feed_el shop_el : XMLElement) :
  children feed_el = [shop_el] →
  enclosing (tag feed_el) →
  enclosing (tag shop_el) →
  Forall valid_child (children shop_el) →
  Shop.from_iterator (iterparse feed_el) = Shop.from_xml shop_el.
Proof.
  intros Hchildren [Hfeed Hfeed_args] [Hshop Hshop_args] Hvalid.
  rewrite (iterparse_closing feed_el). unfold closing. rewrite Hchildren.
  cbn [flat_map]. rewrite app_nil_r, (iterparse_closing shop_el).
  unfold closing, Shop.from_iterator, Shop.from_xml.
  rewrite from_iterator_loop_start by done.
  cbn [app]. rewrite from_iterator_loop_start by done.
  rewrite <- app_assoc, from_iterator_loop_prefix by done.
  destruct (for_in (children shop_el) Shop.from_xml_body ∅) as [kwargs|e];
    [|reflexivity].
  rewrite !bind_Ok. cbn [app].
  rewrite from_iterator_loop_end by (by destruct Hshop as (_ & _ & _ & ? & _)).
  rewrite from_iterator_loop_end by (by destruct Hfeed as (_ & _ & _ & ? & _)).
  rewrite Shop.from_iterator_loop_equation_1, bind_Ok.
  by rewrite !construct_insert_foreign.
Qed.

(** X2. For a shop without gifts and promos, the streaming decoder reads
    the events of the element [Shop.create_xml] built as the tree
    decoder reads the element, provided the leaf classes encode to
    elements without children and the offer classes to elements their
    decoders read from the stream as from the tree. *)
Theorem X2_stream_decodes_encoded_shop `{!Flat} (self : Shop.t) :
  Shop.nonempty (Shop.gifts self) = false →
  Shop.nonempty (Shop.promos self) = false →
  Shop.from_iterator (shop_events (Shop.create_xml self))
  = Shop.from_xml (Shop.create_xml self).
Proof.
  intros Hgifts Hpromos. apply stream_tree_equivalent.
  rewrite create_xml_shape. cbn [children]. unfold encoded_children.
  rewrite Hgifts, Hpromos, !app_nil_r.
  repeat apply Forall_app_2.
  - apply Forall_fmap, Forall_forall. intros tg Htg.
    apply list_elem_of_filter in Htg as [_ Htg].
    apply scalar_child; [by apply simple_not_wrapper | reflexivity].
  - apply Forall_singleton, leaf_wrapper;
      [cbn [wrapper_element tag]; rewrite !elem_of_cons; tauto|].
    cbn [wrapper_element tag children].
    apply Forall_fmap, Forall_forall. intros c _. apply currency_flat.
  - apply Forall_singleton, leaf_wrapper;
      [cbn [wrapper_element tag]; rewrite !elem_of_cons; tauto|].
    cbn [wrapper_element tag children].
    apply Forall_fmap, Forall_forall. intros c _. apply category_flat.
  - destruct (Shop.delivery_options self) as [|o os] eqn:Ho; [constructor|].
    apply Forall_singleton, leaf_wrapper;
      [cbn [wrapper_element tag]; rewrite !elem_of_cons; tauto|].
    cbn [wrapper_element tag children].
    apply Forall_fmap, Forall_forall. intros c _. apply option_flat.
  - destruct (Shop.pickup_options self) as [|o os] eqn:Ho; [constructor|].
    apply Forall_singleton, leaf_wrapper;
      [cbn [wrapper_element tag]; rewrite !elem_of_cons; tauto|].
    cbn [wrapper_element tag children].
    apply Forall_fmap, Forall_forall. intros c _. apply option_flat.
  - destruct (truthy (Shop._enable_auto_discounts self)); [|constructor].
    apply Forall_singleton, scalar_child; [|reflexivity].
    repeat split; discriminate.
  - apply Forall_singleton, offers_wrapper; [reflexivity|].
    cbn [wrapper_element tag children].
    apply Forall_fmap, Forall_forall. intros o _. apply offer_flat.
Qed.

(** The loop of [gifts] and [promos], entered at the opening event,
    takes every event that is left and collects nothing. *)
Lemma collect_pairs_start {A} (iterator : list (Event * XMLElement))
    (acc : list A) :
  Shop.collect_pairs start iterator acc = Ok (acc, length iterator).
Proof.
  induction iterator as [|ev iterator IH]; [reflexivity|].
  cbn [Shop.collect_pairs length]. rewrite decide_False by done.
  by rewrite IH.
Qed.

Lemma from_iterator_loop_gifts (el : XMLElement)
    (rest : list (Event * XMLElement)) (kwargs : gmap string Shop.KwVal) :
  tag el = "gifts" ∨ tag el = "promos" →
  Shop.from_iterator_loop ((start, el) :: rest) kwargs = Ok kwargs.
Proof.
  intros Htag. rewrite Shop.from_iterator_loop_equation_2.
  unfold Shop.from_iterator_body.
  destruct Htag as [Htag|Htag]; rewrite Htag; decide_branches;
    rewrite collect_pairs_start, bind_Ok; cbn [fst snd mret result_ret];
    rewrite drop_all; apply Shop.from_iterator_loop_equation_1.
Qed.

(** X3. [Shop.from_iterator] reads nothing from the event that opens a
    [gifts] or a [promos] wrapper on. Whatever events follow, the loop
    returns the keywords it has collected so far. So the result is
    [Shop.from_xml] of the children that came before the wrapper, when
    each of them is a scalar without children, a wrapper [currencies],
    [categories], [delivery-options] or [pickup-options] of elements
    without children that are not tagged as the wrapper is, or an
    [offers] wrapper of elements tagged [offer] that the streaming
    decoder of every offer class reads as its tree decoder does, taking
    exactly the events of the offer. *)
Theorem X3_stream_stops_at_gifts (el : XMLElement)
    (rest : list (Event * XMLElement)) :
  tag el = "gifts" ∨ tag el = "promos" →
  (∀ kwargs, Shop.from_iterator_loop ((start, el) :: rest) kwargs = Ok kwargs) ∧
  Shop.from_iterator ((start, el) :: rest) = Shop.construct ∅ ∧
  ∀ before,
    Forall valid_child before →
    Shop.from_iterator (flat_map iterparse before ++ (start, el) :: rest)
    = Shop.from_xml (Element "shop" ∅ None before).
Proof.
  intros Htag. split; [|split].
  - intros kwargs. by apply from_iterator_loop_gifts.
  - unfold Shop.from_iterator. by rewrite from_iterator_loop_gifts.
  - intros before Hbefore. unfold Shop.from_iterator, Shop.from_xml.
    rewrite from_iterator_loop_prefix by done. cbn [children].
    destruct (for_in before Shop.from_xml_body ∅) as [kwargs|e];
      [|reflexivity].
    rewrite !bind_Ok. by rewrite from_iterator_loop_gifts.
Qed.

Lemma collect_pairs_acc {A} (event : Event)
    (iterator : list (Event * XMLElement)) (acc : list A) (r : list A * nat) :
  Shop.collect_pairs event iterator acc = Ok r → r.1 = acc.
Proof.
  revert r. induction iterator as [|ev iterator IH]; intros r.
  - by intros [= <-].
  - cbn [Shop.collect_pairs]. case_decide; [done|].
    intros Hr. inv_bind Hr. injection Hr as <-. cbn [fst]. by apply IH.
Qed.

Lemma no_gift_lists_insert (kwargs : gmap string Shop.KwVal) (key : string)
    (v : Shop.KwVal) :
  (∀ l, v ≠ Shop.KwGifts l) → (∀ l, v ≠ Shop.KwPromos l) →
  no_gift_lists kwargs → no_gift_lists (<[key := v]> kwargs).
Proof.
  intros Hg Hp [Hgifts Hpromos]. split; intros l.
  - destruct (decide (key = "gifts")) as [->|Hne].
    + rewrite lookup_insert_eq. intros [= ->]. by apply (Hg l).
    + rewrite lookup_insert_ne by done. apply Hgifts.
  - destruct (decide (key = "promos")) as [->|Hne].
    + rewrite lookup_insert_eq. intros [= ->]. by apply (Hp l).
    + rewrite lookup_insert_ne by done. apply Hpromos.
Qed.

Lemma from_iterator_body_no_gift_lists (event : Event) (el : XMLElement)
    (iterator : list (Event * XMLElement))
    (kwargs kwargs' : gmap string Shop.KwVal) (n : nat) :
  Shop.from_iterator_body event el iterator kwargs = Ok (kwargs', n) →
  no_gift_lists kwargs → no_gift_lists kwargs'.
Proof.
  unfold Shop.from_iterator_body. intros Hbody Hkw.
  repeat case_decide;
    try (inv_bind Hbody; injection Hbody as <- <-);
    try (injection Hbody as <- <-);
    try (by apply no_gift_lists_insert);
    try done.
  - apply collect_pairs_acc in Ha. by rewrite Ha.
  - apply collect_pairs_acc in Ha. by rewrite Ha.
Qed.

Lemma from_iterator_loop_no_gift_lists (iterator : list (Event * XMLElement))
    (kwargs kwargs' : gmap string Shop.KwVal) :
  Shop.from_iterator_loop iterator kwargs = Ok kwargs' →
  no_gift_lists kwargs → no_gift_lists kwargs'.
Proof.
  funelim (Shop.from_iterator_loop iterator kwargs); intros Hloop Hkw.
  - by injection Hloop as <-.
  - destruct (Shop.from_iterator_body event el iterator' kwargs)
      as [[kwargs1 n]|e] eqn:Hbody; [|done].
    eapply (H (kwargs1, n)); [exact Hloop|].
    by eapply from_iterator_body_no_gift_lists.
Qed.

(** X4. Whatever the events, the keywords [Shop.from_iterator] collects,
    and those it hands to the constructor, never hold a list of gifts or
    a list of promos: the streaming decoder decodes no gift and no
    promo. *)
Theorem X4_stream_never_decodes_gifts (iterator : list (Event * XMLElement))
    (kwargs : gmap string Shop.KwVal) :
  Shop.from_iterator_loop iterator ∅ = Ok kwargs →
  no_gift_lists kwargs ∧ no_gift_lists (passed kwargs).
Proof.
  intros Hloop.
  assert (no_gift_lists kwargs) as Hkw.
  { eapply from_iterator_loop_no_gift_lists; [exact Hloop|].
    split; intros l; by rewrite lookup_empty. }
  split; [exact Hkw|].
  destruct Hkw as [Hg Hp].
  split; intros l; (rewrite passed_kept;
    [ | unfold Shop.args; rewrite !elem_of_cons; tauto | done ]); done.
Qed.

Lemma collect_offers_members (els : list XMLElement) (close : XMLElement)
    (rest : list (Event * XMLElement)) (acc : list AbstractOffer) :
  Forall offers_member els →
  tag close = "offers" →
  Shop.collect_offers (flat_map iterparse els ++ (end_, close) :: rest) acc
  = l ← mapM Shop.from_xml_offer (filter (λ o, tag o = "offer") els);
    mret ((acc ++ l)%list, S (length (flat_map iterparse els))).
Proof.
  intros Hels Hclose. revert acc.
  induction Hels as [|el els [[Htag Hstreams]|(Hleaf & Hoffer & Hoffers)] Hels IH];
    intros acc.
  - cbn [flat_map app mapM filter list_filter].
    rewrite Shop.collect_offers_equation_2.
    rewrite decide_True by done. rewrite bind_Ok. by rewrite app_nil_r.
  - rewrite filter_cons_True by done.
    cbn [flat_map mapM]. rewrite iterparse_closing.
    rewrite <- app_assoc, <- app_comm_cons.
    rewrite Shop.collect_offers_equation_2.
    rewrite decide_False by (intros [[=] _]).
    rewrite decide_True by done.
    rewrite from_iterator_offer_tree by done.
    destruct (Shop.from_xml_offer el) as [x|e]; [|reflexivity].
    cbn [fmap result_fmap]. rewrite drop_app_length, IH, !bind_Ok.
    destruct (mapM Shop.from_xml_offer _) as [l|e]; [|reflexivity].
    rewrite !bind_Ok. cbn [fst snd mret result_ret].
    rewrite <- app_assoc. cbn [app length]. rewrite length_app.
    do 2 f_equal. lia.
  - rewrite filter_cons_False by done.
    cbn [flat_map]. rewrite (iterparse_leaf el Hleaf). cbn [app].
    rewrite Shop.collect_offers_equation_2.
    rewrite decide_False by (intros [[=] _]).
    rewrite decide_False by (intros [_ ?]; done).
    rewrite Shop.collect_offers_equation_2.
    rewrite decide_False by (intros [_ ?]; done).
    rewrite decide_False by (intros [[=] _]).
    rewrite IH.
    destruct (mapM Shop.from_xml_offer _) as [l|e]; [|reflexivity].
    reflexivity.
Qed.

(** X5. Inside the [offers] wrapper the streaming decoder decodes the
    children tagged [offer] and passes over the others, while the tree
    decoder decodes every child as an offer, whatever its tag. This
    holds when every child tagged [offer] is one that the streaming
    decoder of every offer class reads as its tree decoder does, taking
    exactly the events of the offer, and every other child has no
    children and is not tagged [offers]. *)
Theorem X5_stream_offers_by_tag (offers_el : XMLElement)
    (rest : list (Event * XMLElement)) (kwargs : gmap string Shop.KwVal) :
  tag offers_el = "offers" →
  Forall offers_member (children offers_el) →
  Shop.from_iterator_loop (iterparse offers_el ++ rest) kwargs
  = (l ← mapM Shop.from_xml_offer
           (filter (λ o, tag o = "offer") (children offers_el));
     Shop.from_iterator_loop rest (<["offers" := Shop.KwOffers l]> kwargs)) ∧
  Shop.from_xml_body offers_el kwargs
  = (l ← mapM Shop.from_xml_offer (children offers_el);
     mret (<["offers" := Shop.KwOffers l]> kwargs)).
Proof.
  intros Htag Hmembers. split.
  - rewrite iterparse_closing. unfold closing.
    rewrite <- app_comm_cons, <- app_assoc. cbn [app].
    rewrite Shop.from_iterator_loop_equation_2.
    unfold Shop.from_iterator_body.
    cbn [opened new_element tag]. rewrite Htag.
    decide_branches.
    rewrite (collect_offers_members _ _ _ _ Hmembers Htag).
    destruct (mapM Shop.from_xml_offer _) as [l|e]; [|reflexivity].
    rewrite !bind_Ok. cbn [fst snd app mret result_ret].
    rewrite drop_past. reflexivity.
  - unfold Shop.from_xml_body. rewrite Htag. decide_branches. reflexivity.
Qed.

(** The loop of a wrapper of leaves decodes every element that closes
    before the wrapper does. *)
Lemma collect_closed {A} (wrapper : string) (decode : XMLElement → result A)
    (events : list (Event * XMLElement)) (close : XMLElement)
    (rest : list (Event * XMLElement)) (acc : list A) :
  Forall (λ ev, ¬ (ev.1 = end_ ∧ tag ev.2 = wrapper)) events →
  tag close = wrapper →
  Shop.collect wrapper decode (events ++ (end_, close) :: rest) acc
  = l ← mapM decode (closed events);
    mret ((acc ++ l)%list, S (length events)).
Proof.
  intros Hevents Hclose. revert acc.
  induction Hevents as [|[event el] events Hev Hevents IH]; intros acc.
  - cbn. rewrite decide_True by done. by rewrite app_nil_r.
  - cbn [app Shop.collect]. rewrite decide_False by done.
    unfold closed. rewrite filter_cons. cbn [fst].
    destruct (decide (event = end_)) as [->|Hstart].
    + rewrite fmap_cons. cbn [snd mapM].
      destruct (decode el) as [x|e]; [|reflexivity].
      rewrite !bind_Ok, IH. fold (closed events).
      destruct (mapM decode (closed events)) as [l|e]; [|reflexivity].
      rewrite !bind_Ok. cbn. by rewrite <- app_assoc.
    + rewrite IH. fold (closed events).
      destruct (mapM decode (closed events)) as [l|e]; reflexivity.
Qed.

Ltac wrapper_closed Htag Hclose Hevents :=
  rewrite Shop.from_iterator_loop_equation_2;
  unfold Shop.from_iterator_body; rewrite Htag; decide_branches;
  rewrite (collect_closed _ _ _ _ _ _ Hevents Hclose);
  destruct (mapM models.from_xml _) as [l|e]; [|reflexivity];
  rewrite !bind_Ok; cbn [fst snd mret result_ret];
  rewrite drop_past; reflexivity.

(** X6. From the event that opens a [currencies], [categories],
    [delivery-options] or [pickup-options] wrapper on, the streaming
    decoder decodes every element that closes before the wrapper does,
    at whatever depth, in the order of closing; it stores the list under
    the keyword of the wrapper and goes on after the event that closes
    the wrapper. *)
Theorem X6_stream_wrapper_decodes_all_closed (wrapper_el : XMLElement)
    (events : list (Event * XMLElement)) (close : XMLElement)
    (rest : list (Event * XMLElement)) (kwargs : gmap string Shop.KwVal) :
  tag close = tag wrapper_el →
  Forall (λ ev, ¬ (ev.1 = end_ ∧ tag ev.2 = tag wrapper_el)) events →
  (tag wrapper_el = "currencies" →
     Shop.from_iterator_loop
       ((start, wrapper_el) :: events ++ (end_, close) :: rest) kwargs
     = l ← mapM models.from_xml (closed events);
       Shop.from_iterator_loop rest
         (<["currencies" := Shop.KwCurrencies l]> kwargs)) ∧
  (tag wrapper_el = "categories" →
     Shop.from_iterator_loop
       ((start, wrapper_el) :: events ++ (end_, close) :: rest) kwargs
     = l ← mapM models.from_xml (closed events);
       Shop.from_iterator_loop rest
         (<["categories" := Shop.KwCategories l]> kwargs)) ∧
  (tag wrapper_el = "delivery-options" →
     Shop.from_iterator_loop
       ((start, wrapper_el) :: events ++ (end_, close) :: rest) kwargs
     = l ← mapM models.from_xml (closed events);
       Shop.from_iterator_loop rest
         (<["delivery_options" := Shop.KwOptions l]> kwargs)) ∧
  (tag wrapper_el = "pickup-options" →
     Shop.from_iterator_loop
       ((start, wrapper_el) :: events ++ (end_, close) :: rest) kwargs
     = l ← mapM models.from_xml (closed events);
       Shop.from_iterator_loop rest
         (<["pickup_options" := Shop.KwOptions l]> kwargs)).
Proof.
  intros Hclose Hevents.
  repeat split; intros Htag; rewrite Htag in Hclose, Hevents;
    wrapper_closed Htag Hclose Hevents.
Qed.

(** X18. The streaming decoder takes the text of an element at the event
    that closes it, at whatever depth the element lies: on events that
    open and close elements none of which is tagged as a wrapper, it
    stores the text of every closed element under its tag, in the order
    of closing, and passes over the opening events. *)
Theorem X18_stream_reads_scalars_at_any_depth
    (events : list (Event * XMLElement)) (kwargs : gmap string Shop.KwVal) :
  Forall (λ ev, not_wrapper (tag ev.2)) events →
  Shop.from_iterator_loop events kwargs
  = Ok (store_texts kwargs (closed events)).
Proof.
  intros Hevents. revert kwargs.
  induction Hevents as [|[event el] events Hev Hevents IH]; intros kwargs.
  - by rewrite Shop.from_iterator_loop_equation_1.
  - cbn [snd] in Hev. unfold closed. rewrite filter_cons. cbn [fst].
    destruct event.
    + rewrite decide_False by done. rewrite from_iterator_loop_start by done.
      apply IH.
    + rewrite decide_True by done.
      rewrite from_iterator_loop_end
        by (by destruct Hev as (_ & _ & _ & ? & _)).
      rewrite IH. reflexivity.
Qed.

(** The loop of a wrapper of leaves on events that run out before the
    wrapper closes. *)
Lemma collect_truncated {A} (wrapper : string) (decode : XMLElement → result A)
    (events : list (Event * XMLElement)) (acc : list A) :
  Forall (λ ev, ¬ (ev.1 = end_ ∧ tag ev.2 = wrapper)) events →
  Shop.collect wrapper decode events acc
  = l ← mapM decode (closed events);
    mret ((acc ++ l)%list, length events).
Proof.
  intros Hevents. revert acc.
  induction Hevents as [|[event el] events Hev Hevents IH]; intros acc.
  - cbn. by rewrite app_nil_r.
  - cbn [Shop.collect]. rewrite decide_False by done.
    unfold closed. rewrite filter_cons. cbn [fst].
    destruct (decide (event = end_)) as [->|Hstart].
    + rewrite fmap_cons. cbn [snd mapM].
      destruct (decode el) as [x|e]; [|reflexivity].
      rewrite !bind_Ok, IH. fold (closed events).
      destruct (mapM decode (closed events)) as [l|e]; [|reflexivity].
      rewrite !bind_Ok. cbn. by rewrite <- app_assoc.
    + rewrite IH. fold (closed events).
      destruct (mapM decode (closed events)) as [l|e]; reflexivity.
Qed.

Ltac wrapper_truncated Htag Hevents :=
  rewrite Shop.from_iterator_loop_equation_2;
  unfold Shop.from_iterator_body; rewrite Htag; decide_branches;
  rewrite (collect_truncated _ _ _ _ Hevents);
  destruct (mapM models.from_xml _) as [l|e]; [|reflexivity];
  rewrite !bind_Ok; cbn [fst snd mret result_ret];
  rewrite drop_all; apply Shop.from_iterator_loop_equation_1.

(** X19. Events that run out before a [currencies], [categories],
    [delivery-options] or [pickup-options] wrapper closes are no error
    for the streaming decoder: the loop of the wrapper ends with the
    iterator, and what was decoded up to there is stored under the
    keyword of the wrapper. *)
Theorem X19_stream_truncated_wrapper (wrapper_el : XMLElement)
    (events : list (Event * XMLElement)) (kwargs : gmap string Shop.KwVal) :
  Forall (λ ev, ¬ (ev.1 = end_ ∧ tag ev.2 = tag wrapper_el)) events →
  (tag wrapper_el = "currencies" →
     Shop.from_iterator_loop ((start, wrapper_el) :: events) kwargs
     = l ← mapM models.from_xml (closed events);
       mret (<["currencies" := Shop.KwCurrencies l]> kwargs)) ∧
  (tag wrapper_el = "categories" →
     Shop.from_iterator_loop ((start, wrapper_el) :: events) kwargs
     = l ← mapM models.from_xml (closed events);
       mret (<["categories" := Shop.KwCategories l]> kwargs)) ∧
  (tag wrapper_el = "delivery-options" →
     Shop.from_iterator_loop ((start, wrapper_el) :: events) kwargs
     = l ← mapM models.from_xml (closed events);
       mret (<["delivery_options" := Shop.KwOptions l]> kwargs)) ∧
  (tag wrapper_el = "pickup-options" →
     Shop.from_iterator_loop ((start, wrapper_el) :: events) kwargs
     = l ← mapM models.from_xml (closed events);
       mret (<["pickup_options" := Shop.KwOptions l]> kwargs)).
Proof.
  intros Hevents.
  repeat split; intros Htag; rewrite Htag in Hevents;
    wrapper_truncated Htag Hevents.
Qed.

End stream_documents.

(** ** Offer dispatch in the two decoders of the shop *)

Section offer_dispatch.
Context `{M : Models}.

Ltac decide_chain :=
  repeat first [ rewrite decide_True by done
               | rewrite decide_False by (first [done | intros [? ?]; done]) ].

(** The tree decoder decodes every child of [offers] with the class its
    [type] attribute selects. *)
Lemma mapM_decoded_by (els : list XMLElement)
    (picks : list (models.OfferClass * AbstractOffer)) :
  Forall2 decoded_by els picks →
  mapM Shop.from_xml_offer els = Ok picks.*2.
Proof.
  induction 1 as [|el pick els picks [Hsel Hdec] _ IH]; [reflexivity|].
  cbn [mapM]. rewrite (from_xml_offer_selected el pick.1 Hsel), Hdec, bind_Ok.
  rewrite IH. reflexivity.
Qed.

Lemma mapM_unknown_type (good : list XMLElement) (bad : XMLElement)
    (more : list XMLElement)
    (picks : list (models.OfferClass * AbstractOffer)) (ty : string) :
  Forall2 decoded_by good picks →
  attrib bad !! "type" = Some ty →
  ¬ spec.known ty →
  mapM Shop.from_xml_offer (good ++ bad :: more)
  = Raise (ParseError ("Got unexpected offer type: " +:+ ty)).
Proof.
  intros Hgood Hty Hun.
  induction Hgood as [|el pick els picks [Hsel Hdec] _ IH]; cbn [app mapM].
  - by rewrite (from_xml_offer_unknown bad ty Hty Hun).
  - rewrite (from_xml_offer_selected el pick.1 Hsel), Hdec, bind_Ok.
    rewrite IH. reflexivity.
Qed.

Lemma from_xml_body_offers (w : XMLElement) (kwargs : gmap string Shop.KwVal) :
  tag w = "offers" →
  Shop.from_xml_body w kwargs
  = offers ← mapM Shop.from_xml_offer (children w);
    mret (<["offers" := Shop.KwOffers offers]> kwargs).
Proof.
  intros Htag. unfold Shop.from_xml_body. rewrite Htag. decide_chain.
  reflexivity.
Qed.

(** The loop for [offers] hands every opened offer to the streaming
    decoder of the class its [type] attribute selects. *)
Lemma collect_offers_streamed (els : list XMLElement) (close : XMLElement)
    (rest : list (Event * XMLElement)) (acc : list AbstractOffer)
    (picks : list (models.OfferClass * AbstractOffer)) :
  Forall2 streamed_by els picks →
  tag close = "offers" →
  Shop.collect_offers (flat_map iterparse els ++ (end_, close) :: rest) acc
  = Ok ((acc ++ picks.*2)%list, S (length (flat_map iterparse els))).
Proof.
  intros Hels Hclose. revert acc.
  induction Hels as [|el pick els picks (Htag & Hsel & Hstream) _ IH];
    intros acc.
  - cbn [flat_map app fmap list_fmap]. rewrite Shop.collect_offers_equation_2.
    rewrite decide_True by done. by rewrite app_nil_r.
  - cbn [flat_map]. rewrite iterparse_closing.
    rewrite <- app_assoc, <- app_comm_cons.
    rewrite Shop.collect_offers_equation_2.
    rewrite decide_False by (intros [[=] _]).
    rewrite decide_True by done.
    rewrite (from_iterator_offer_selected _ (opened el) pick.1 Hsel), Hstream.
    rewrite drop_app_length, IH, !bind_Ok.
    cbn [fst snd mret result_ret fmap list_fmap].
    rewrite <- app_assoc. cbn [app length]. rewrite length_app.
    do 2 f_equal. lia.
Qed.

Lemma collect_offers_unknown_type (good : list XMLElement) (bad : XMLElement)
    (rest : list (Event * XMLElement)) (acc : list AbstractOffer)
    (picks : list (models.OfferClass * AbstractOffer)) (ty : string) :
  Forall2 streamed_by good picks →
  tag bad = "offer" →
  attrib bad !! "type" = Some ty →
  ¬ spec.known ty →
  Shop.collect_offers (flat_map iterparse good ++ (start, opened bad) :: rest) acc
  = Raise (ParseError ("Got unexpected offer type: " +:+ ty)).
Proof.
  intros Hgood Hbad Hty Hun. revert acc.
  induction Hgood as [|el pick els picks (Htag & Hsel & Hstream) _ IH];
    intros acc.
  - cbn [flat_map app]. rewrite Shop.collect_offers_equation_2.
    rewrite decide_False by (intros [[=] _]).
    rewrite decide_True by done.
    by rewrite (from_iterator_offer_unknown rest (opened bad) ty Hty Hun).
  - cbn [flat_map]. rewrite iterparse_closing.
    rewrite <- app_assoc, <- app_comm_cons.
    rewrite Shop.collect_offers_equation_2.
    rewrite decide_False by (intros [[=] _]).
    rewrite decide_True by done.
    rewrite (from_iterator_offer_selected _ (opened el) pick.1 Hsel), Hstream.
    rewrite drop_app_length, IH. reflexivity.
Qed.

Lemma plain_children_valid (els : list XMLElement) :
  Forall plain_child els → Forall valid_child els.
Proof.
  intros Hels. eapply Forall_impl; [exact Hels|]. by intros el [Hel _].
Qed.

(** C3. Decoding an offer element, in [Shop.from_xml] and in
    [Shop.from_iterator] alike: without a [type] attribute the decoder
    of the simplified offer is used; each of the seven known
    discriminants selects the decoder of its class; a [type] that is
    present and not known raises a [ParseError] that carries the value,
    and no decoder is tried.

    This holds of the two dispatching conditionals, and of the two
    decoders of the shop as a whole. The offers [Shop.from_xml] stores
    for an [offers] wrapper are what the selected classes decode its
    children to, and an offer of an unknown type, after offers that
    decode, makes [Shop.from_xml] raise the [ParseError]. Likewise for
    [Shop.from_iterator] on the events of the children before the
    wrapper (scalars and wrappers of leaves) and of the wrapper: the
    offers stored are what the streaming decoders of the selected
    classes return, each taking exactly the events of its offer, and
    the event that opens an offer of an unknown type raises the
    [ParseError]. *)
Theorem C3_offer_dispatch :
  (∀ (offer_el : XMLElement) (iterator : list (Event * XMLElement)) c,
     spec.selects (attrib offer_el !! "type") c →
     Shop.from_xml_offer offer_el = models.offer_from_xml c offer_el ∧
     Shop.from_iterator_offer iterator offer_el
     = models.offer_from_iterator c iterator offer_el) ∧
  (∀ (offer_el : XMLElement) (iterator : list (Event * XMLElement)) ty,
     attrib offer_el !! "type" = Some ty → ¬ spec.known ty →
     Shop.from_xml_offer offer_el
     = Raise (ParseError ("Got unexpected offer type: " +:+ ty)) ∧
     Shop.from_iterator_offer iterator offer_el
     = Raise (ParseError ("Got unexpected offer type: " +:+ ty))) ∧
  (∀ (shop_el : XMLElement) before w after picks,
     children shop_el = (before ++ w :: after)%list →
     tag w = "offers" →
     Forall2 decoded_by (children w) picks →
     Shop.from_xml shop_el
     = kwargs ← for_in before Shop.from_xml_body ∅;
       kwargs' ← for_in after Shop.from_xml_body
                   (<["offers" := Shop.KwOffers picks.*2]> kwargs);
       Shop.construct kwargs') ∧
  (∀ (shop_el : XMLElement) before w after good bad more picks kwargs ty,
     children shop_el = (before ++ w :: after)%list →
     tag w = "offers" →
     children w = (good ++ bad :: more)%list →
     for_in before Shop.from_xml_body ∅ = Ok kwargs →
     Forall2 decoded_by good picks →
     attrib bad !! "type" = Some ty → ¬ spec.known ty →
     Shop.from_xml shop_el
     = Raise (ParseError ("Got unexpected offer type: " +:+ ty))) ∧
  (∀ before (w : XMLElement) rest picks,
     Forall plain_child before →
     tag w = "offers" →
     Forall2 streamed_by (children w) picks →
     Shop.from_iterator (flat_map iterparse before ++ iterparse w ++ rest)
     = kwargs ← for_in before Shop.from_xml_body ∅;
       kwargs' ← Shop.from_iterator_loop rest
                   (<["offers" := Shop.KwOffers picks.*2]> kwargs);
       Shop.construct kwargs') ∧
  (∀ before (w : XMLElement) good bad rest picks kwargs ty,
     Forall plain_child before →
     tag w = "offers" →
     for_in before Shop.from_xml_body ∅ = Ok kwargs →
     Forall2 streamed_by good picks →
     tag bad = "offer" →
     attrib bad !! "type" = Some ty → ¬ spec.known ty →
     Shop.from_iterator
       (flat_map iterparse before
        ++ (start, opened w) :: flat_map iterparse good
        ++ (start, opened bad) :: rest)
     = Raise (ParseError ("Got unexpected offer type: " +:+ ty))).
Proof.
  repeat split.
  - by apply from_xml_offer_selected.
  - by apply from_iterator_offer_selected.
  - by apply from_xml_offer_unknown.
  - by apply from_iterator_offer_unknown.
  - intros shop_el before w after picks Hchildren Htag Hpicks.
    unfold Shop.from_xml. rewrite Hchildren, for_in_app.
    destruct (for_in before Shop.from_xml_body ∅) as [kwargs|e]; [|reflexivity].
    rewrite !bind_Ok. cbn [for_in].
    by rewrite (from_xml_body_offers w kwargs Htag), (mapM_decoded_by _ _ Hpicks).
  - intros shop_el before w after good bad more picks kwargs ty
      Hchildren Htag Hoffers Hbefore Hgood Hty Hun.
    unfold Shop.from_xml. rewrite Hchildren, for_in_app, Hbefore, bind_Ok.
    cbn [for_in]. rewrite (from_xml_body_offers w kwargs Htag), Hoffers.
    by rewrite (mapM_unknown_type good bad more picks ty Hgood Hty Hun).
  - intros before w rest picks Hbefore Htag Hpicks.
    unfold Shop.from_iterator.
    rewrite from_iterator_loop_prefix by by apply plain_children_valid.
    destruct (for_in before Shop.from_xml_body ∅) as [kwargs|e]; [|reflexivity].
    rewrite !bind_Ok. rewrite iterparse_closing. unfold closing.
    rewrite <- app_comm_cons, <- app_assoc. cbn [app].
    rewrite Shop.from_iterator_loop_equation_2.
    unfold Shop.from_iterator_body. cbn [opened new_element tag].
    rewrite Htag. decide_chain.
    rewrite (collect_offers_streamed _ _ _ _ _ Hpicks Htag), bind_Ok.
    cbn [fst snd app mret result_ret]. by rewrite drop_past.
  - intros before w good bad rest picks kwargs ty
      Hbefore Htag Hkwargs Hgood Hbad Hty Hun.
    unfold Shop.from_iterator.
    rewrite from_iterator_loop_prefix by by apply plain_children_valid.
    rewrite Hkwargs, bind_Ok.
    rewrite Shop.from_iterator_loop_equation_2.
    unfold Shop.from_iterator_body. cbn [opened new_element tag].
    rewrite Htag. decide_chain.
    by rewrite (collect_offers_unknown_type good bad rest [] picks ty
                  Hgood Hbad Hty Hun).
Qed.

End offer_dispatch.

(** ** The tree decoder, child by child *)

Section tree_decoder.
Context `{M : Models}.

(** What a child does to the keywords does not depend on the keywords:
    it stores one value under the keyword of its tag, or nothing. *)
Lemma from_xml_body_Ok (el : XMLElement) (kwargs kwargs' : gmap string Shop.KwVal) :
  Shop.from_xml_body el kwargs = Ok kwargs' →
  ∃ v, ∀ kw, Shop.from_xml_body el kw = Ok (assign (keyword_of (tag el)) v kw).
Proof.
  unfold Shop.from_xml_body, keyword_of.
  repeat case_decide; try congruence; intros Hb; try (inv_bind Hb);
    repeat match goal with H : tag el = _ |- _ => rewrite H; clear H end;
    try (destruct a as [|x l]);
    first [ exists None; intros kw; rewrite ?Ha; reflexivity
          | eexists (Some _); intros kw; rewrite ?Ha; reflexivity ].
Qed.

Lemma from_xml_body_other (el : XMLElement)
    (kwargs kwargs' : gmap string Shop.KwVal) (key : string) :
  Shop.from_xml_body el kwargs = Ok kwargs' →
  key ≠ keyword_of (tag el) →
  kwargs' !! key = kwargs !! key.
Proof.
  intros Hb Hkey. destruct (from_xml_body_Ok _ _ _ Hb) as [v Hv].
  rewrite Hv in Hb. injection Hb as <-.
  destruct v as [v|]; [|reflexivity]. cbn [assign].
  by rewrite lookup_insert_ne.
Qed.

Lemma keyword_of_inv (tg key : string) :
  key ≠ "delivery_options" → key ≠ "pickup_options" →
  keyword_of tg = key → tg = key.
Proof.
  intros Hd Hp. unfold keyword_of. repeat case_decide; congruence.
Qed.

(** The keyword of a scalar tag after the loop over the children: the
    text of the last child with that tag, or what it was before. *)
Lemma for_in_last_scalar (tg : string) (els : list XMLElement)
    (kwargs kwargs' : gmap string Shop.KwVal) :
  not_wrapper tg → tg ≠ "delivery_options" → tg ≠ "pickup_options" →
  for_in els Shop.from_xml_body kwargs = Ok kwargs' →
  kwargs' !! tg
  = match last (filter (λ c, tag c = tg) els) with
    | Some c => Some (Shop.KwText (text c))
    | None => kwargs !! tg
    end.
Proof.
  intros Htg Hd Hp. revert kwargs.
  induction els as [|el els IH]; intros kwargs Hfor.
  - by injection Hfor as <-.
  - cbn [for_in] in Hfor. inv_bind Hfor. rewrite (IH _ Hfor).
    destruct (decide (tag el = tg)) as [Hel|Hel].
    + rewrite filter_cons_True by done. rewrite last_cons.
      destruct (last (filter _ els)) as [c|]; [reflexivity|].
      rewrite from_xml_body_scalar in Ha by (by rewrite Hel).
      injection Ha as <-. by rewrite Hel, lookup_insert_eq.
    + rewrite filter_cons_False by done.
      destruct (last (filter _ els)) as [c|]; [reflexivity|].
      apply (from_xml_body_other _ _ _ _ Ha).
      intros Hkey. apply Hel. symmetry in Hkey.
      by apply keyword_of_inv in Hkey.
Qed.

(** What a shop the call of the constructor returned holds, keyword by
    keyword. *)
Lemma call_Ok (kwargs : gmap string Shop.KwVal) (shop : Shop.t) :
  Shop.call kwargs = Ok shop →
  Shop.text_arg kwargs "name" = Ok (Shop.name shop) ∧
  Shop.text_arg kwargs "company" = Ok (Shop.company shop) ∧
  Shop.currencies_arg kwargs = Ok (Shop.currencies shop) ∧
  Shop.categories_arg kwargs = Ok (Shop.categories shop) ∧
  Shop.offers_arg kwargs = Ok (Shop.offers shop) ∧
  Shop.text_arg kwargs "url" = Ok (Shop.url shop) ∧
  Shop.text_arg kwargs "platform" = Ok (Shop.platform shop) ∧
  Shop.text_arg kwargs "version" = Ok (Shop.version shop) ∧
  Shop.text_arg kwargs "agency" = Ok (Shop.agency shop) ∧
  Shop.text_arg kwargs "email" = Ok (Shop.email shop) ∧
  Shop.options_arg kwargs "delivery_options" = Ok (Shop._delivery_options shop) ∧
  Shop.options_arg kwargs "pickup_options" = Ok (Shop._pickup_options shop) ∧
  Shop.gifts_arg kwargs = Ok (Shop.gifts shop) ∧
  Shop.promos_arg kwargs = Ok (Shop.promos shop).
Proof.
  unfold Shop.call. do 2 (case_decide; [done|]). intros Hcall.
  do 15 (let a := fresh "a" in let Ha := fresh "Ha" in
         apply bind_Ok_inv in Hcall as (a & Ha & Hcall)).
  unfold Shop.__init__ in Hcall. inv_bind Hcall. injection Hcall as <-.
  repeat split; assumption.
Qed.

Lemma call_Ok_scalar (kwargs : gmap string Shop.KwVal) (shop : Shop.t)
    (tg : string) :
  tg ∈ Shop.SIMPLE_TAGS →
  Shop.call kwargs = Ok shop →
  Shop.text_arg kwargs tg = Ok (Shop.getattr shop tg).
Proof.
  intros Htg Hcall.
  destruct (call_Ok _ _ Hcall)
    as (? & ? & _ & _ & _ & ? & ? & ? & ? & ? & _).
  apply simple_tags_inv in Htg.
  repeat destruct Htg as [->|Htg]; try subst tg; assumption.
Qed.

Lemma from_xml_Ok (shop_el : XMLElement) (shop : Shop.t) :
  Shop.from_xml shop_el = Ok shop →
  ∃ kwargs,
    for_in (children shop_el) Shop.from_xml_body ∅ = Ok kwargs ∧
    Shop.call (passed kwargs) = Ok shop.
Proof. unfold Shop.from_xml. intros H. inv_bind H. eauto. Qed.

(** X7. When a scalar tag ([name], [company], [url], [platform],
    [version], [agency], [email]) occurs more than once among the
    children of the shop element, the shop [Shop.from_xml] returns holds
    the text of the last of them; without such a child the attribute is
    [None]. *)
Theorem X7_scalar_last_child_wins (shop_el : XMLElement) (shop : Shop.t)
    (tg : string) :
  tg ∈ Shop.SIMPLE_TAGS →
  Shop.from_xml shop_el = Ok shop →
  Shop.getattr shop tg = last_child tg shop_el ≫= text.
Proof.
  intros Htg Hxml. apply from_xml_Ok in Hxml as (kwargs & Hfor & Hcall).
  pose proof (call_Ok_scalar _ _ _ Htg Hcall) as Harg.
  unfold Shop.text_arg in Harg.
  rewrite passed_kept in Harg.
  2:{ by apply simple_in_args. }
  2:{ intros ->. apply simple_tags_inv in Htg.
      repeat destruct Htg as [Htg|Htg]; discriminate Htg. }
  rewrite (for_in_last_scalar tg (children shop_el) ∅ kwargs
             (simple_not_wrapper _ Htg)) in Harg.
  - unfold last_child.
    destruct (last (filter _ (children shop_el))) as [c|].
    + by injection Harg as <-.
    + rewrite lookup_empty in Harg. by injection Harg as <-.
  - intros ->. apply simple_tags_inv in Htg.
    repeat destruct Htg as [Htg|Htg]; discriminate Htg.
  - intros ->. apply simple_tags_inv in Htg.
    repeat destruct Htg as [Htg|Htg]; discriminate Htg.
  - exact Hfor.
Qed.

(** A wrapper that decodes stores the list of its members. *)
Lemma from_xml_body_wrapper (el : XMLElement)
    (kwargs kwargs' : gmap string Shop.KwVal) :
  Shop.from_xml_body el kwargs = Ok kwargs' →
  (tag el = "currencies" →
     ∃ l, mapM models.from_xml (children el) = Ok l ∧
          kwargs' !! "currencies" = Some (Shop.KwCurrencies l)) ∧
  (tag el = "categories" →
     ∃ l, mapM models.from_xml (children el) = Ok l ∧
          kwargs' !! "categories" = Some (Shop.KwCategories l)) ∧
  (tag el = "offers" →
     ∃ l, mapM Shop.from_xml_offer (children el) = Ok l ∧
          kwargs' !! "offers" = Some (Shop.KwOffers l)).
Proof.
  unfold Shop.from_xml_body. intros Hb.
  repeat split; intros Htag; rewrite Htag in Hb;
    repeat (rewrite decide_False in Hb by done);
    rewrite decide_True in Hb by done;
    inv_bind Hb; injection Hb as <-;
    eexists; (split; [eassumption|]); apply lookup_insert_eq.
Qed.

Lemma for_in_last_wrapper (key : string) (els : list XMLElement)
    (kwargs kwargs' : gmap string Shop.KwVal) :
  key ≠ "delivery_options" → key ≠ "pickup_options" →
  for_in els Shop.from_xml_body kwargs = Ok kwargs' →
  match last (filter (λ c, tag c = key) els) with
  | Some w =>
      ∃ kw kw', Shop.from_xml_body w kw = Ok kw' ∧ kwargs' !! key = kw' !! key
  | None => kwargs' !! key = kwargs !! key
  end.
Proof.
  intros Hd Hp. revert kwargs.
  induction els as [|el els IH]; intros kwargs Hfor.
  - by injection Hfor as <-.
  - cbn [for_in] in Hfor. inv_bind Hfor. specialize (IH _ Hfor).
    destruct (decide (tag el = key)) as [Hel|Hel].
    + rewrite filter_cons_True by done. rewrite last_cons.
      destruct (last (filter _ els)) as [c|]; [exact IH|]. eauto.
    + rewrite filter_cons_False by done.
      destruct (last (filter _ els)) as [c|]; [exact IH|].
      rewrite IH. apply (from_xml_body_other _ _ _ _ Ha).
      intros Hkey. apply Hel. symmetry in Hkey.
      by apply keyword_of_inv in Hkey.
Qed.

Lemma last_filter_tag (key : string) (els : list XMLElement) (w : XMLElement) :
  last (filter (λ c, tag c = key) els) = Some w → tag w = key.
Proof.
  intros Hlast. apply last_Some_elem_of in Hlast.
  by apply list_elem_of_filter in Hlast as [Htag _].
Qed.

(** X8. When the shop element has several [offers], [categories] or
    [currencies] wrappers, the shop [Shop.from_xml] returns holds the
    members of the last one only: a later wrapper replaces an earlier
    one. Without a [currencies] wrapper the currencies are the empty
    list. *)
Theorem X8_wrapper_last_child_wins (shop_el : XMLElement) (shop : Shop.t) :
  Shop.from_xml shop_el = Ok shop →
  (∃ w, last_child "offers" shop_el = Some w ∧
        mapM Shop.from_xml_offer (children w) = Ok (Shop.offers shop)) ∧
  (∃ w, last_child "categories" shop_el = Some w ∧
        mapM models.from_xml (children w) = Ok (Shop.categories shop)) ∧
  match last_child "currencies" shop_el with
  | Some w =>
      ∃ l, mapM models.from_xml (children w) = Ok l ∧
           Shop.currencies shop = inl <$> l
  | None => Shop.currencies shop = []
  end.
Proof.
  intros Hxml. apply from_xml_Ok in Hxml as (kwargs & Hfor & Hcall).
  destruct (call_Ok _ _ Hcall) as (_ & _ & Hcur & Hcat & Hoff & _).
  unfold last_child. split; [|split].
  - pose proof (for_in_last_wrapper "offers" _ _ _ ltac:(done) ltac:(done) Hfor)
      as Hlast.
    unfold Shop.offers_arg in Hoff.
    rewrite passed_kept in Hoff
      by (try done; unfold Shop.args; rewrite !elem_of_cons; tauto).
    destruct (last (filter _ (children shop_el))) as [w|] eqn:Hw.
    + destruct Hlast as (kw & kw' & Hbody & Hkey).
      apply from_xml_body_wrapper in Hbody as (_ & _ & Hbody).
      destruct (Hbody (last_filter_tag _ _ _ Hw)) as (l & Hl & Hkw').
      rewrite Hkey, Hkw' in Hoff. injection Hoff as <-. eauto.
    + by rewrite Hlast, lookup_empty in Hoff.
  - pose proof (for_in_last_wrapper "categories" _ _ _ ltac:(done) ltac:(done)
                  Hfor) as Hlast.
    unfold Shop.categories_arg in Hcat.
    rewrite passed_kept in Hcat
      by (try done; unfold Shop.args; rewrite !elem_of_cons; tauto).
    destruct (last (filter _ (children shop_el))) as [w|] eqn:Hw.
    + destruct Hlast as (kw & kw' & Hbody & Hkey).
      apply from_xml_body_wrapper in Hbody as (_ & Hbody & _).
      destruct (Hbody (last_filter_tag _ _ _ Hw)) as (l & Hl & Hkw').
      rewrite Hkey, Hkw' in Hcat. injection Hcat as <-. eauto.
    + by rewrite Hlast, lookup_empty in Hcat.
  - pose proof (for_in_last_wrapper "currencies" _ _ _ ltac:(done) ltac:(done)
                  Hfor) as Hlast.
    unfold Shop.currencies_arg in Hcur.
    destruct (last (filter _ (children shop_el))) as [w|] eqn:Hw.
    + destruct Hlast as (kw & kw' & Hbody & Hkey).
      apply from_xml_body_wrapper in Hbody as (Hbody & _ & _).
      destruct (Hbody (last_filter_tag _ _ _ Hw)) as (l & Hl & Hkw').
      unfold passed in Hcur.
      rewrite default_currencies_present in Hcur
        by (rewrite Hkey, Hkw'; eauto).
      rewrite filter_args_lookup_in in Hcur
        by (unfold Shop.args; rewrite !elem_of_cons; tauto).
      rewrite Hkey, Hkw' in Hcur. injection Hcur as <-. eauto.
    + rewrite passed_default in Hcur by (by rewrite Hlast, lookup_empty).
      by injection Hcur as <-.
Qed.

Lemma assign_comm (key key' : string) (v v' : option Shop.KwVal)
    (kwargs : gmap string Shop.KwVal) :
  key ≠ key' →
  assign key' v' (assign key v kwargs) = assign key v (assign key' v' kwargs).
Proof.
  intros Hne. destruct v as [v|], v' as [v'|]; cbn [assign]; try reflexivity.
  by apply insert_insert_ne.
Qed.

(** Two children stored under different keywords can be read in either
    order. *)
Lemma from_xml_body_comm (a b : XMLElement)
    (kwargs kwargs' : gmap string Shop.KwVal) :
  keyword_of (tag a) ≠ keyword_of (tag b) →
  Shop.from_xml_body a kwargs ≫= Shop.from_xml_body b = Ok kwargs' →
  Shop.from_xml_body b kwargs ≫= Shop.from_xml_body a = Ok kwargs'.
Proof.
  intros Hne Hab. inv_bind Hab.
  destruct (from_xml_body_Ok _ _ _ Ha0) as [va Hva].
  destruct (from_xml_body_Ok _ _ _ Hab) as [vb Hvb].
  rewrite Hva in Ha0. injection Ha0 as <-.
  rewrite Hvb in Hab. injection Hab as <-.
  rewrite Hvb, bind_Ok, Hva. f_equal. by apply assign_comm.
Qed.

Lemma for_in_Permutation (els els' : list XMLElement) :
  els ≡ₚ els' →
  NoDup (keyword_of ∘ tag <$> els) →
  ∀ kwargs kwargs',
    for_in els Shop.from_xml_body kwargs = Ok kwargs' →
    for_in els' Shop.from_xml_body kwargs = Ok kwargs'.
Proof.
  induction 1 as [|x l l' Hperm IH|x y l|l l' l'' Hperm IH Hperm' IH'];
    intros Hnodup kwargs kwargs' Hfor.
  - exact Hfor.
  - cbn [for_in] in *. inv_bind Hfor. rewrite Ha, bind_Ok.
    rewrite fmap_cons in Hnodup. apply NoDup_cons in Hnodup as [_ Hnodup].
    by apply IH.
  - cbn [for_in] in *.
    rewrite !fmap_cons in Hnodup.
    apply NoDup_cons in Hnodup as [Hy _].
    rewrite not_elem_of_cons in Hy. destruct Hy as [Hy _].
    destruct (Shop.from_xml_body y kwargs) as [k1|e] eqn:Hy1; [|done].
    rewrite bind_Ok in Hfor.
    destruct (Shop.from_xml_body x k1) as [k2|e] eqn:Hx2; [|done].
    rewrite bind_Ok in Hfor.
    assert (Shop.from_xml_body x kwargs ≫= Shop.from_xml_body y = Ok k2)
      as Hxy.
    { apply from_xml_body_comm; [done|]. by rewrite Hy1, bind_Ok. }
    inv_bind Hxy. by rewrite Ha, bind_Ok, Hxy, bind_Ok.
  - apply IH'; [|by apply IH].
    by rewrite <- Hperm.
Qed.

(** X9. [Shop.from_xml] does not depend on the order of the children of
    the shop element when no two of them are stored under the same
    keyword: a shop decoded from the children in one order is decoded
    from them in any other order. *)
Theorem X9_child_order_irrelevant (shop_el shop_el' : XMLElement)
    (shop : Shop.t) :
  children shop_el ≡ₚ children shop_el' →
  NoDup (keyword_of ∘ tag <$> children shop_el) →
  Shop.from_xml shop_el = Ok shop →
  Shop.from_xml shop_el' = Ok shop.
Proof.
  intros Hperm Hnodup Hxml.
  apply from_xml_Ok in Hxml as (kwargs & Hfor & Hcall).
  unfold Shop.from_xml.
  rewrite (for_in_Permutation _ _ Hperm Hnodup _ _ Hfor), bind_Ok.
  exact Hcall.
Qed.

Lemma needed_inv (key : string) :
  key ∈ needed →
  key = "name" ∨ key = "company" ∨ key = "categories" ∨ key = "offers".
Proof. unfold needed. rewrite !elem_of_cons, elem_of_nil. tauto. Qed.

Lemma needed_required (key : string) : key ∈ needed → key ∈ Shop.required.
Proof.
  intros Hkey. apply needed_inv in Hkey. unfold Shop.required.
  rewrite !elem_of_cons. tauto.
Qed.

Lemma needed_keyword (key tg : string) :
  key ∈ needed → tg ≠ key → key ≠ keyword_of tg.
Proof.
  intros Hkey Htg Heq. apply Htg. symmetry in Heq.
  apply keyword_of_inv in Heq; [done| |];
    apply needed_inv in Hkey; intros ->;
    repeat destruct Hkey as [Hkey|Hkey]; discriminate Hkey.
Qed.

Lemma for_in_absent (key : string) (els : list XMLElement)
    (kwargs kwargs' : gmap string Shop.KwVal) :
  key ∈ needed →
  key ∉ tag <$> els →
  for_in els Shop.from_xml_body kwargs = Ok kwargs' →
  kwargs' !! key = kwargs !! key.
Proof.
  intros Hkey. revert kwargs.
  induction els as [|el els IH]; intros kwargs Hno Hfor.
  - by injection Hfor as <-.
  - cbn [for_in] in Hfor. inv_bind Hfor.
    rewrite fmap_cons, not_elem_of_cons in Hno. destruct Hno as [Hel Hels].
    rewrite (IH _ Hels Hfor).
    apply (from_xml_body_other _ _ _ _ Ha).
    apply needed_keyword; [done|]. by apply not_eq_sym.
Qed.

Lemma from_iterator_body_absent (key : string) (event : Event)
    (el : XMLElement) (iterator : list (Event * XMLElement))
    (kwargs kwargs' : gmap string Shop.KwVal) (n : nat) :
  key ∈ needed →
  tag el ≠ key →
  Shop.from_iterator_body event el iterator kwargs = Ok (kwargs', n) →
  kwargs' !! key = kwargs !! key.
Proof.
  intros Hkey Htag. apply needed_inv in Hkey.
  unfold Shop.from_iterator_body.
  repeat case_decide; intros Hb;
    try (inv_bind Hb; injection Hb as <- <-);
    try (injection Hb as <- <-);
    try reflexivity;
    try (destruct (a.1); [reflexivity|]);
    (rewrite lookup_insert_ne; [reflexivity|]);
    intros <-; intuition congruence.
Qed.

Lemma from_iterator_loop_absent (key : string)
    (iterator : list (Event * XMLElement))
    (kwargs kwargs' : gmap string Shop.KwVal) :
  key ∈ needed →
  key ∉ (tag ∘ snd) <$> iterator →
  Shop.from_iterator_loop iterator kwargs = Ok kwargs' →
  kwargs' !! key = kwargs !! key.
Proof.
  intros Hkey.
  funelim (Shop.from_iterator_loop iterator kwargs); intros Hno Hloop.
  - by injection Hloop as <-.
  - rewrite fmap_cons, not_elem_of_cons in Hno. destruct Hno as [Hel Hit].
    simpl in Hel.
    destruct (Shop.from_iterator_body event el iterator' kwargs)
      as [[kwargs1 n]|e] eqn:Hbody; [|done].
    rewrite <- (from_iterator_body_absent _ _ _ _ _ _ _ Hkey (not_eq_sym Hel)
                  Hbody).
    eapply (H (kwargs1, n)); [done| |exact Hloop].
    intros Hin. apply Hit.
    apply list_elem_of_fmap in Hin as (x & -> & Hx).
    apply list_elem_of_fmap. exists x. split; [done|].
    eapply subseteq_drop, Hx.
Qed.

(** Without one of the needed keywords the call of the constructor is
    refused. *)
Lemma construct_missing (key : string) (kwargs : gmap string Shop.KwVal) :
  key ∈ needed →
  kwargs !! key = None →
  missing_argument (Shop.construct kwargs).
Proof.
  intros Hkey Hnone. unfold Shop.construct, Shop.call.
  fold (passed kwargs).
  rewrite decide_False.
  2:{ intros Hun. apply Hun. intros k Hk.
      apply elem_of_dom in Hk. by apply passed_dom in Hk. }
  rewrite decide_True; [by eexists|].
  intros Hall. rewrite Forall_forall in Hall.
  specialize (Hall key (needed_required _ Hkey)).
  apply elem_of_dom in Hall as [v Hv].
  rewrite passed_kept in Hv.
  - by rewrite Hnone in Hv.
  - apply needed_required in Hkey. unfold Shop.required in Hkey.
    unfold Shop.args. rewrite !elem_of_cons in *. tauto.
  - apply needed_inv in Hkey. intros ->.
    repeat destruct Hkey as [Hkey|Hkey]; discriminate Hkey.
Qed.

Lemma from_xml_missing (key : string) (shop_el : XMLElement) :
  key ∈ needed →
  key ∉ tag <$> children shop_el →
  (∀ shop, Shop.from_xml shop_el ≠ Ok shop) ∧
  (∀ kwargs, for_in (children shop_el) Shop.from_xml_body ∅ = Ok kwargs →
     missing_argument (Shop.from_xml shop_el)).
Proof.
  intros Hkey Hno.
  assert (∀ kwargs, for_in (children shop_el) Shop.from_xml_body ∅ = Ok kwargs →
            missing_argument (Shop.from_xml shop_el)) as Hmissing.
  { intros kwargs Hfor. unfold Shop.from_xml. rewrite Hfor, bind_Ok.
    apply (construct_missing key); [done|].
    by rewrite (for_in_absent _ _ _ _ Hkey Hno Hfor). }
  split; [|exact Hmissing].
  intros shop Hxml. pose proof Hxml as Hxml'.
  apply from_xml_Ok in Hxml' as (kwargs & Hfor & _).
  destruct (Hmissing _ Hfor) as [msg Hmsg]. congruence.
Qed.

(** X10. Neither decoder returns a shop when no element tagged [name]
    (or [company], [categories], [offers]) is among what it reads: when
    the children, or the events, decode, the call of the constructor is
    refused with a [TypeError] for the missing argument. Only
    [currencies] has a default. *)
Theorem X10_required_children (key : string) :
  key ∈ needed →
  (∀ shop_el, key ∉ tag <$> children shop_el →
     (∀ shop, Shop.from_xml shop_el ≠ Ok shop) ∧
     (∀ kwargs, for_in (children shop_el) Shop.from_xml_body ∅ = Ok kwargs →
        missing_argument (Shop.from_xml shop_el))) ∧
  (∀ iterator, key ∉ (tag ∘ snd) <$> iterator →
     (∀ shop, Shop.from_iterator iterator ≠ Ok shop) ∧
     (∀ kwargs, Shop.from_iterator_loop iterator ∅ = Ok kwargs →
        missing_argument (Shop.from_iterator iterator))).
Proof.
  intros Hkey. split.
  - intros shop_el Hno. by apply (from_xml_missing key).
  - intros iterator Hno.
    assert (∀ kwargs, Shop.from_iterator_loop iterator ∅ = Ok kwargs →
              missing_argument (Shop.from_iterator iterator)) as Hmissing.
    { intros kwargs Hloop. unfold Shop.from_iterator. rewrite Hloop, bind_Ok.
      apply (construct_missing key); [done|].
      by rewrite (from_iterator_loop_absent _ _ _ _ Hkey Hno Hloop). }
    split; [|exact Hmissing].
    intros shop Hit. pose proof Hit as Hit'.
    unfold Shop.from_iterator in Hit'. inv_bind Hit'.
    destruct (Hmissing _ Ha) as [msg Hmsg]. congruence.
Qed.

(** X11. A shop whose name, or whose company, is [None] or the empty
    string cannot be decoded from its own element: [Shop.create_xml]
    writes no element for it, and [Shop.from_xml] never returns a
    shop. *)
Theorem X11_nameless_shop_not_decodable (self : Shop.t) :
  truthy (Shop.name self) = false ∨ truthy (Shop.company self) = false →
  ∀ shop, Shop.from_xml (Shop.create_xml self) ≠ Ok shop.
Proof.
  intros [Hname|Hcompany].
  - apply (from_xml_missing "name");
      [unfold needed; rewrite !elem_of_cons; tauto|].
    intros Hin. apply has_child_iff in Hin.
    destruct Hin as [[Ht _]|Hin].
    + unfold Shop.getattr in Ht.
      rewrite decide_True in Ht by done. by rewrite Hname in Ht.
    + repeat destruct Hin as [Hin|Hin]; try discriminate Hin;
        destruct Hin as [Hin _]; discriminate Hin.
  - apply (from_xml_missing "company");
      [unfold needed; rewrite !elem_of_cons; tauto|].
    intros Hin. apply has_child_iff in Hin.
    destruct Hin as [[Ht _]|Hin].
    + unfold Shop.getattr in Ht.
      rewrite decide_False in Ht by done.
      rewrite decide_True in Ht by done. by rewrite Hcompany in Ht.
    + repeat destruct Hin as [Hin|Hin]; try discriminate Hin;
        destruct Hin as [Hin _]; discriminate Hin.
Qed.

Lemma getattr_normalized (self : Shop.t) (tg : string) :
  Shop.getattr (normalized self) tg = blank_to_None (Shop.getattr self tg).
Proof. unfold Shop.getattr. repeat case_decide; reflexivity. Qed.

Lemma truthy_blank_to_None (value : option string) :
  truthy (blank_to_None value) = truthy value.
Proof. by destruct value as [[|c s]|]. Qed.

Lemma blank_to_None_truthy (value : option string) :
  truthy value = true → blank_to_None value = value.
Proof. unfold blank_to_None. by intros ->. Qed.

(** A shop and the shop with its empty scalars set to [None] encode to
    the same element. *)
Lemma encoded_children_normalized (self : Shop.t) :
  encoded_children (normalized self) = encoded_children self.
Proof.
  unfold encoded_children, Shop.delivery_options, Shop.pickup_options.
  cbn [normalized Shop.currencies Shop.categories Shop.offers
         Shop._delivery_options Shop._pickup_options
         Shop._enable_auto_discounts Shop.gifts Shop.promos].
  f_equal.
  rewrite (list_filter_iff
             (λ tg, truthy (Shop.getattr (normalized self) tg))
             (λ tg, truthy (Shop.getattr self tg))).
  - apply Forall_fmap_ext, Forall_forall. intros tg Htg.
    apply list_elem_of_filter in Htg as [Htg _].
    unfold simple_element. rewrite getattr_normalized.
    rewrite blank_to_None_truthy; [reflexivity|].
    by destruct (truthy (Shop.getattr self tg)).
  - intros tg. by rewrite getattr_normalized, truthy_blank_to_None.
Qed.

(** X12. Encoding a constructed shop and decoding the element gives a
    shop whose dict is the dict of the original with every empty scalar
    replaced by [None], when name and company are not empty, no currency
    is a plain string, the leaf classes round-trip, and every offer is
    encoded with the [type] attribute of a class whose own decoder reads
    it back to the same dict. *)
Theorem X12_encode_decode_normalizes `{!Lawful} (self : Shop.t) :
  Shop_constructed self →
  truthy (Shop.name self) = true →
  truthy (Shop.company self) = true →
  (∀ s, inr s ∉ Shop.currencies self) →
  ∃ shop,
    Shop.from_xml (Shop.create_xml self) = Ok shop ∧
    Shop.create_dict shop = Shop.create_dict (normalized self).
Proof.
  intros Hshop Hname Hcompany Hobjects.
  destruct Hshop as (name & company & currencies & categories & offers & url
                     & platform & version & agency & email & delivery_options
                     & pickup_options & enable_auto_discounts & gifts & promos
                     & Hshop).
  apply init_valid_flag in Hshop.
  destruct (shop_roundtrip (normalized self)) as (shop & Hdecode & Hdict & _).
  - exact Hshop.
  - split; [|split; [|split]].
    + cbn [normalized Shop.name]. by rewrite truthy_blank_to_None.
    + cbn [normalized Shop.company]. by rewrite truthy_blank_to_None.
    + intros key _. rewrite getattr_normalized. unfold scalar_ok.
      rewrite truthy_blank_to_None. unfold blank_to_None.
      destruct (truthy (Shop.getattr self key)); [by right | by left].
    + exact Hobjects.
  - exists shop. split; [|exact Hdict].
    rewrite create_xml_shape in *.
    by rewrite encoded_children_normalized in Hdecode.
Qed.

End tree_decoder.

(** ** The encoder, group by group *)

Section encoder_groups.
Context `{M : Models}.

Lemma optional_tag_sublist (b : bool) (tg : string) :
  optional_tag b tg `sublist_of` [tg].
Proof. destruct b; [reflexivity | apply sublist_nil_l]. Qed.

(** X13. The children of the element [Shop.create_xml] builds come in a
    fixed order: the scalars that are not empty, in the order [name],
    [company], [url], [platform], [version], [agency], [email]; then
    [currencies], [categories], the optional [delivery-options],
    [pickup-options] and [enable_auto_discounts], [offers], and the
    optional [gifts] and [promos]. No two children have the same tag. *)
Theorem X13_child_tags (self : Shop.t) :
  tag <$> children (Shop.create_xml self)
  = (filter (λ tg, truthy (Shop.getattr self tg)) Shop.SIMPLE_TAGS
     ++ ["currencies"; "categories"]
     ++ optional_tag (not_nil (Shop.delivery_options self)) "delivery-options"
     ++ optional_tag (not_nil (Shop.pickup_options self)) "pickup-options"
     ++ optional_tag (truthy (Shop._enable_auto_discounts self))
          "enable_auto_discounts"
     ++ ["offers"]
     ++ optional_tag (Shop.nonempty (Shop.gifts self)) "gifts"
     ++ optional_tag (Shop.nonempty (Shop.promos self)) "promos")%list ∧
  tag <$> children (Shop.create_xml self) `sublist_of` CHILD_TAGS ∧
  NoDup (tag <$> children (Shop.create_xml self)).
Proof.
  rewrite create_xml_shape. cbn [children]. rewrite encoded_tags.
  split; [reflexivity|].
  assert ((filter (λ tg, truthy (Shop.getattr self tg)) Shop.SIMPLE_TAGS
     ++ ["currencies"; "categories"]
     ++ optional_tag (not_nil (Shop.delivery_options self)) "delivery-options"
     ++ optional_tag (not_nil (Shop.pickup_options self)) "pickup-options"
     ++ optional_tag (truthy (Shop._enable_auto_discounts self))
          "enable_auto_discounts"
     ++ ["offers"]
     ++ optional_tag (Shop.nonempty (Shop.gifts self)) "gifts"
     ++ optional_tag (Shop.nonempty (Shop.promos self)) "promos")%list
     `sublist_of` CHILD_TAGS) as Hsub.
  { change CHILD_TAGS
      with (Shop.SIMPLE_TAGS ++ ["currencies"; "categories"]
            ++ ["delivery-options"] ++ ["pickup-options"]
            ++ ["enable_auto_discounts"] ++ ["offers"] ++ ["gifts"]
            ++ ["promos"])%list.
    repeat (apply sublist_app;
            [first [ apply sublist_filter | reflexivity
                   | apply optional_tag_sublist ]|]).
    apply optional_tag_sublist. }
  split; [exact Hsub|].
  eapply sublist_NoDup; [|exact Hsub].
  apply (bool_decide_unpack (NoDup CHILD_TAGS)). vm_compute. exact I.
Qed.

Ltac wrapper_members self :=
  unfold children_tagged; rewrite create_xml_shape; cbn [children];
  unfold encoded_children; rewrite filter_app;
  rewrite filter_simple_elements
    by (let H := fresh in
        intros H; apply simple_tags_inv in H;
        repeat destruct H as [H|H]; discriminate H);
  destruct (Shop.delivery_options self), (Shop.pickup_options self),
    (truthy (Shop._enable_auto_discounts self)),
    (Shop.nonempty (Shop.gifts self)), (Shop.nonempty (Shop.promos self));
  reflexivity.

(** X14. In the element [Shop.create_xml] builds, the one wrapper of
    each collection holds the encodings of all its members, in their
    order: [categories] and [offers] always, and [delivery-options],
    [pickup-options], [gifts] and [promos] when the collection is not
    empty. *)
Theorem X14_wrapper_members (self : Shop.t) :
  children_tagged "categories" (Shop.create_xml self)
  = [wrapper_element "categories" (models.create_xml <$> Shop.categories self)] ∧
  children_tagged "offers" (Shop.create_xml self)
  = [wrapper_element "offers" (models.offer_create_xml <$> Shop.offers self)] ∧
  children_tagged "delivery-options" (Shop.create_xml self)
  = (if not_nil (Shop.delivery_options self)
     then [wrapper_element "delivery-options"
             (models.create_xml <$> Shop.delivery_options self)]
     else []) ∧
  children_tagged "pickup-options" (Shop.create_xml self)
  = (if not_nil (Shop.pickup_options self)
     then [wrapper_element "pickup-options"
             (models.create_xml <$> Shop.pickup_options self)]
     else []) ∧
  children_tagged "gifts" (Shop.create_xml self)
  = (if Shop.nonempty (Shop.gifts self)
     then [wrapper_element "gifts"
             (models.create_xml <$> default [] (Shop.gifts self))]
     else []) ∧
  children_tagged "promos" (Shop.create_xml self)
  = (if Shop.nonempty (Shop.promos self)
     then [wrapper_element "promos"
             (models.create_xml <$> default [] (Shop.promos self))]
     else []).
Proof. repeat split; wrapper_members self. Qed.

Lemma filter_tag_simple (self : Shop.t) (tags : list string) (tg : string) :
  NoDup tags →
  tg ∈ tags →
  filter (λ c, tag c = tg)
    (simple_element self <$> filter (λ t, truthy (Shop.getattr self t)) tags)
  = if truthy (Shop.getattr self tg) then [simple_element self tg] else [].
Proof.
  induction 1 as [|t tags Ht Htags IH]; intros Htg.
  - by apply elem_of_nil in Htg.
  - apply elem_of_cons in Htg as [->|Htg].
    + rewrite filter_cons.
      assert (filter (λ c, tag c = t)
                (simple_element self <$>
                   filter (λ t, truthy (Shop.getattr self t)) tags) = [])
        as Hrest.
      { apply filter_none. intros c Hc Htag.
        apply list_elem_of_fmap in Hc as (t' & -> & Hin).
        apply list_elem_of_filter in Hin as [_ Hin]. simpl in Htag.
        by subst. }
      destruct (truthy (Shop.getattr self t)) eqn:Htruthy.
      * rewrite decide_True by done. rewrite fmap_cons.
        rewrite filter_cons_True by done. by rewrite Hrest.
      * rewrite decide_False by (intros []). exact Hrest.
    + rewrite filter_cons.
      destruct (decide (truthy (Shop.getattr self t))) as [Htruthy|Htruthy];
        [|by apply IH].
      rewrite fmap_cons, filter_cons_False; [by apply IH|].
      simpl. intros ->. by apply Ht.
Qed.

Lemma filter_tag_absent (tg : string) (l : list XMLElement) :
  tg ∉ tag <$> l → filter (λ c, tag c = tg) l = [].
Proof.
  intros Hno. apply filter_none. intros c Hc Htag. apply Hno.
  apply list_elem_of_fmap. by exists c.
Qed.

Lemma NoDup_SIMPLE_TAGS : NoDup Shop.SIMPLE_TAGS.
Proof.
  apply (bool_decide_unpack (NoDup Shop.SIMPLE_TAGS)). vm_compute. exact I.
Qed.

(** X15. For each scalar tag the element [Shop.create_xml] builds has no
    child when the attribute is [None] or empty, and otherwise exactly
    one, without attributes and children, whose text is the attribute;
    likewise [enable_auto_discounts] carries the stored literal. *)
Theorem X15_scalar_children (self : Shop.t) :
  (∀ tg, tg ∈ Shop.SIMPLE_TAGS →
     children_tagged tg (Shop.create_xml self)
     = if truthy (Shop.getattr self tg)
       then [Element tg ∅ (Shop.getattr self tg) []] else []) ∧
  children_tagged "enable_auto_discounts" (Shop.create_xml self)
  = if truthy (Shop._enable_auto_discounts self)
    then [Element "enable_auto_discounts" ∅ (Shop._enable_auto_discounts self) []]
    else [].
Proof.
  unfold children_tagged.
  rewrite create_xml_shape. cbn [children]. unfold encoded_children.
  split.
  - intros tg Htg.
    rewrite filter_app, (filter_tag_simple _ _ _ NoDup_SIMPLE_TAGS Htg).
    rewrite filter_tag_absent; [by rewrite app_nil_r|].
    rewrite !fmap_app. apply simple_tags_inv in Htg.
    destruct (Shop.delivery_options self), (Shop.pickup_options self),
      (truthy (Shop._enable_auto_discounts self)),
      (Shop.nonempty (Shop.gifts self)), (Shop.nonempty (Shop.promos self));
      cbn; rewrite ?not_elem_of_cons;
      repeat split; try apply not_elem_of_nil;
      intros ->; repeat destruct Htg as [Htg|Htg]; discriminate Htg.
  - rewrite filter_app, filter_simple_elements.
    + destruct (Shop.delivery_options self), (Shop.pickup_options self),
        (truthy (Shop._enable_auto_discounts self)),
        (Shop.nonempty (Shop.gifts self)), (Shop.nonempty (Shop.promos self));
        reflexivity.
    + intros Hin. apply simple_tags_inv in Hin.
      repeat destruct Hin as [Hin|Hin]; discriminate Hin.
Qed.

(** X16. [Shop.create_dict] returns a dict exactly when no member of
    [currencies] is a plain string. With a string among them, the dict
    of the shop and the dict of a feed of the shop both fail with an
    [AttributeError], although [Shop.create_xml] encodes such a shop. *)
Theorem X16_create_dict_defined_iff (self : Shop.t) :
  ((∃ d, Shop.create_dict self = Ok d) ↔ (∀ s, inr s ∉ Shop.currencies self)) ∧
  (∀ s, inr s ∈ Shop.currencies self →
     (∃ msg, Shop.to_dict self false = Raise (AttributeError msg)) ∧
     (∀ date, ∃ msg,
        Feed.create_dict {| Feed.shop := self; Feed._date := date |}
        = Raise (AttributeError msg))).
Proof.
  split; [split|].
  - intros [d Hd] s Hin.
    rewrite (create_dict_string_currency self s Hin) in Hd. discriminate Hd.
  - intros Hobjects. unfold Shop.create_dict.
    rewrite (currencies_objects _ Hobjects), mapM_currency_to_dict, bind_Ok.
    eauto.
  - intros s Hin. split.
    + unfold Shop.to_dict.
      rewrite (create_dict_string_currency self s Hin). by eexists.
    + intros date. unfold Feed.create_dict, Shop.to_dict. cbn [Feed.shop].
      rewrite (create_dict_string_currency self s Hin). by eexists.
Qed.

End encoder_groups.

(** ** A feed without a date *)

Section feed_default.
Context `{M : Models}.

(** X17. Decoding a feed element that has no [date] attribute gives a
    feed whose stored date is the reading of the clock printed in the
    primary format; the getter of [date] returns that reading, and
    [Feed.create_xml] writes the printed string. *)
Theorem X17_feed_without_date (now : datetime) (el shop_el : XMLElement)
    (others : list XMLElement) (shop : Shop.t) :
  clock now →
  children el = shop_el :: others →
  attrib el !! "date" = None →
  Shop.from_xml shop_el = Ok shop →
  ∃ feed,
    Feed.from_xml now el = Ok feed ∧
    Feed.shop feed = shop ∧
    Feed._date feed = strftime now Feed.DATE_FORMAT ∧
    Feed.date feed = Ok now ∧
    attrib (Feed.create_xml feed) !! "date"
    = Some (strftime now Feed.DATE_FORMAT).
Proof.
  intros Hnow Hchildren Hdate Hshop.
  exists {| Feed.shop := shop; Feed._date := strftime now Feed.DATE_FORMAT |}.
  split; [|split; [reflexivity|split; [reflexivity|split]]].
  - unfold Feed.from_xml. rewrite Hchildren, Hshop, bind_Ok, Hdate.
    reflexivity.
  - rewrite date_getter. cbn [Feed._date].
    by rewrite strptime_strftime.
  - apply create_xml_date.
Qed.

End feed_default.

(** ** The further properties on documents *)

Lemma document_decoded :
  Shop.from_xml example.shop_document = Ok samples.document_shop.
Proof. reflexivity. Qed.

Lemma repeated_decoded :
  Shop.from_xml samples.repeated_document = Ok samples.repeated_shop.
Proof. reflexivity. Qed.

Lemma gift_collected :
  Shop.from_iterator_loop (shop_events example.shop_with_gift) ∅
  = Ok samples.gift_kwargs.
Proof. reflexivity. Qed.

Lemma enclosing_yml_catalog : enclosing "yml_catalog".
Proof.
  split; [repeat split; discriminate|].
  unfold Shop.args. rewrite !not_elem_of_cons.
  repeat split; try discriminate. apply not_elem_of_nil.
Qed.

Lemma enclosing_shop : enclosing "shop".
Proof.
  split; [repeat split; discriminate|].
  unfold Shop.args. rewrite !not_elem_of_cons.
  repeat split; try discriminate. apply not_elem_of_nil.
Qed.

Lemma plain_offer_streamed :
  streamed_by example.plain_offer (models.SimplifiedOffer, samples.offer7).
Proof.
  split; [reflexivity|]. split; [reflexivity|]. intros rest. cbn [fst snd].
  rewrite example_offer_streams;
    [reflexivity | reflexivity | repeat constructor; discriminate].
Qed.

Lemma book_offer_streamed :
  streamed_by example.book_offer (models.BookOffer, samples.offer8).
Proof.
  split; [reflexivity|]. split; [apply book_known|]. intros rest.
  cbn [fst snd].
  rewrite example_offer_streams;
    [reflexivity | reflexivity | repeat constructor; discriminate].
Qed.

Lemma plain_offer_decoded :
  decoded_by example.plain_offer (models.SimplifiedOffer, samples.offer7).
Proof. split; reflexivity. Qed.

Lemma book_offer_decoded :
  decoded_by example.book_offer (models.BookOffer, samples.offer8).
Proof. split; [apply book_known | reflexivity]. Qed.

Lemma document_head_plain : Forall plain_child samples.document_head.
Proof.
  unfold samples.document_head.
  repeat apply Forall_cons_2; try apply Forall_nil_2;
    (split; [|discriminate]).
  - apply scalar_child; [repeat split; discriminate | reflexivity].
  - apply scalar_child; [repeat split; discriminate | reflexivity].
  - apply scalar_child; [repeat split; discriminate | reflexivity].
  - apply leaf_wrapper; [rewrite !elem_of_cons; tauto|].
    repeat constructor. discriminate.
  - apply leaf_wrapper; [rewrite !elem_of_cons; tauto|].
    repeat constructor. discriminate.
  - apply leaf_wrapper; [rewrite !elem_of_cons; tauto|].
    repeat constructor. discriminate.
  - apply scalar_child; [repeat split; discriminate | reflexivity].
Qed.

Lemma bogus_head_plain : Forall plain_child samples.bogus_head.
Proof.
  unfold samples.bogus_head.
  repeat apply Forall_cons_2; try apply Forall_nil_2;
    (split; [|discriminate]).
  - apply scalar_child; [repeat split; discriminate | reflexivity].
  - apply scalar_child; [repeat split; discriminate | reflexivity].
  - apply leaf_wrapper; [rewrite !elem_of_cons; tauto | constructor].
  - apply leaf_wrapper; [rewrite !elem_of_cons; tauto | constructor].
Qed.

Lemma first_offer_decoded :
  Forall2 decoded_by [example.plain_offer]
    [(models.SimplifiedOffer, samples.offer7)].
Proof.
  apply Forall2_cons_2; [apply plain_offer_decoded | apply Forall2_nil_2].
Qed.

Lemma first_offer_streamed :
  Forall2 streamed_by [example.plain_offer]
    [(models.SimplifiedOffer, samples.offer7)].
Proof.
  apply Forall2_cons_2; [apply plain_offer_streamed | apply Forall2_nil_2].
Qed.

(** The two decoders of the shop on a document with an offer without a
    type and a book, and on one with an offer of the type [bogus]. *)
Lemma C3_offer_dispatch_witness :
  Shop.from_xml_offer example.book_offer
  = models.offer_from_xml models.BookOffer example.book_offer ∧
  Shop.from_iterator_offer [] example.plain_offer
  = models.offer_from_iterator models.SimplifiedOffer [] example.plain_offer ∧
  Shop.from_xml example.shop_document = Ok samples.document_shop ∧
  Shop.from_iterator (shop_events example.shop_document)
  = Ok samples.document_shop ∧
  Shop.from_xml example.shop_with_bogus_offer
  = Raise (ParseError "Got unexpected offer type: bogus") ∧
  Shop.from_iterator (shop_events example.shop_with_bogus_offer)
  = Raise (ParseError "Got unexpected offer type: bogus").
Proof.
  destruct (C3_offer_dispatch (M := example.M))
    as (Hknown & Hunknown & Htree & Htree_fails & Hstream & Hstream_fails).
  split; [exact (proj1 (Hknown example.book_offer [] models.BookOffer
                          book_known))|].
  split; [exact (proj2 (Hknown example.plain_offer [] models.SimplifiedOffer
                          eq_refl))|].
  split.
  { rewrite (Htree example.shop_document samples.document_head
               samples.document_offers [] samples.document_picks
               eq_refl eq_refl).
    - reflexivity.
    - apply Forall2_cons_2; [apply plain_offer_decoded|].
      apply Forall2_cons_2; [apply book_offer_decoded | apply Forall2_nil_2]. }
  split.
  { change (shop_events example.shop_document)
      with (flat_map iterparse samples.document_head
            ++ iterparse samples.document_offers ++ [])%list.
    rewrite (Hstream samples.document_head samples.document_offers []
               samples.document_picks document_head_plain eq_refl).
    - reflexivity.
    - apply Forall2_cons_2; [apply plain_offer_streamed|].
      apply Forall2_cons_2; [apply book_offer_streamed | apply Forall2_nil_2]. }
  split.
  { exact (Htree_fails example.shop_with_bogus_offer samples.bogus_head
             samples.bogus_offers [] [example.plain_offer] example.bogus_offer
             [] [(models.SimplifiedOffer, samples.offer7)]
             samples.bogus_kwargs "bogus" eq_refl eq_refl eq_refl eq_refl
             first_offer_decoded
             eq_refl bogus_unknown). }
  exact (Hstream_fails samples.bogus_head samples.bogus_offers
           [example.plain_offer] example.bogus_offer
           (closing example.bogus_offer ++ [(end_, samples.bogus_offers)])%list
           [(models.SimplifiedOffer, samples.offer7)]
           samples.bogus_kwargs "bogus" bogus_head_plain eq_refl eq_refl
           first_offer_streamed
           eq_refl eq_refl bogus_unknown).
Defined.

Lemma X1_stream_of_whole_document_witness :
  children samples.feed_document = [example.shop_document] ∧
  Shop.from_iterator (iterparse samples.feed_document)
  = Shop.from_xml example.shop_document.
Proof.
  split; [reflexivity|].
  exact (X1_stream_of_whole_document samples.feed_document
           example.shop_document eq_refl enclosing_yml_catalog enclosing_shop
           shop_document_valid).
Defined.

#[global] Instance example_flat : Flat (M := example.M).
Proof.
  split.
  - intros c. split; [reflexivity | discriminate].
  - intros c. split; [reflexivity | discriminate].
  - intros o. split; (split; [reflexivity | discriminate]).
  - intros o. split; [reflexivity|].
    apply example_offer_streams; [reflexivity|].
    repeat constructor. discriminate.
Qed.

Lemma X2_stream_decodes_encoded_shop_witness :
  Shop.nonempty (Shop.gifts samples.document_shop) = false ∧
  Shop.nonempty (Shop.promos samples.document_shop) = false ∧
  Shop.from_iterator (shop_events (Shop.create_xml samples.document_shop))
  = Shop.from_xml (Shop.create_xml samples.document_shop).
Proof.
  split; [reflexivity|]. split; [reflexivity|].
  exact (X2_stream_decodes_encoded_shop samples.document_shop eq_refl eq_refl).
Defined.

Lemma X3_stream_stops_at_gifts_witness :
  tag (opened samples.gifts_el) = "gifts" ∧
  Shop.from_iterator_loop
    ((start, opened samples.gifts_el) :: closing samples.gifts_el)
    samples.gift_kwargs
  = Ok samples.gift_kwargs ∧
  Shop.from_iterator
    (flat_map iterparse (children example.shop_document)
     ++ (start, opened samples.gifts_el) :: closing samples.gifts_el)
  = Shop.from_xml (Element "shop" ∅ None (children example.shop_document)).
Proof.
  split; [reflexivity|].
  destruct (X3_stream_stops_at_gifts (opened samples.gifts_el)
              (closing samples.gifts_el) (or_introl eq_refl))
    as (Hloop & _ & Hbefore).
  split; [apply Hloop|].
  exact (Hbefore (children example.shop_document) shop_document_valid).
Defined.

Lemma X4_stream_never_decodes_gifts_witness :
  Shop.from_iterator_loop (shop_events example.shop_with_gift) ∅
  = Ok samples.gift_kwargs ∧
  no_gift_lists samples.gift_kwargs ∧
  no_gift_lists (passed samples.gift_kwargs).
Proof.
  split; [exact gift_collected|].
  exact (X4_stream_never_decodes_gifts _ _ gift_collected).
Defined.

Lemma mixed_offers_members :
  Forall offers_member (children samples.mixed_offers).
Proof.
  cbn [children samples.mixed_offers example.wrapper].
  repeat apply Forall_cons_2; try apply Forall_nil_2.
  - left. split; [reflexivity|].
    apply example_offer_streams; [reflexivity|].
    repeat constructor. discriminate.
  - right. repeat split; discriminate.
  - left. split; [reflexivity|].
    apply example_offer_streams; [reflexivity|].
    repeat constructor. discriminate.
Qed.

Lemma X5_stream_offers_by_tag_witness :
  Shop.from_iterator_loop (iterparse samples.mixed_offers ++ []) ∅
  = (l ← mapM Shop.from_xml_offer
           (filter (λ o, tag o = "offer") (children samples.mixed_offers));
     Shop.from_iterator_loop [] (<["offers" := Shop.KwOffers l]> ∅)) ∧
  Shop.from_xml_body samples.mixed_offers ∅
  = (l ← mapM Shop.from_xml_offer (children samples.mixed_offers);
     mret (<["offers" := Shop.KwOffers l]> ∅)).
Proof.
  exact (X5_stream_offers_by_tag samples.mixed_offers [] ∅ eq_refl
           mixed_offers_members).
Defined.

(** The streaming decoder leaves the note out, and the tree decoder
    fails on it: the example offers need an [id]. *)
Example mixed_offers_decoded :
  Shop.from_iterator_loop (iterparse samples.mixed_offers) ∅
  = Ok (<["offers" := Shop.KwOffers [samples.offer7; samples.offer8]]> ∅) ∧
  Shop.from_xml_body samples.mixed_offers ∅
  = Raise (ValidationError "id is required").
Proof. split; reflexivity. Qed.

Lemma nested_currency_events :
  Forall (λ ev, ¬ (ev.1 = end_ ∧ tag ev.2 = tag (example.wrapper "currencies" [])))
    (iterparse samples.nested_currency).
Proof.
  cbn. repeat constructor; cbn; intros [? ?]; discriminate.
Qed.

Lemma X6_stream_wrapper_decodes_all_closed_witness :
  closed (iterparse samples.nested_currency)
  = [samples.rate_note; samples.nested_currency] ∧
  Shop.from_iterator_loop
    ((start, example.wrapper "currencies" [])
     :: iterparse samples.nested_currency
     ++ (end_, example.wrapper "currencies" [samples.nested_currency]) :: [])
    ∅
  = l ← mapM models.from_xml (closed (iterparse samples.nested_currency));
    Shop.from_iterator_loop [] (<["currencies" := Shop.KwCurrencies l]> ∅).
Proof.
  split; [reflexivity|].
  exact (proj1 (X6_stream_wrapper_decodes_all_closed
                  (example.wrapper "currencies" [])
                  (iterparse samples.nested_currency)
                  (example.wrapper "currencies" [samples.nested_currency])
                  [] ∅ eq_refl nested_currency_events) eq_refl).
Defined.

Lemma name_simple : "name" ∈ Shop.SIMPLE_TAGS.
Proof. unfold Shop.SIMPLE_TAGS. rewrite !elem_of_cons. tauto. Qed.

Lemma X7_scalar_last_child_wins_witness :
  Shop.from_xml samples.repeated_document = Ok samples.repeated_shop ∧
  Shop.getattr samples.repeated_shop "name"
  = last_child "name" samples.repeated_document ≫= text.
Proof.
  split; [exact repeated_decoded|].
  exact (X7_scalar_last_child_wins samples.repeated_document
           samples.repeated_shop "name" name_simple repeated_decoded).
Defined.

Lemma X8_wrapper_last_child_wins_witness :
  Shop.from_xml samples.repeated_document = Ok samples.repeated_shop ∧
  ∃ w, last_child "offers" samples.repeated_document = Some w ∧
       mapM Shop.from_xml_offer (children w)
       = Ok (Shop.offers samples.repeated_shop).
Proof.
  split; [exact repeated_decoded|].
  exact (proj1 (X8_wrapper_last_child_wins samples.repeated_document
                  samples.repeated_shop repeated_decoded)).
Defined.

Lemma document_keywords_distinct :
  NoDup (keyword_of ∘ tag <$> children example.shop_document).
Proof.
  apply (bool_decide_unpack
           (NoDup (keyword_of ∘ tag <$> children example.shop_document))).
  vm_compute. exact I.
Qed.

Lemma document_reordered :
  children example.shop_document ≡ₚ children samples.reordered_document.
Proof. apply perm_swap. Qed.

Lemma X9_child_order_irrelevant_witness :
  Shop.from_xml example.shop_document = Ok samples.document_shop ∧
  Shop.from_xml samples.reordered_document = Ok samples.document_shop.
Proof.
  split; [exact document_decoded|].
  exact (X9_child_order_irrelevant example.shop_document
           samples.reordered_document samples.document_shop
           document_reordered document_keywords_distinct document_decoded).
Defined.

Lemma name_needed : "name" ∈ needed.
Proof. unfold needed. rewrite !elem_of_cons. tauto. Qed.

Lemma X10_required_children_witness :
  "name" ∈ needed ∧
  missing_argument (Shop.from_xml (example.wrapper "shop" [])) ∧
  missing_argument (Shop.from_iterator (M := example.M) []).
Proof.
  split; [exact name_needed|].
  destruct (X10_required_children (M := example.M) "name" name_needed)
    as [Hxml Hit].
  split.
  - exact (proj2 (Hxml (example.wrapper "shop" []) (not_elem_of_nil _))
             ∅ eq_refl).
  - exact (proj2 (Hit [] (not_elem_of_nil _)) ∅ eq_refl).
Defined.

Lemma X11_nameless_shop_not_decodable_witness :
  truthy (Shop.name samples.nameless_shop) = false ∧
  Shop.from_xml (Shop.create_xml samples.nameless_shop) ≠ Ok example.plain_shop.
Proof.
  split; [reflexivity|].
  exact (X11_nameless_shop_not_decodable samples.nameless_shop
           (or_introl eq_refl) example.plain_shop).
Defined.

Lemma blank_url_shop_constructed : Shop_constructed samples.blank_url_shop.
Proof.
  exists (Some "Shop"), (Some "Company"), [inl example.rub], [samples.books],
    [samples.offer7; samples.offer8], (Some ""), (Some "CMS"), None, None,
    (Some "shop@shop.example"), (Some [samples.courier]),
    (Some [samples.pickup]), (ArgStr "yes"), (Some [samples.gift1]),
    (Some [samples.promo1]).
  reflexivity.
Qed.

Lemma blank_url_shop_objects :
  ∀ s, inr s ∉ Shop.currencies samples.blank_url_shop.
Proof. intros s [=]%list_elem_of_singleton. Qed.

(** A shop with a member in every group and the empty string as its
    url. *)
Lemma X12_encode_decode_normalizes_witness :
  Shop_constructed samples.blank_url_shop ∧
  Shop._url samples.blank_url_shop = Some "" ∧
  Shop._url (normalized samples.blank_url_shop) = None ∧
  ∃ shop,
    Shop.from_xml (Shop.create_xml samples.blank_url_shop) = Ok shop ∧
    Shop.create_dict shop
    = Shop.create_dict (normalized samples.blank_url_shop).
Proof.
  split; [exact blank_url_shop_constructed|].
  split; [reflexivity|]. split; [reflexivity|].
  exact (X12_encode_decode_normalizes samples.blank_url_shop
           blank_url_shop_constructed eq_refl eq_refl blank_url_shop_objects).
Defined.

Lemma deep_name_events :
  Forall (λ ev, not_wrapper (tag ev.2)) (iterparse samples.deep_name).
Proof. cbn. repeat constructor; discriminate. Qed.

Lemma X18_stream_reads_scalars_at_any_depth_witness :
  Shop.from_iterator_loop (iterparse samples.deep_name) ∅
  = Ok (store_texts ∅ (closed (iterparse samples.deep_name))) ∧
  store_texts ∅ (closed (iterparse samples.deep_name)) !! "name"
  = Some (Shop.KwText (Some "Deep")).
Proof.
  split; [|reflexivity].
  exact (X18_stream_reads_scalars_at_any_depth (iterparse samples.deep_name) ∅
           deep_name_events).
Defined.

Lemma rub_events :
  Forall (λ ev, ¬ (ev.1 = end_ ∧ tag ev.2 = tag (example.wrapper "currencies" [])))
    (iterparse samples.rub_el).
Proof.
  cbn. repeat constructor; cbn; intros [? ?]; discriminate.
Qed.

Lemma X19_stream_truncated_wrapper_witness :
  Shop.from_iterator_loop
    ((start, example.wrapper "currencies" []) :: iterparse samples.rub_el) ∅
  = l ← mapM models.from_xml (closed (iterparse samples.rub_el));
    mret (<["currencies" := Shop.KwCurrencies l]> ∅).
Proof.
  exact (proj1 (X19_stream_truncated_wrapper (example.wrapper "currencies" [])
                  (iterparse samples.rub_el) ∅ rub_events) eq_refl).
Defined.

Lemma X17_feed_without_date_witness :
  clock example.now ∧
  attrib samples.undated_feed_document !! "date" = None ∧
  ∃ feed,
    Feed.from_xml example.now samples.undated_feed_document = Ok feed ∧
    Feed.shop feed = samples.document_shop ∧
    Feed._date feed = strftime example.now Feed.DATE_FORMAT ∧
    Feed.date feed = Ok example.now ∧
    attrib (Feed.create_xml feed) !! "date"
    = Some (strftime example.now Feed.DATE_FORMAT).
Proof.
  split; [exact clock_now|]. split; [reflexivity|].
  exact (X17_feed_without_date example.now samples.undated_feed_document
           example.shop_document [] samples.document_shop clock_now eq_refl
           eq_refl document_decoded).
Defined.
